(** * Encorely maintenance scripts: a shallow embedding and its properties

    The repository is a set of independent Python scripts.  Each script is
    embedded below as a pure function from what it reads (file contents,
    directory trees, environment, the output of [git diff]) to what it
    produces (collected lists, printed lines, written files, exit status).

    Python [str] values are modelled by [string]: a sequence of characters
    with code points below 256.  Python exceptions are modelled by explicit
    result types. *)

From Stdlib Require Import Ascii String ZArith Lia.
From stdpp Require Import base option list gmap strings.

Set Warnings "-register-all".

Local Open Scope Z_scope.
Local Open Scope nat_scope.

(** ** Python string primitives used by the scripts *)

Module Py.

Definition TAB : ascii := "009"%char.
Definition LF : ascii := "010"%char.
Definition CR : ascii := "013"%char.

Definition chr (c : ascii) : string := String c EmptyString.

(** [str.isspace] on one character, for code points below 256. *)
Definition is_space (c : ascii) : bool :=
  let n := nat_of_ascii c in
  ((9 <=? n) && (n <=? 13)) || ((28 <=? n) && (n <=? 32))
  || (n =? 133) || (n =? 160).

(** Line boundaries of [str.splitlines], for code points below 256
    (a carriage return followed by a line feed is one boundary). *)
Definition is_linebreak (c : ascii) : bool :=
  let n := nat_of_ascii c in
  ((10 <=? n) && (n <=? 13)) || ((28 <=? n) && (n <=? 30)) || (n =? 133).

(** [s.startswith(p)] *)
Fixpoint startswith (s p : string) {struct p} : bool :=
  match p, s with
  | EmptyString, _ => true
  | String a p', String b s' => if Ascii.eqb a b then startswith s' p' else false
  | String _ _, EmptyString => false
  end.

(** [s[n:]] for [0 <= n] *)
Fixpoint drop (n : nat) (s : string) : string :=
  match n, s with
  | O, _ => s
  | S n', String _ s' => drop n' s'
  | S _, EmptyString => EmptyString
  end.

(** [s[:n]] for [0 <= n] *)
Fixpoint take (n : nat) (s : string) : string :=
  match n, s with
  | O, _ => EmptyString
  | S n', String c s' => String c (take n' s')
  | S _, EmptyString => EmptyString
  end.

(** [s.endswith(p)] *)
Definition endswith (s p : string) : bool :=
  (String.length p <=? String.length s)
  && String.eqb (drop (String.length s - String.length p) s) p.

(** [p in s] *)
Fixpoint contains (s p : string) : bool :=
  startswith s p ||
  match s with
  | EmptyString => false
  | String _ s' => contains s' p
  end.

(** [s.lstrip()], [s.rstrip()], [s.strip()] *)
Fixpoint lstrip (s : string) : string :=
  match s with
  | String c s' => if is_space c then lstrip s' else s
  | EmptyString => EmptyString
  end.

Fixpoint rstrip (s : string) : string :=
  match s with
  | EmptyString => EmptyString
  | String c s' =>
      match rstrip s' with
      | EmptyString => if is_space c then EmptyString else chr c
      | r => String c r
      end
  end.

Definition strip (s : string) : string := rstrip (lstrip s).

(** [s.split(sep)] for a non-empty separator: the pieces between the
    occurrences of [sep], scanned from the left; never an empty list.
    [skip] counts the characters of a separator still to be passed over. *)
Fixpoint split_go (sep : string) (s : string) (skip : nat) (cur : string)
  : list string :=
  match s with
  | EmptyString => [cur]
  | String c s' =>
      match skip with
      | S n => split_go sep s' n cur
      | O =>
          if startswith s sep
          then cur :: split_go sep s' (String.length sep - 1) EmptyString
          else split_go sep s' 0 (cur +:+ chr c)
      end
  end.

Definition split (s sep : string) : list string := split_go sep s 0 EmptyString.

(** [s.split(sep)[0]] *)
Definition split0 (s sep : string) : string :=
  match split s sep with
  | x :: _ => x
  | [] => EmptyString
  end.

(** [s.split()]: the maximal runs of non-whitespace characters. *)
Fixpoint split_ws_go (s : string) (cur : string) : list string :=
  match s with
  | EmptyString => if String.eqb cur EmptyString then [] else [cur]
  | String c s' =>
      if is_space c
      then (if String.eqb cur EmptyString then split_ws_go s' EmptyString
            else cur :: split_ws_go s' EmptyString)
      else split_ws_go s' (cur +:+ chr c)
  end.

Definition split_ws (s : string) : list string := split_ws_go s EmptyString.

(** [s.splitlines()] *)
Fixpoint splitlines_go (s : string) (cur : string) : list string :=
  match s with
  | EmptyString => if String.eqb cur EmptyString then [] else [cur]
  | String c s' =>
      if is_linebreak c
      then cur :: (if Ascii.eqb c CR
                   then match s' with
                        | String d s'' =>
                            if Ascii.eqb d LF
                            then splitlines_go s'' EmptyString
                            else splitlines_go s' EmptyString
                        | EmptyString => []
                        end
                   else splitlines_go s' EmptyString)
      else splitlines_go s' (cur +:+ chr c)
  end.

Definition splitlines (s : string) : list string := splitlines_go s EmptyString.

End Py.

(** ** The fragment of Python's [re] used by the scripts

    A pattern is a sequence of atoms; the only repetitions the scripts use are
    [C+] (greedy) and [C+?] (lazy) over a character class [C].  [match_at] is
    the backtracking matcher: alternatives are tried in Python's order and the
    first success is the match.  No pattern of the scripts uses [$] or a
    [^] after the first position, so [re.MULTILINE] has no effect on them. *)

Module Re.
Import Py.

Inductive atom : Type :=
| Chr (c : ascii)                (* a literal character *)
| Caret                          (* [^] without MULTILINE: start of the text *)
| Plus (cls : ascii -> bool)     (* [C+] *)
| PlusLazy (cls : ascii -> bool) (* [C+?] *)
| GOpen                          (* [(] *)
| GClose.                        (* [)] *)

Definition pattern : Type := list atom.

Fixpoint lit (s : string) : pattern :=
  match s with
  | EmptyString => []
  | String c s' => Chr c :: lit s'
  end.

(** [.] without DOTALL *)
Definition dot (c : ascii) : bool := negb (Ascii.eqb c LF).

(** State of a match attempt: the index of the next character of the text,
    the text of the group being captured, and the groups captured so far. *)
Record mstate : Type := MState {
  pos : nat;
  cur : option string;
  groups : list string
}.

Definition eat (c : ascii) (st : mstate) : mstate :=
  {| pos := S (pos st);
     cur := (fun g => g +:+ chr c) <$> cur st;
     groups := groups st |}.

Definition gopen (st : mstate) : mstate :=
  {| pos := pos st; cur := Some EmptyString; groups := groups st |}.

Definition gclose (st : mstate) : mstate :=
  {| pos := pos st; cur := None;
     groups := groups st ++ match cur st with Some g => [g] | None => [] end |}.

Fixpoint match_at (p : pattern) : string -> mstate -> option mstate :=
  match p with
  | [] => fun _ st => Some st
  | Chr c :: p' =>
      fun s st =>
        match s with
        | String d s' => if Ascii.eqb c d then match_at p' s' (eat d st) else None
        | EmptyString => None
        end
  | Caret :: p' =>
      fun s st => if pos st =? 0 then match_at p' s st else None
  | GOpen :: p' => fun s st => match_at p' s (gopen st)
  | GClose :: p' => fun s st => match_at p' s (gclose st)
  | Plus cls :: p' =>
      fix more (s : string) (st : mstate) : option mstate :=
        match s with
        | String d s' =>
            if cls d
            then match more s' (eat d st) with
                 | Some r => Some r
                 | None => match_at p' s' (eat d st)
                 end
            else None
        | EmptyString => None
        end
  | PlusLazy cls :: p' =>
      fix more (s : string) (st : mstate) : option mstate :=
        match s with
        | String d s' =>
            if cls d
            then match match_at p' s' (eat d st) with
                 | Some r => Some r
                 | None => more s' (eat d st)
                 end
            else None
        | EmptyString => None
        end
  end.

Definition start (i : nat) : mstate := MState i None [].

(** [re.compile(p).match(s)] as a truth value *)
Definition matches (p : pattern) (s : string) : bool :=
  bool_decide (is_Some (match_at p s (start 0))).

(** [re.findall(p, s)]: the groups of the successive non-overlapping matches,
    leftmost first.  [skip] counts the characters of the last match still to
    be passed over.  (Every pattern of the scripts consumes at least one
    character, so the rules for empty matches are not modelled.) *)
Fixpoint findall_go (p : pattern) (s : string) (i skip : nat)
  : list (list string) :=
  match s with
  | EmptyString => []
  | String _ s' =>
      match skip with
      | S n => findall_go p s' (S i) n
      | O =>
          match match_at p s (start i) with
          | Some st => groups st :: findall_go p s' (S i) (pos st - S i)
          | None => findall_go p s' (S i) 0
          end
      end
  end.

Definition findall (p : pattern) (s : string) : list (list string) :=
  findall_go p s 0 0.

(** [re.sub(p, '', s)]: the text with every successive non-overlapping match
    deleted. *)
Fixpoint sub_go (p : pattern) (s : string) (i skip : nat) : string :=
  match s with
  | EmptyString => EmptyString
  | String c s' =>
      match skip with
      | S n => sub_go p s' (S i) n
      | O =>
          match match_at p s (start i) with
          | Some st =>
              if pos st =? i then String c (sub_go p s' (S i) 0)
              else sub_go p s' (S i) (pos st - S i)
          | None => String c (sub_go p s' (S i) 0)
          end
      end
  end.

Definition sub (p : pattern) (s : string) : string := sub_go p s 0 0.

End Re.

(** ** scripts/check_path_hygiene.py *)

Module PathHygiene.
Import Py.

Definition not_slash (c : ascii) : bool := negb (Ascii.eqb c "/"%char).

Definition ALLOWED : list string :=
  [ "^Sources/App/Consolidated/";
    "^Sources/Kits/";
    "^Sources/SharedTypes/";
    "^Sources/MCP[^/]+/";
    "^Tests/" ].

(** [ALLOWED_RE = [re.compile(p) for p in ALLOWED]] *)
Definition ALLOWED_RE : list Re.pattern :=
  [ Re.Caret :: Re.lit "Sources/App/Consolidated/";
    Re.Caret :: Re.lit "Sources/Kits/";
    Re.Caret :: Re.lit "Sources/SharedTypes/";
    Re.Caret :: Re.lit "Sources/MCP" ++ [Re.Plus not_slash] ++ Re.lit "/";
    Re.Caret :: Re.lit "Tests/" ].

(** The diff range: [origin/<base>...HEAD] when GITHUB_BASE_REF is set and
    non-empty, otherwise the last commit. *)
Definition ref_range (base : option string) : string :=
  match base with
  | Some b => if String.eqb b EmptyString then "HEAD~1..HEAD"
              else "origin/" +:+ b +:+ "...HEAD"
  | None => "HEAD~1..HEAD"
  end.

(** What [subprocess.check_output] gives: the text git printed, or
    [CalledProcessError] (with its message) when git exits non-zero. *)
Inductive git_result : Type :=
| GitOutput (out : string)
| CalledProcessError (msg : string).

(** One iteration of the filtering loop: the violation a diff line records,
    if any. *)
Definition line_violation (line : string) : option string :=
  let parts := split line (chr TAB) in
  match parts with
  | [] => None
  | p0 :: rest =>
      let status := strip p0 in
      if negb (String.eqb status "A") then None
      else match rest with
           | [] => None
           | p1 :: _ =>
               let path := strip p1 in
               if negb (endswith path ".swift") then None
               else if startswith path "backup/" then None
               else if existsb (fun r => Re.matches r path) ALLOWED_RE then None
               else Some path
           end
  end.

Definition violations (out : string) : list string :=
  omap line_violation (splitlines out).

Record outcome : Type := Outcome {
  stdout : list string;
  stderr : list string;
  exit_status : Z
}.

(** The whole script.  [git] answers the [git --no-pager diff --name-status]
    call for a given range. *)
Definition check_path_hygiene (base : option string) (git : string -> git_result)
  : outcome :=
  match git (ref_range base) with
  | CalledProcessError msg =>
      Outcome [] ["Git diff failed: " +:+ msg] 2
  | GitOutput out =>
      let vs := violations out in
      match vs with
      | _ :: _ =>
          Outcome
            (["Path hygiene check failed. New Swift files must live under one of:"]
             ++ map (fun p => "  - " +:+ p) ALLOWED
             ++ [chr LF +:+ "The following new files violate the policy:"]
             ++ map (fun v => "  - " +:+ v) vs)
            [] 1
      | [] =>
          Outcome
            ["Path hygiene check passed. No new Swift files outside allowed directories."]
            [] 0
      end
  end.

End PathHygiene.

(** ** Files and directory trees *)

Module Fs.
Import Py.

(** What reading a file as text can give: its text, a decoding failure
    ([UnicodeDecodeError]), or an operating-system failure ([OSError]). *)
Inductive file_data : Type :=
| Text (s : string)
| Undecodable
| Unreadable.

(** A directory lists its entries in the order [os.scandir] reports them. *)
Inductive node : Type :=
| File (d : file_data)
| Dir (entries : list (string * node)).

Definition is_dir (n : node) : bool :=
  match n with Dir _ => true | File _ => false end.

Definition dirnames (es : list (string * node)) : list string :=
  map fst (filter (fun e => is_dir (snd e)) es).

Definition filenames (es : list (string * node)) : list string :=
  map fst (filter (fun e => negb (is_dir (snd e))) es).

(** [os.path.join(a, b)] on POSIX *)
Definition join (a b : string) : string :=
  if startswith b "/" then b
  else if String.eqb a EmptyString || endswith a "/" then a +:+ b
  else a +:+ "/" +:+ b.

(** [os.path.basename(p)]: what follows the last separator *)
Fixpoint basename_go (p : string) (cur : string) : string :=
  match p with
  | EmptyString => cur
  | String c p' =>
      if Ascii.eqb c "/"%char then basename_go p' EmptyString
      else basename_go p' (cur +:+ chr c)
  end.

Definition basename (p : string) : string := basename_go p EmptyString.

(** [os.walk(top)], top-down: one triple [(base, dirs, files)] per directory.
    [keep] is the in-place pruning of [dirs] done by the loop body (the
    sub-directories the walk still descends into); a loop that does not
    prune keeps everything. *)
Fixpoint walk (keep : string -> bool) (top : string) (n : node)
  : list (string * list string * list string) :=
  match n with
  | File _ => []
  | Dir es =>
      (top, filter (fun d => keep d) (dirnames es), filenames es)
      :: (fix descend (l : list (string * node)) :=
            match l with
            | [] => []
            | (name, child) :: l' =>
                (if is_dir child && keep name
                 then walk keep (join top name) child else [])
                ++ descend l'
            end) es
  end.

(** The entry at a relative path, given by its components. *)
Fixpoint lookup (n : node) (path : list string) : option node :=
  match path with
  | [] => Some n
  | name :: path' =>
      match n with
      | File _ => None
      | Dir es =>
          match List.find (fun e => String.eqb (fst e) name) es with
          | Some e => lookup (snd e) path'
          | None => None
          end
      end
  end.

(** [(root / rel).exists()] for a relative path written with [/] *)
Definition exists_ (root : node) (rel : string) : bool :=
  bool_decide (is_Some (lookup root (split rel "/"))).

End Fs.

(** ** scripts/scan_redundancy.py and the collector of scripts/scan_project.py *)

Module ScanRedundancy.
Import Py Fs.

(** The substrings of [base] that make the loop skip a directory
    ([os.sep] is [/]). *)
Definition SKIP : list string :=
  ["/.git/"; "/.build/"; "/build/"; "/DerivedData/"; "/fastlane/"; "/backup/"].

(** The collection loop, for a given list of skip substrings. *)
Definition collect (skip : list string) (ROOT : string) (tree : node)
  : list string :=
  flat_map
    (fun '(base, _, files) =>
       if existsb (fun s => contains base s) skip then []
       else map (join base) (filter (fun f => endswith f ".swift") files))
    (walk (fun _ => true) ROOT tree).

Definition swift_files (ROOT : string) (tree : node) : list string :=
  collect SKIP ROOT tree.

(** [by_name[os.path.basename(p)].append(p)] for each path, in order *)
Definition by_name (paths : list string) : gmap string (list string) :=
  fold_left
    (fun m p => <[basename p := default [] (m !! basename p) ++ [p]]> m)
    paths ∅.

(** [{name: paths for name, paths in by_name.items() if len(paths) > 1}] *)
Definition duplicates (paths : list string) : gmap string (list string) :=
  filter (fun kv => 1 < length (snd kv)) (by_name paths).

End ScanRedundancy.

Module ScanProject.
Import Py Fs.

Definition SKIP : list string :=
  ["/.git/"; "/.build/"; "/build/"; "/DerivedData/"].

Definition swift_files (ROOT : string) (tree : node) : list string :=
  ScanRedundancy.collect SKIP ROOT tree.

End ScanProject.

(** ** fix_duplicates.py

    The script rewrites one fixed project file.  [run] takes the content of
    that file and gives the content written back ([None] when the script
    leaves before writing) and the exit status; the progress messages are
    not modelled. *)

Module FixDuplicates.
Import Py.

(** [s.find(sub, start)] with Python's treatment of a negative [start];
    the result is [-1] when [sub] does not occur. *)
Fixpoint find_nat (s sub : string) : option nat :=
  if startswith s sub then Some 0
  else match s with
       | EmptyString => None
       | String _ s' => S <$> find_nat s' sub
       end.

Definition clamp (n : nat) (i : Z) : nat :=
  let i := (if i <? 0 then i + Z.of_nat n else i)%Z in
  if (i <? 0)%Z then 0 else Nat.min n (Z.to_nat i).

Definition find (s sub : string) (start : Z) : Z :=
  if (Z.of_nat (String.length s) <? start)%Z then (-1)%Z
  else
    let st := clamp (String.length s) start in
    match find_nat (drop st s) sub with
    | Some i => Z.of_nat (st + i)
    | None => (-1)%Z
    end.

(** [s[a:b]] with Python's treatment of negative and out-of-range bounds *)
Definition slice (s : string) (a b : Z) : string :=
  let a := clamp (String.length s) a in
  let b := clamp (String.length s) b in
  take (b - a) (drop a s).

Definition MAIN_SOURCES : string := "DD9B493FC570EE3F155BC4F2 /* Sources */ = {".

(** The class [[A-F0-9]] *)
Definition hex_upper (c : ascii) : bool :=
  let n := nat_of_ascii c in
  ((48 <=? n) && (n <=? 57)) || ((65 <=? n) && (n <=? 70)).

Definition TABS : string := chr TAB +:+ chr TAB +:+ chr TAB +:+ chr TAB.

(** [\t\t\t\t([A-F0-9]+) /\* (.+?\.swift) in Sources \*/,] *)
Definition file_pattern : Re.pattern :=
  Re.lit TABS ++ [Re.GOpen; Re.Plus hex_upper; Re.GClose] ++ Re.lit " /* "
  ++ [Re.GOpen; Re.PlusLazy Re.dot] ++ Re.lit ".swift" ++ [Re.GClose]
  ++ Re.lit " in Sources */,".

(** [\t\t\t\t{file_id} /\* .+? in Sources \*/,\n]; an identifier captured by
    [file_pattern] has only characters of [[A-F0-9]], so it stands for itself
    in the pattern. *)
Definition removal_pattern (file_id : string) : Re.pattern :=
  Re.lit TABS ++ Re.lit file_id ++ Re.lit " /* "
  ++ [Re.PlusLazy Re.dot] ++ Re.lit (" in Sources */," +:+ chr LF).

(** [content[files_start:files_end]] of the main Sources build phase *)
Definition sources_section (content : string) (main_sources_start : Z) : string :=
  let files_start := find content "files = (" main_sources_start in
  let files_end := find content ");" files_start in
  slice content files_start files_end.

(** [re.findall(file_pattern, sources_section)] as pairs (identifier, file name) *)
Definition entries (section : string) : list (string * string) :=
  omap (fun g => match g with
                 | [file_id; filename] => Some (file_id, filename)
                 | _ => None
                 end)
       (Re.findall file_pattern section).

(** One iteration of the loop filling [files_to_keep] and [files_to_remove] *)
Definition classify_step (st : gmap string string * list string)
    (m : string * string) : gmap string string * list string :=
  let '(files_to_keep, files_to_remove) := st in
  let '(file_id, filename) := m in
  match files_to_keep !! filename with
  | None => (<[filename := file_id]> files_to_keep, files_to_remove)
  | Some _ => (files_to_keep, files_to_remove ++ [file_id])
  end.

Definition classify (matches : list (string * string))
  : gmap string string * list string :=
  fold_left classify_step matches (∅, []).

Definition files_to_keep (matches : list (string * string)) : gmap string string :=
  fst (classify matches).

Definition files_to_remove (matches : list (string * string)) : list string :=
  snd (classify matches).

(** The loop of [re.sub] calls over the whole content *)
Definition remove_lines (ids : list string) (content : string) : string :=
  fold_left (fun new_content file_id => Re.sub (removal_pattern file_id) new_content)
            ids content.

Record outcome : Type := Outcome {
  written : option string;
  exit_status : Z
}.

Definition run (content : string) : outcome :=
  let main_sources_start := find content MAIN_SOURCES 0 in
  if (main_sources_start =? -1)%Z then Outcome None 1
  else
    let matches := entries (sources_section content main_sources_start) in
    Outcome (Some (remove_lines (files_to_remove matches) content)) 0.

(** The project file after the script ran on [content] *)
Definition file_after (content : string) : string :=
  default content (written (run content)).

End FixDuplicates.

(** ** Exceptions and values of the Python runtime *)

Module Exc.
Import Py Fs.

(** The exception classes that the modelled calls can raise.  None of
    [UnicodeDecodeError], [AttributeError], [TypeError] and [ValueError] is a
    subclass of [OSError] or of [json.JSONDecodeError]. *)
Inductive exn : Type :=
| OSError
| JSONDecodeError
| UnicodeDecodeError
| AttributeError
| TypeError
| ValueError.

Inductive result (A : Type) : Type :=
| Ok (a : A)
| Raise (e : exn).
Arguments Ok {A} a.
Arguments Raise {A} e.

#[global] Instance result_bind : MBind result :=
  fun A B (k : A -> result B) (r : result A) =>
    match r with
    | Ok a => k a
    | Raise e => Raise e
    end.

(** [path.read_text()]: reading a directory is an [OSError]. *)
Definition read_text (n : node) : result string :=
  match n with
  | File (Text s) => Ok s
  | File Undecodable => Raise UnicodeDecodeError
  | File Unreadable => Raise OSError
  | Dir _ => Raise OSError
  end.

(** Values produced by [json.loads]; a dict lists its items in insertion
    order, with distinct keys. *)
Inductive pyval : Type :=
| PNone
| PBool (b : bool)
| PInt (n : Z)
| PFloat (repr : string)
| PStr (s : string)
| PList (l : list pyval)
| PDict (items : list (string * pyval)).

Definition assoc {A : Type} (k : string) (items : list (string * A)) : option A :=
  snd <$> List.find (fun kv => String.eqb (fst kv) k) items.

(** [v.get(key, {})]: only a dict has the method. *)
Definition get_or_empty (v : pyval) (key : string) : result pyval :=
  match v with
  | PDict items => Ok (default (PDict []) (assoc key items))
  | _ => Raise AttributeError
  end.

(** [v.keys()] as a list *)
Definition keys (v : pyval) : result (list string) :=
  match v with
  | PDict items => Ok (map fst items)
  | _ => Raise AttributeError
  end.

(** [{**a, **b}] for two dicts *)
Definition merge (a b : pyval) : result (list (string * pyval)) :=
  match a, b with
  | PDict ia, PDict ib =>
      Ok (map (fun kv => (fst kv, default (snd kv) (assoc (fst kv) ib))) ia
          ++ filter (fun kv => bool_decide (assoc (fst kv) ia = None)) ib)
  | _, _ => Raise TypeError
  end.

End Exc.

(** ** scripts/dependency_analyzer.py

    [json.loads] belongs to the Python library; the analyzer is modelled over
    any function [json_loads] from a text to the value it denotes, [None]
    standing for [json.JSONDecodeError].  Of the printed output only the
    warnings on the error stream are modelled. *)

Module DependencyAnalyzer.
Import Py Fs Exc.

Record npm_dependencies : Type := NpmDeps {
  runtime : list string;
  dev : list string;
  peer : list string;
  versions : list (string * pyval)
}.

(** The non-empty dicts the four parsers return, by their ["type"] *)
Inductive manifest : Type :=
| Npm (dependencies : npm_dependencies)
| Pip (packages : list string)
| Go (modules : list (string * string))
| SwiftPM (packages : list string).

(** A line [Warning: Could not parse <file>: <e>] on the error stream *)
Record diagnostic : Type := CouldNotParse {
  diag_file : string;
  diag_exn : exn
}.

(** What a parser call does: it returns a dict ([None] for the empty dict)
    after printing diagnostics, or an exception leaves it. *)
Definition parsed : Type := result (option manifest * list diagnostic).

Section Parsers.

Variable json_loads : string -> option pyval.

Definition loads (text : string) : result pyval :=
  match json_loads text with
  | Some v => Ok v
  | None => Raise JSONDecodeError
  end.

(** The body of the [try] block of [parse_package_json] *)
Definition package_json_body (pkg_file : node) : result manifest :=
  text ← read_text pkg_file;
  data ← loads text;
  deps ← get_or_empty data "dependencies";
  runtime ← keys deps;
  devdeps ← get_or_empty data "devDependencies";
  dev ← keys devdeps;
  peerdeps ← get_or_empty data "peerDependencies";
  peer ← keys peerdeps;
  versions ← merge deps devdeps;
  Ok (Npm (NpmDeps runtime dev peer versions)).

(** [try: ... except (json.JSONDecodeError, OSError) as e: warn; return {}] *)
Definition parse_package_json (project_path : node) : parsed :=
  match lookup project_path ["package.json"] with
  | None => Ok (None, [])
  | Some pkg_file =>
      match package_json_body pkg_file with
      | Ok m => Ok (Some m, [])
      | Raise JSONDecodeError => Ok (None, [CouldNotParse "package.json" JSONDecodeError])
      | Raise OSError => Ok (None, [CouldNotParse "package.json" OSError])
      | Raise e => Raise e
      end
  end.

End Parsers.

(** [try: ... except OSError as e: warn; return {}], shared by the three
    line-oriented parsers *)
Definition guarded (name : string) (project_path : node)
    (body : string -> manifest) : parsed :=
  match lookup project_path [name] with
  | None => Ok (None, [])
  | Some file =>
      match read_text file with
      | Ok text => Ok (Some (body text), [])
      | Raise OSError => Ok (None, [CouldNotParse name OSError])
      | Raise e => Raise e
      end
  end.

Definition requirements_packages (text : string) : list string :=
  filter (fun line => negb (String.eqb line EmptyString) && negb (startswith line "#"))
         (map strip (splitlines text)).

Definition parse_requirements_txt (project_path : node) : parsed :=
  guarded "requirements.txt" project_path (fun text => Pip (requirements_packages text)).

(** The first two fields of a requirement line of go.mod, if it has two *)
Definition module_of (fields : list string) : list (string * string) :=
  match fields with
  | m :: v :: _ => [(m, v)]
  | _ => []
  end.

(** The loop over the lines of go.mod; [in_require] is its flag. *)
Fixpoint go_modules (lines : list string) (in_require : bool)
  : list (string * string) :=
  match lines with
  | [] => []
  | raw :: rest =>
      let line := strip raw in
      if startswith line "require (" then go_modules rest true
      else if in_require then
        if String.eqb line ")" then go_modules rest false
        else if negb (String.eqb line EmptyString)
        then module_of (split_ws line) ++ go_modules rest true
        else go_modules rest true
      else if startswith line "require " && negb (endswith line "(")
      then module_of (split_ws (drop 8 line)) ++ go_modules rest false
      else go_modules rest false
  end.

Definition parse_go_mod (project_path : node) : parsed :=
  guarded "go.mod" project_path (fun text => Go (go_modules (splitlines text) false)).

Definition swift_packages (text : string) : list string :=
  map strip
    (filter (fun line => contains line ".package(" && contains line "url:")
            (map strip (splitlines text))).

Definition parse_package_swift (project_path : node) : parsed :=
  guarded "Package.swift" project_path (fun text => SwiftPM (swift_packages text)).

(** The deny-list of [detect_outdated_patterns] *)
Definition deprecated : gmap string string :=
  <["request" := "Use 'axios' or native fetch instead of the deprecated 'request' package"]>
  (<["moment" := "Consider replacing 'moment' with 'date-fns' or 'dayjs' for smaller bundle size"]>
  (<["lodash" := "Consider using native JS methods or tree-shaken 'lodash-es' instead of 'lodash'"]>
  (<["node-uuid" := "Replace 'node-uuid' with the 'uuid' package"]> ∅))).

Record warning : Type := Warning {
  dependency : string;
  message : string
}.

(** [dep.split("@")[0].split(">=")[0].split("==")[0].strip()] *)
Definition dep_name (dep : string) : string :=
  strip (split0 (split0 (split0 dep "@") ">=") "==").

Definition detect_outdated_patterns (dependencies : list string) : list warning :=
  omap (fun dep => Warning (dep_name dep) <$> deprecated !! dep_name dep) dependencies.

(** The packages [main] collects from one parsed manifest *)
Definition packages_of (m : manifest) : list string :=
  match m with
  | Npm deps => runtime deps
  | Pip pkgs => pkgs
  | Go _ => []
  | SwiftPM _ => []
  end.

Record args : Type := Args {
  analyze : bool;
  json_format : bool;
  verbose : bool
}.

(** How a run ends: with an exit status, after building its report (when it
    got that far), or with an exception nobody caught. *)
Record report : Type := Report {
  all_deps : list (string * manifest);
  warnings : list warning
}.

Inductive ending : Type :=
| Exit (status : Z) (diagnostics : list diagnostic) (r : option report)
| Uncaught (e : exn).

Definition entry (key : string) (m : option manifest) : list (string * manifest) :=
  match m with
  | Some x => [(key, x)]
  | None => []
  end.

Section Main.

Variable json_loads : string -> option pyval.

(** [main]; [project] is [None] when the project path does not exist. *)
Definition main (a : args) (project : option node) : ending :=
  match project with
  | None => Exit 1 [] None
  | Some project_path =>
      let run : result (list diagnostic * report) :=
        '(npm_deps, d1) ← parse_package_json json_loads project_path;
        '(pip_deps, d2) ← parse_requirements_txt project_path;
        '(go_deps, d3) ← parse_go_mod project_path;
        '(swift_deps, d4) ← parse_package_swift project_path;
        let all_deps := entry "npm" npm_deps ++ entry "pip" pip_deps
                        ++ entry "go" go_deps ++ entry "swift" swift_deps in
        let all_packages := flat_map (fun kv => packages_of (snd kv)) all_deps in
        let warnings := if analyze a then detect_outdated_patterns all_packages
                        else [] in
        Ok (d1 ++ d2 ++ d3 ++ d4, Report all_deps warnings)
      in
      match run with
      | Raise e => Uncaught e
      | Ok (ds, r) => Exit 0 ds (match all_deps r with [] => None | _ => Some r end)
      end
  end.

End Main.

End DependencyAnalyzer.

(** ** scripts/project_architect.py

    Only the values the report is built from and the exit status are
    modelled, not the text printed with [--verbose]. *)

Module ProjectArchitect.
Import Py Fs Exc.

Record recommendation : Type := Rec {
  rec_type : string;
  rec_message : string
}.

Definition structure_checks : list (string * string) :=
  [ ("README.md", "Add a README.md with project overview and setup instructions");
    (".gitignore", "Add a .gitignore to exclude build artifacts and secrets");
    (".env.example", "Add a .env.example to document required environment variables");
    ("CONTRIBUTING.md", "Add a CONTRIBUTING.md to guide contributors");
    ("CHANGELOG.md", "Add a CHANGELOG.md to track version history") ].

Definition check_project_structure (project_path : node) : list recommendation :=
  flat_map
    (fun '(filename, recommendation) =>
       if exists_ project_path filename then []
       else [Rec "structure" recommendation])
    structure_checks.

Definition test_dirs : list string := ["tests"; "test"; "__tests__"; "spec"].

Definition lint_configs : list string :=
  [ ".eslintrc"; ".eslintrc.js"; ".eslintrc.json"; ".eslintrc.yml";
    ".pylintrc"; "pyproject.toml"; ".swiftlint.yml"; ".golangci.yml" ].

Definition MISSING_TESTS : recommendation :=
  Rec "quality" "Add a tests/ directory with unit and integration tests".

Definition MISSING_LINTER : recommendation :=
  Rec "quality" "Add linter configuration (ESLint, Pylint, SwiftLint, etc.)".

Definition check_code_quality (project_path : node) : list recommendation :=
  (if existsb (exists_ project_path) test_dirs then [] else [MISSING_TESTS])
  ++ (if existsb (exists_ project_path) lint_configs then [] else [MISSING_LINTER]).

Definition security_files : list string := ["SECURITY.md"; ".github/SECURITY.md"].

Definition env_files : list string := [".env"; ".env.local"; ".env.development"].

(** The loop over [env_files]; reading .gitignore can raise. *)
Fixpoint check_env_files (project_path : node) (l : list string)
  : result (list recommendation) :=
  match l with
  | [] => Ok []
  | env_file :: rest =>
      here ← (if exists_ project_path env_file then
                match lookup project_path [".gitignore"] with
                | Some gitignore_path =>
                    gitignore_content ← read_text gitignore_path;
                    if negb (contains gitignore_content env_file)
                       && negb (contains gitignore_content ".env")
                    then Ok [Rec "security"
                               ("Ensure " +:+ env_file
                                +:+ " is listed in .gitignore to avoid leaking secrets")]
                    else Ok []
                | None => Ok []
                end
              else Ok []);
      more ← check_env_files project_path rest;
      Ok (here ++ more)
  end.

Definition check_security (project_path : node) : result (list recommendation) :=
  envs ← check_env_files project_path env_files;
  Ok ((if existsb (exists_ project_path) security_files then []
       else [Rec "security"
               "Add a SECURITY.md to document vulnerability reporting process"])
      ++ envs).

Definition ci_paths : list string :=
  [".github/workflows"; ".circleci"; ".gitlab-ci.yml"; "Jenkinsfile"; ".travis.yml"].

Definition MISSING_CI : recommendation :=
  Rec "devops" "Add CI/CD configuration (GitHub Actions, CircleCI, etc.)".

Definition check_ci_cd (project_path : node) : list recommendation :=
  if existsb (exists_ project_path) ci_paths then [] else [MISSING_CI].

(** [str.lower] on one character, for code points below 256 *)
Definition lower_char (c : ascii) : ascii :=
  let n := nat_of_ascii c in
  if ((65 <=? n) && (n <=? 90)) || ((192 <=? n) && (n <=? 214))
     || ((216 <=? n) && (n <=? 222))
  then ascii_of_nat (n + 32) else c.

Fixpoint lower (s : string) : string :=
  match s with
  | EmptyString => EmptyString
  | String c s' => String (lower_char c) (lower s')
  end.

(** [name.rfind('.')] *)
Fixpoint rfind_dot (name : string) : option nat :=
  match name with
  | EmptyString => None
  | String c rest =>
      match rfind_dot rest with
      | Some i => Some (S i)
      | None => if Ascii.eqb c "."%char then Some 0 else None
      end
  end.

(** [Path(name).suffix] for a single path component: the text from the last
    dot, unless that dot is the first or the last character *)
Definition suffix (name : string) : string :=
  match rfind_dot name with
  | Some i => if (0 <? i) && (i <? String.length name - 1) then drop i name
              else EmptyString
  | None => EmptyString
  end.

Definition mem (x : string) (l : list string) : bool :=
  existsb (String.eqb x) l.

Definition source_extensions : list string :=
  [".py"; ".js"; ".ts"; ".swift"; ".kt"; ".go"; ".dart"].

Definition test_keywords : list string := ["test"; "spec"; "__test__"].

Record metrics : Type := Metrics {
  total_files : nat;
  source_files : nat;
  test_files : nat;
  doc_files : nat
}.

(** The pruning [dirs[:] = [d for d in dirs if ...]] of the walk *)
Definition keep_dir (d : string) : bool :=
  negb (startswith d ".") && negb (mem d ["node_modules"; ".git"; "build"; "dist"]).

(** The body of the inner loop, for one file name *)
Definition count_file (m : metrics) (fname : string) : metrics :=
  let ext := lower (suffix fname) in
  let is_source := mem ext source_extensions in
  let is_test := is_source && existsb (fun kw => contains (lower fname) kw) test_keywords in
  let is_doc := mem ext [".md"; ".rst"; ".txt"] in
  {| total_files := total_files m + 1;
     source_files := source_files m + (if is_source then 1 else 0);
     test_files := test_files m + (if is_test then 1 else 0);
     doc_files := doc_files m + (if is_doc then 1 else 0) |}.

Definition compute_metrics (project_path : node) : metrics :=
  fold_left
    (fun m '(_, _, files) => fold_left count_file files m)
    (walk keep_dir "" project_path)
    (Metrics 0 0 0 0).

Inductive ending : Type :=
| Exit (status : Z) (recommendations : list recommendation) (m : option metrics)
| Uncaught (e : exn).

(** [main]; [target] is [None] when the target path does not exist. *)
Definition main (target : option node) : ending :=
  match target with
  | None => Exit 1 [] None
  | Some project_path =>
      let structure_recs := check_project_structure project_path in
      let quality_recs := check_code_quality project_path in
      match check_security project_path with
      | Raise e => Uncaught e
      | Ok security_recs =>
          let cicd_recs := check_ci_cd project_path in
          let metrics := compute_metrics project_path in
          let all_recommendations :=
            structure_recs ++ quality_recs ++ security_recs ++ cicd_recs in
          Exit (match all_recommendations with [] => 0 | _ => 1 end)
               all_recommendations (Some metrics)
      end
  end.

End ProjectArchitect.

(** ** scripts/architecture_diagram_generator.py

    The text of the diagram does not matter for where it is written: [main]
    takes it as a function of the format. *)

Module DiagramGenerator.
Import Py Exc.

Inductive format : Type := Mermaid | Plantuml | Json.

Definition ext (f : format) : string :=
  match f with
  | Mermaid => "md"
  | Plantuml => "puml"
  | Json => "json"
  end.

(** A [pathlib.PurePosixPath]: its root ([""], ["/"] or ["//"]) and its
    components. *)
Record pure_path : Type := PurePath {
  root : string;
  parts : list string
}.

(** [Path(s)]: exactly two leading slashes are kept as the root, any other
    number of them is one; empty components and [.] are dropped. *)
Definition parse (s : string) : pure_path :=
  {| root := if startswith s "//" && negb (startswith s "///") then "//"
             else if startswith s "/" then "/" else EmptyString;
     parts := filter (fun c => negb (String.eqb c EmptyString) && negb (String.eqb c "."))
                     (split s "/") |}.

Fixpoint join_parts (l : list string) : string :=
  match l with
  | [] => EmptyString
  | [x] => x
  | x :: rest => x +:+ "/" +:+ join_parts rest
  end.

(** [str(p)] *)
Definition to_str (p : pure_path) : string :=
  match root p, parts p with
  | EmptyString, [] => "."
  | r, l => r +:+ join_parts l
  end.

(** [p.name] *)
Definition name (p : pure_path) : string := List.last (parts p) EmptyString.

(** [p.with_suffix(suffix)] for a suffix that is a dot followed by letters *)
Definition with_suffix (p : pure_path) (suffix : string) : result pure_path :=
  let n := name p in
  if String.eqb n EmptyString then Raise ValueError
  else
    let old_suffix := ProjectArchitect.suffix n in
    let n' := if String.eqb old_suffix EmptyString then n +:+ suffix
              else take (String.length n - String.length old_suffix) n +:+ suffix in
    Ok {| root := root p; parts := removelast (parts p) ++ [n'] |}.

(** How a run ends: with an exit status before writing anything, with an
    uncaught exception, or with the call [output_file.write_text(content)]. *)
Inductive ending : Type :=
| Exit (status : Z)
| Uncaught (e : exn)
| WriteText (output_file : string) (content : string).

Section Main.

Variable content_of : format -> string.

(** [main]; [project_exists] is the test [project_path.exists()]. *)
Definition main (project_exists : bool) (output : string) (f : format) : ending :=
  if negb project_exists then Exit 1
  else
    match with_suffix (parse output) ("." +:+ ext f) with
    | Raise e => Uncaught e
    | Ok output_file => WriteText (to_str output_file) (content_of f)
    end.

End Main.

End DiagramGenerator.

(** ** scripts/architecture_diagram_generator.py: what the diagram holds

    [json.dumps] belongs to the Python library; the JSON format is modelled
    up to the value handed to it. *)

Module DiagramContent.
Import Py Fs Exc DiagramGenerator.

Definition QUOTE : ascii := "034"%char.

(** The dict [stack], by its five keys *)
Record stack : Type := Stack {
  languages : list string;
  frontend : list string;
  backend : list string;
  database : list string;
  devops : list string
}.

Inductive category : Type := Languages | Frontend | Backend | Database | Devops.

#[global] Instance category_eq_dec : EqDecision category.
Proof. solve_decision. Defined.

(** [stack[category]] *)
Definition get (c : category) (s : stack) : list string :=
  match c with
  | Languages => languages s
  | Frontend => frontend s
  | Backend => backend s
  | Database => database s
  | Devops => devops s
  end.

(** [stack[category].append(tech)] *)
Definition append (c : category) (tech : string) (s : stack) : stack :=
  match c with
  | Languages => Stack (languages s ++ [tech]) (frontend s) (backend s) (database s) (devops s)
  | Frontend => Stack (languages s) (frontend s ++ [tech]) (backend s) (database s) (devops s)
  | Backend => Stack (languages s) (frontend s) (backend s ++ [tech]) (database s) (devops s)
  | Database => Stack (languages s) (frontend s) (backend s) (database s ++ [tech]) (devops s)
  | Devops => Stack (languages s) (frontend s) (backend s) (database s) (devops s ++ [tech])
  end.

Definition indicators : list (string * (category * string)) :=
  [ ("package.json", (Languages, "JavaScript/TypeScript"));
    ("requirements.txt", (Languages, "Python"));
    ("go.mod", (Languages, "Go"));
    ("Package.swift", (Languages, "Swift"));
    ("build.gradle", (Languages, "Kotlin/Java"));
    ("pubspec.yaml", (Frontend, "Flutter"));
    ("next.config.js", (Frontend, "Next.js"));
    ("Dockerfile", (Devops, "Docker"));
    ("docker-compose.yml", (Devops, "Docker Compose"));
    ("k8s", (Devops, "Kubernetes"));
    ("terraform", (Devops, "Terraform")) ].

(** One iteration of the loop over [indicators] *)
Definition detect_step (project_path : node) (s : stack)
    (i : string * (category * string)) : stack :=
  let '(indicator, (c, tech)) := i in
  if exists_ project_path indicator
  then if ProjectArchitect.mem tech (get c s) then s else append c tech s
  else s.

Definition detect_tech_stack (project_path : node) : stack :=
  fold_left (detect_step project_path) indicators (Stack [] [] [] [] []).

Definition component_dirs : list string :=
  [ "src"; "lib"; "app"; "api"; "services"; "components";
    "models"; "views"; "controllers"; "utils"; "helpers";
    "middleware"; "config"; "scripts"; "tests" ].

(** [comp_path.exists() and comp_path.is_dir()] *)
Definition is_component (project_path : node) (comp_dir : string) : bool :=
  match lookup project_path [comp_dir] with
  | Some (Dir _) => true
  | _ => false
  end.

Definition scan_components (project_path : node) : list string :=
  List.filter (is_component project_path) component_dirs.

(** [s.replace(old, new)] for one-character [old] and [new] *)
Fixpoint replace_char (old new : ascii) (s : string) : string :=
  match s with
  | EmptyString => EmptyString
  | String c s' =>
      String (if Ascii.eqb c old then new else c) (replace_char old new s')
  end.

(** [tech.replace("/", "_").replace(".", "_").replace(" ", "_")] *)
Definition safe (tech : string) : string :=
  replace_char " " "_" (replace_char "." "_" (replace_char "/" "_" tech)).

(** ["\n".join(lines)] *)
Fixpoint join_lines (lines : list string) : string :=
  match lines with
  | [] => EmptyString
  | [x] => x
  | x :: rest => x +:+ chr LF +:+ join_lines rest
  end.

(** [f'{a}["{b}"]'] *)
Definition labelled (a b : string) : string :=
  a +:+ "[" +:+ chr QUOTE +:+ b +:+ chr QUOTE +:+ "]".

Definition mermaid_lines (s : stack) (components : list string) : list string :=
  [ "graph TD";
    "    " +:+ labelled "Client" "Client Layer";
    "    " +:+ labelled "API" "API / Backend Layer";
    "    " +:+ labelled "Data" "Data Layer";
    "    " +:+ labelled "Infra" "Infrastructure";
    "";
    "    Client --> API";
    "    API --> Data";
    "    API --> Infra" ]
  ++ map (fun tech => "    " +:+ labelled (safe tech) tech +:+ " --> Client") (frontend s)
  ++ map (fun tech => "    API --> " +:+ labelled (safe tech) tech) (backend s)
  ++ map (fun tech => "    Data --> " +:+ labelled (safe tech) tech) (database s)
  ++ map (fun comp => "    API --> " +:+ labelled comp (comp +:+ "/")) components.

Definition generate_mermaid_diagram (s : stack) (components : list string)
    (project_name : string) : string :=
  join_lines (mermaid_lines s components).

(** [l or default] *)
Definition or_default (l default : list string) : list string :=
  match l with
  | [] => default
  | _ => l
  end.

Definition boxed (x : string) : string := "  [" +:+ x +:+ "]".

Definition plantuml_lines (s : stack) (components : list string)
    (project_name : string) : list string :=
  [ "@startuml";
    "title " +:+ project_name +:+ " Architecture";
    "";
    "package " +:+ chr QUOTE +:+ "Frontend" +:+ chr QUOTE +:+ " {" ]
  ++ map boxed (or_default (frontend s) ["Web Client"])
  ++ [ "}"; ""; "package " +:+ chr QUOTE +:+ "Backend" +:+ chr QUOTE +:+ " {" ]
  ++ map boxed components
  ++ [ "}"; ""; "package " +:+ chr QUOTE +:+ "Data" +:+ chr QUOTE +:+ " {" ]
  ++ map boxed (or_default (database s) ["Database"])
  ++ [ "}"; ""; "[Frontend] --> [Backend]"; "[Backend] --> [Data]"; "@enduml" ].

Definition generate_plantuml_diagram (s : stack) (components : list string)
    (project_name : string) : string :=
  join_lines (plantuml_lines s components project_name).

Definition strs (l : list string) : pyval := PList (map PStr l).

(** The dict [diagram] of [generate_json_diagram] *)
Definition json_diagram (s : stack) (components : list string)
    (project_name : string) : pyval :=
  PDict
    [ ("project", PStr project_name);
      ("tech_stack",
       PDict [ ("languages", strs (languages s)); ("frontend", strs (frontend s));
               ("backend", strs (backend s)); ("database", strs (database s));
               ("devops", strs (devops s)) ]);
      ("components", strs components);
      ("layers",
       PDict [ ("presentation", strs (frontend s)); ("application", strs components);
               ("data", strs (database s)); ("infrastructure", strs (devops s)) ]) ].

Section Run.

Variable json_dumps : pyval -> string.

(** The text [main] writes, by format *)
Definition content (project_path : node) (project_name : string) (f : format)
  : string :=
  let stack := detect_tech_stack project_path in
  let components := scan_components project_path in
  match f with
  | Mermaid =>
      "# " +:+ project_name +:+ " Architecture Diagram" +:+ chr LF +:+ chr LF
      +:+ "```mermaid" +:+ chr LF
      +:+ generate_mermaid_diagram stack components project_name +:+ chr LF
      +:+ "```" +:+ chr LF
  | Plantuml => generate_plantuml_diagram stack components project_name
  | Json => json_dumps (json_diagram stack components project_name)
  end.

(** The whole script; [project] is [None] when the path does not exist. *)
Definition run (project : option node) (project_name output : string) (f : format)
  : ending :=
  match project with
  | None => main (fun _ => EmptyString) false output f
  | Some project_path => main (content project_path project_name) true output f
  end.

End Run.

End DiagramContent.

(** * fix_duplicates.py: the report of duplicate file names *)

Module DuplicateReport.
Import Py FixDuplicates.

(** [Counter(names)]: a dict in insertion order; counting a name increments
    its entry, or appends a new entry with count 1. *)
Fixpoint incr (x : string) (c : list (string * nat)) : list (string * nat) :=
  match c with
  | [] => [(x, 1)]
  | (k, n) :: c' =>
      if String.eqb k x then (k, S n) :: c' else (k, n) :: incr x c'
  end.

Definition Counter (names : list string) : list (string * nat) :=
  fold_left (fun c x => incr x c) names [].

(** [file_counts = Counter([match[1] for match in matches])] *)
Definition file_counts (matches : list (string * string)) : list (string * nat) :=
  Counter (map snd matches).

(** [[filename for filename, count in file_counts.items() if count > 1]] *)
Definition duplicates (matches : list (string * string)) : list string :=
  map fst (List.filter (fun kv => 1 <? snd kv) (file_counts matches)).

End DuplicateReport.

(** * Vocabulary of the properties

    The notions the statements below are written with: sample inputs, and
    the words of the specification spelled out as definitions. *)

Section CollectorTerms.
Import Py Fs.

(** A project whose only entry is the directory [d], holding Foo.swift. *)
Definition one_dir_project (d : string) : node :=
  Dir [(d, Dir [("Foo.swift", File (Text "import Foundation"))])].

End CollectorTerms.

Section AnalyzerTerms.
Import Py Fs Exc DependencyAnalyzer.

Definition REQUEST_WARNING : warning :=
  Warning "request"
    "Use 'axios' or native fetch instead of the deprecated 'request' package".

Definition request_axios_project : node :=
  Dir [("package.json", File (Text "{ }")); ("go.mod", File (Text "module demo"))].

Definition request_axios_loads (_ : string) : option pyval :=
  Some (PDict [("dependencies",
                PDict [("request", PStr "^1.0"); ("axios", PStr "^1.0")])]).

End AnalyzerTerms.

Section MatchingTerms.
Import Py Re.

(** The state after the literal [p] has been matched *)
Fixpoint eat_all (p : string) (st : mstate) : mstate :=
  match p with
  | EmptyString => st
  | String c p' => eat_all p' (eat c st)
  end.

End MatchingTerms.

Section HygieneTerms.
Import Py Re PathHygiene.

(** The policy in words: the directories new Swift files may live under. *)
Definition allow_listed (path : string) : Prop :=
  startswith path "Sources/App/Consolidated/" = true
  \/ startswith path "Sources/Kits/" = true
  \/ startswith path "Sources/SharedTypes/" = true
  \/ (exists x rest, path = "Sources/MCP" +:+ x +:+ "/" +:+ rest
                     /\ x <> EmptyString /\ contains x "/" = false)
  \/ startswith path "Tests/" = true.

(** A diff line reporting an added file whose name ends in .swift *)
Definition newly_added_swift (line path : string) : Prop :=
  exists status field rest,
    split line (chr TAB) = status :: field :: rest
    /\ strip status = "A"
    /\ path = strip field
    /\ endswith path ".swift" = true.

(** A line of [git diff --name-status] *)
Definition diff_line (status path : string) : string :=
  status +:+ chr TAB +:+ path +:+ chr LF.



Definition exempt_diff : string :=
  diff_line "M" "Sources/App/Random/Old.swift"
  +:+ diff_line "D" "Sources/App/Random/Gone.swift"
  +:+ diff_line "A" "Sources/App/Random/notes.txt"
  +:+ diff_line "A" "backup/Sources/App/Random/Copy.swift".

End HygieneTerms.

Section DiagramTerms.
Import Py Exc DiagramGenerator.

(** The claim as worded: the diagram goes to the file named by the output name
    followed by a dot and the extension of the format. *)
Definition written_to_output_dot_ext (content_of : format -> string)
    (output : string) (f : format) : Prop :=
  main content_of true output f
  = WriteText (output +:+ "." +:+ ext f) (content_of f).

End DiagramTerms.

Section DeduplicatorTerms.
Import Py Re FixDuplicates.

(** The identifiers of the entries whose file name was seen before, given
    the set of names seen so far. *)
Fixpoint later_ids (seen : gset string) (matches : list (string * string))
  : list string :=
  match matches with
  | [] => []
  | (file_id, filename) :: rest =>
      if decide (filename ∈ seen) then file_id :: later_ids seen rest
      else later_ids ({[filename]} ∪ seen) rest
  end.

(** Text whose characters all belong to a class *)
Fixpoint all_chars (cls : ascii -> bool) (s : string) : bool :=
  match s with
  | EmptyString => true
  | String c s' => cls c && all_chars cls s'
  end.

(** Text without a line feed, and the index of the first line feed *)
Fixpoint no_newline (s : string) : bool :=
  match s with
  | EmptyString => true
  | String c s' => dot c && no_newline s'
  end.

Fixpoint lf_index (s : string) : option nat :=
  match s with
  | EmptyString => None
  | String c s' => if dot c then S <$> lf_index s' else Some 0
  end.

(** An entry line of a Sources build phase, as the removal pattern reads it *)
Definition entry_head (file_id : string) : string := TABS +:+ file_id +:+ " /* ".

Definition ENTRY_TAIL : string := " in Sources */,".

Definition entry_line (file_id name : string) : string :=
  entry_head file_id +:+ name +:+ ENTRY_TAIL +:+ chr LF.

(** Text that is empty or ends with a line feed *)
Fixpoint closed (s : string) : bool :=
  match s with
  | EmptyString => true
  | String c s' =>
      match s' with
      | EmptyString => negb (dot c)
      | String _ _ => closed s'
      end
  end.

(** A character other than the tab *)
Definition not_tab (c : ascii) : bool := negb (Ascii.eqb c TAB).

(** The pattern matches at no position of the text. *)
Fixpoint unmatched (p : pattern) (s : string) : Prop :=
  match s with
  | EmptyString => True
  | String _ s' => (forall j, match_at p s (start j) = None) /\ unmatched p s'
  end.

(** The entries the script finds in the main Sources build phase *)
Definition located_entries (content : string) : list (string * string) :=
  entries (sources_section content (find content MAIN_SOURCES 0)).

(** A project file with two targets.  The main Sources phase lists A.swift
    under two identifiers; the Sources phase of the test target refers to
    the second of them too. *)
Definition two_target_manifest : string :=
  "/* Begin PBXSourcesBuildPhase section */" +:+ chr LF
  +:+ chr TAB +:+ chr TAB +:+ MAIN_SOURCES +:+ chr LF
  +:+ chr TAB +:+ chr TAB +:+ chr TAB +:+ "files = (" +:+ chr LF
  +:+ entry_line "AA01" "A.swift"
  +:+ entry_line "BB02" "B.swift"
  +:+ entry_line "CC03" "A.swift"
  +:+ chr TAB +:+ chr TAB +:+ chr TAB +:+ ");" +:+ chr LF
  +:+ chr TAB +:+ chr TAB +:+ "};" +:+ chr LF
  +:+ chr TAB +:+ chr TAB +:+ "EE05 /* Sources */ = {" +:+ chr LF
  +:+ chr TAB +:+ chr TAB +:+ chr TAB +:+ "files = (" +:+ chr LF
  +:+ entry_line "CC03" "A.swift"
  +:+ entry_line "FF06" "ATests.swift"
  +:+ chr TAB +:+ chr TAB +:+ chr TAB +:+ ");" +:+ chr LF
  +:+ chr TAB +:+ chr TAB +:+ "};" +:+ chr LF.

(** The document up to the located file list, and from its end on *)
Definition before_section (content : string) : string :=
  slice content 0 (find content "files = (" (find content MAIN_SOURCES 0)).

Definition after_section (content : string) : string :=
  let files_start := find content "files = (" (find content MAIN_SOURCES 0) in
  slice content (find content ");" files_start) (Z.of_nat (String.length content)).

(** The run changes nothing outside the located section. *)
Definition outside_unchanged (content : string) : Prop :=
  exists section, file_after content
                  = before_section content +:+ section +:+ after_section content.

(** A project file whose main Sources phase lists the same entry line of
    A.swift twice, as a merge of two branches leaves it, and what remains of
    it when every entry line of AA01 is gone. *)
Definition repeated_identifier_manifest : string :=
  "/* Begin PBXSourcesBuildPhase section */" +:+ chr LF
  +:+ chr TAB +:+ chr TAB +:+ MAIN_SOURCES +:+ chr LF
  +:+ chr TAB +:+ chr TAB +:+ chr TAB +:+ "files = (" +:+ chr LF
  +:+ entry_line "AA01" "A.swift"
  +:+ entry_line "BB02" "B.swift"
  +:+ entry_line "AA01" "A.swift"
  +:+ chr TAB +:+ chr TAB +:+ chr TAB +:+ ");" +:+ chr LF
  +:+ chr TAB +:+ chr TAB +:+ "};" +:+ chr LF.

Definition repeated_identifier_remainder : string :=
  "/* Begin PBXSourcesBuildPhase section */" +:+ chr LF
  +:+ chr TAB +:+ chr TAB +:+ MAIN_SOURCES +:+ chr LF
  +:+ chr TAB +:+ chr TAB +:+ chr TAB +:+ "files = (" +:+ chr LF
  +:+ entry_line "BB02" "B.swift"
  +:+ chr TAB +:+ chr TAB +:+ chr TAB +:+ ");" +:+ chr LF
  +:+ chr TAB +:+ chr TAB +:+ "};" +:+ chr LF.

End DeduplicatorTerms.

(** * Vocabulary of the further properties *)

Section ArchitectTerms.
Import Py Fs Exc ProjectArchitect.

(** The recommendation made for an environment file that .gitignore does
    not cover *)
Definition env_recommendation (env_file : string) : recommendation :=
  Rec "security"
    ("Ensure " +:+ env_file +:+ " is listed in .gitignore to avoid leaking secrets").

(** A project the architect has nothing to say about: the five documents,
    a test directory, a linter configuration, a security policy and a CI
    configuration exist, and when an environment file exists, .gitignore is
    readable text that mentions .env. *)
Definition well_kept (project_path : node) : Prop :=
  (forall f, f ∈ map fst structure_checks -> exists_ project_path f = true)
  /\ existsb (exists_ project_path) test_dirs = true
  /\ existsb (exists_ project_path) lint_configs = true
  /\ existsb (exists_ project_path) security_files = true
  /\ existsb (exists_ project_path) ci_paths = true
  /\ (existsb (exists_ project_path) env_files = true ->
      exists text, lookup project_path [".gitignore"] = Some (File (Text text))
                   /\ contains text ".env" = true).

(** The loop of [compute_metrics] over the files of one walked directory *)
Definition count_dir (m : metrics) (t : string * list string * list string)
  : metrics :=
  fold_left count_file (snd t) m.

(** What the counters of a run always satisfy *)
Definition consistent (m : metrics) : Prop :=
  test_files m <= source_files m
  /\ source_files m + doc_files m <= total_files m.

End ArchitectTerms.

Section DiagramMoreTerms.
Import Py Fs Exc DiagramGenerator DiagramContent.

(** A character other than the dot, and other than the slash *)
Definition not_dot (c : ascii) : bool := negb (Ascii.eqb c "."%char).

Definition plain (c : ascii) : bool :=
  negb (Ascii.eqb c "/"%char) && negb (Ascii.eqb c "."%char)
  && negb (Ascii.eqb c " "%char).

End DiagramMoreTerms.

Section AnalyzerMoreTerms.
Import Py Fs Exc DependencyAnalyzer.

(** A character that starts none of the version separators the analyzer
    splits a dependency at *)
Definition not_separator (c : ascii) : bool :=
  negb (Ascii.eqb c "@"%char) && negb (Ascii.eqb c ">"%char)
  && negb (Ascii.eqb c "="%char).

(** The separators themselves *)
Definition separators : list string := ["@"; ">="; "=="].

(** Comparison operators of a requirement line that are none of the three
    separators *)
Definition unlisted_operators : list string := ["<"; ">"; "<="; "~="; "!="].

(** Text that starts, and text that ends, with a character that is not
    white space *)
Definition starts_nonspace (s : string) : bool :=
  match s with
  | String c _ => negb (is_space c)
  | EmptyString => false
  end.

Fixpoint ends_nonspace (s : string) : bool :=
  match s with
  | EmptyString => false
  | String c s' =>
      match s' with
      | EmptyString => negb (is_space c)
      | String _ _ => ends_nonspace s'
      end
  end.

(** A project that holds nothing but a requirements.txt with the given lines *)
Definition requirements_text (lines : list string) : string :=
  fold_right (fun line rest => line +:+ chr LF +:+ rest) EmptyString lines.

Definition requirements_project (lines : list string) : node :=
  Dir [("requirements.txt", File (Text (requirements_text lines)))].

(** Requirements on deny-listed packages, written with operators the
    analyzer does not split at, and with operators it does split at *)
Definition unlisted_constraint_lines : list string :=
  ["lodash>4"; "moment<=2.0"; "lodash~=4.17"; "request<3"; "node-uuid!=1.0"].

Definition listed_constraint_lines : list string := ["lodash>=4"; "moment==2.0"].

(** A word: a non-empty text without white space *)
Definition not_space (c : ascii) : bool := negb (is_space c).

Definition word (w : string) : Prop :=
  w <> EmptyString /\ all_chars not_space w = true.

End AnalyzerMoreTerms.

(** * Properties *)

#[local] Arguments String.append !_ _ / : simpl nomatch.
#[local] Arguments Ascii.eqb : simpl never.

(** ** The collector *)

Section Collector.
Import Py Fs.

(** C1 (the code departs from the claim).  A Swift file lying directly
    inside a directory named .git, .build, build, DerivedData, fastlane or
    backup is collected by the redundancy scanner, and likewise by the
    project scanner for its four names: the skip test looks for the name
    between two separators in [base], and the [base] of the directory itself
    ends with the name. *)
Theorem collector_yields_file_directly_in_excluded_dir :
  Forall (fun d => ScanRedundancy.swift_files "/proj" (one_dir_project d)
                   = ["/proj/" +:+ d +:+ "/Foo.swift"])
         [".git"; ".build"; "build"; "DerivedData"; "fastlane"; "backup"]
  /\ Forall (fun d => ScanProject.swift_files "/proj" (one_dir_project d)
                      = ["/proj/" +:+ d +:+ "/Foo.swift"])
            [".git"; ".build"; "build"; "DerivedData"].
Proof. split; repeat constructor. Qed.

(** What the skip test does catch: the directories below an excluded one. *)
Lemma collector_skips_below_excluded_dir :
  ScanRedundancy.swift_files "/proj"
    (Dir [("build", Dir [("Debug", Dir [("Foo.swift", File (Text "import Foundation"))])])])
  = [].
Proof. reflexivity. Qed.

End Collector.

(** ** Duplicate detection *)

Section Duplicates.
Import Py Fs ScanRedundancy.

(** The grouping loop, started from any dict [m]: the group of [name] is its
    group in [m] followed by the paths with that basename, in order. *)
Lemma by_name_loop (paths : list string) (m : gmap string (list string)) (name : string) :
  fold_left (fun m p => <[basename p := default [] (m !! basename p) ++ [p]]> m) paths m
    !! name
  = match m !! name, filter (fun p => basename p = name) paths with
    | None, [] => None
    | o, l => Some (default [] o ++ l)
    end.
Proof.
  revert m. induction paths as [|p paths IH]; intros m; simpl.
  - destruct (m !! name); simpl; [by rewrite app_nil_r | done].
  - rewrite IH. rewrite filter_cons.
    destruct (decide (basename p = name)) as [Hp|Hp].
    + subst name. rewrite lookup_insert_eq.
      destruct (m !! basename p); simpl.
      * rewrite <- app_assoc. simpl. by destruct (filter _ paths).
      * by destruct (filter _ paths).
    + rewrite lookup_insert_ne by done.
      reflexivity.
Qed.

Lemma by_name_lookup (paths : list string) (name : string) :
  by_name paths !! name
  = match filter (fun p => basename p = name) paths with
    | [] => None
    | l => Some l
    end.
Proof.
  unfold by_name. rewrite by_name_loop. rewrite lookup_empty.
  by destruct (filter _ paths).
Qed.

Lemma duplicates_lookup (paths : list string) (name : string) (ps : list string) :
  duplicates paths !! name = Some ps
  <-> ps = filter (fun p => basename p = name) paths /\ 1 < length ps.
Proof.
  unfold duplicates. rewrite map_lookup_filter_Some. simpl.
  rewrite by_name_lookup. split.
  - intros [H Hlen]. destruct (filter _ paths) eqn:E; [done|].
    inversion H; subst; by split.
  - intros [-> Hlen]. destruct (filter _ paths) eqn:E; [simpl in Hlen; lia|done].
Qed.

(** C2.  For every list of collected paths, the duplicates are exactly the
    groups of paths sharing a basename that have more than one member (each
    group lists its members, so its length is the occurrence count); and
    whenever the basenames of the collected paths are A.swift, B.swift,
    A.swift, the only duplicate is A.swift, with two occurrences. *)
Theorem duplicates_are_groups_by_basename :
  (forall (paths : list string) (name : string) (ps : list string),
      duplicates paths !! name = Some ps
      <-> ps = filter (fun p => basename p = name) paths /\ 1 < length ps)
  /\ (forall paths : list string,
        map basename paths = ["A.swift"; "B.swift"; "A.swift"] ->
        length <$> duplicates paths = {["A.swift" := 2]}).
Proof.
  split; [apply duplicates_lookup|].
  intros paths Hb.
  destruct paths as [|p1 [|p2 [|p3 [|? ?]]]]; try discriminate.
  simpl in Hb. injection Hb as H1 H2 H3.
  apply map_eq. intros name. rewrite lookup_fmap.
  destruct (duplicates [p1; p2; p3] !! name) as [ps|] eqn:E.
  - apply duplicates_lookup in E as [-> Hlen]. revert Hlen.
    rewrite !filter_cons, filter_nil, H1, H2, H3.
    repeat case_decide; simplify_eq; simpl; try lia.
    intros _. by rewrite lookup_singleton_eq.
  - simpl. destruct (decide ("A.swift" = name)) as [<-|Hne].
    + assert (Hsome : duplicates [p1; p2; p3] !! "A.swift" = Some [p1; p3]).
      { apply duplicates_lookup. split; [|simpl; lia].
        rewrite !filter_cons, filter_nil, H1, H2, H3.
        repeat case_decide; simplify_eq; done. }
      congruence.
    + by rewrite lookup_singleton_ne.
Qed.

Lemma duplicates_are_groups_by_basename_witness :
  length <$> duplicates ["Sources/a/A.swift"; "B.swift"; "Tests/A.swift"]
  = {["A.swift" := 2]}.
Proof.
  apply (proj2 duplicates_are_groups_by_basename
           ["Sources/a/A.swift"; "B.swift"; "Tests/A.swift"]).
  reflexivity.
Defined.

End Duplicates.

(** ** The dependency analyzer *)

Section Analyzer.
Import Py Fs Exc DependencyAnalyzer.

Lemma detect_outdated_patterns_elem (deps : list string) (w : warning) :
  w ∈ detect_outdated_patterns deps
  <-> exists dep, dep ∈ deps /\ dependency w = dep_name dep
                  /\ deprecated !! dep_name dep = Some (message w).
Proof.
  unfold detect_outdated_patterns. rewrite list_elem_of_omap. split.
  - intros (dep & Hin & Hw). exists dep. split; [done|].
    destruct (deprecated !! dep_name dep) as [msg|] eqn:E; [|done].
    simpl in Hw. by inversion Hw.
  - intros (dep & Hin & Hd & Hm). exists dep. split; [done|].
    rewrite Hm. simpl. destruct w; simpl in *. by subst.
Qed.

Lemma deprecated_dom :
  dom deprecated = ({["request"; "moment"; "lodash"; "node-uuid"]} : gset string).
Proof. unfold deprecated. rewrite !dom_insert_L, dom_empty_L. set_solver. Qed.

(** A manifest that is absent, unreadable or readable text never makes a
    line-oriented parser raise. *)
Lemma guarded_returns (name : string) (project_path : node) (body : string -> manifest) :
  lookup project_path [name] <> Some (File Undecodable) ->
  exists m ds, guarded name project_path body = Ok (m, ds).
Proof.
  intros H. unfold guarded.
  destruct (lookup project_path [name]) as [[[t| |]|es]|]; simpl; eauto.
  done.
Qed.

(** What [main] collects and reports when it gets to the report. *)
Lemma main_report (json_loads : string -> option pyval) (a : args) (project : node)
    (status : Z) (ds : list diagnostic) (r : report) :
  main json_loads a (Some project) = Exit status ds (Some r) ->
  warnings r = if analyze a
               then detect_outdated_patterns
                      (flat_map (fun kv => packages_of (snd kv)) (all_deps r))
               else [].
Proof.
  unfold main.
  destruct (parse_package_json json_loads project) as [[npm d1]|e]; simpl; [|done].
  destruct (parse_requirements_txt project) as [[pip d2]|e]; simpl; [|done].
  destruct (parse_go_mod project) as [[go d3]|e]; simpl; [|done].
  destruct (parse_package_swift project) as [[sw d4]|e]; simpl; [|done].
  destruct (entry "npm" npm ++ entry "pip" pip ++ entry "go" go ++ entry "swift" sw)
    as [|kv l] eqn:E; [done|].
  intros H. inversion H. subst. simpl. reflexivity.
Qed.

(** The example of the specification: with analysis enabled, a project
    whose package.json declares exactly the runtime dependencies request and
    axios (and which has no requirements.txt) ends with a warning list of
    one entry, naming request. *)
Lemma request_axios_example (json_loads : string -> option pyval) (a : args)
    (project : node) (text : string) (v1 v2 : pyval) :
  analyze a = true ->
  lookup project ["package.json"] = Some (File (Text text)) ->
  json_loads text
  = Some (PDict [("dependencies", PDict [("request", v1); ("axios", v2)])]) ->
  lookup project ["requirements.txt"] = None ->
  lookup project ["go.mod"] <> Some (File Undecodable) ->
  lookup project ["Package.swift"] <> Some (File Undecodable) ->
  exists ds r,
    main json_loads a (Some project) = Exit 0 ds (Some r)
    /\ warnings r = [REQUEST_WARNING].
Proof.
  intros Ha Hpkg Hjson Hreq Hgo Hsw.
  destruct (guarded_returns "go.mod" project
              (fun text => Go (go_modules (splitlines text) false)) Hgo)
    as (go & d3 & Hgo').
  destruct (guarded_returns "Package.swift" project
              (fun text => SwiftPM (swift_packages text)) Hsw)
    as (sw & d4 & Hsw').
  assert (Hnpm : parse_package_json json_loads project
                 = Ok (Some (Npm (NpmDeps ["request"; "axios"] [] []
                                    [("request", v1); ("axios", v2)])), [])).
  { unfold parse_package_json. rewrite Hpkg.
    unfold package_json_body, loads. cbn. by rewrite Hjson. }
  assert (Hpip : parse_requirements_txt project = Ok (None, [])).
  { unfold parse_requirements_txt, guarded. by rewrite Hreq. }
  unfold main, parse_go_mod, parse_package_swift.
  rewrite Hnpm, Hpip, Hgo', Hsw'. cbn.
  rewrite Ha. eexists _, _. split; [reflexivity|].
  simpl. rewrite !flat_map_app. simpl.
  assert (Hgo0 : flat_map (fun kv : string * manifest => packages_of (snd kv))
                   (entry "go" go) = []).
  { unfold guarded in Hgo'.
    destruct (lookup project ["go.mod"]) as [f|]; [|by inversion Hgo'].
    destruct (read_text f) as [t|[]]; inversion Hgo'; done. }
  assert (Hsw0 : flat_map (fun kv : string * manifest => packages_of (snd kv))
                   (entry "swift" sw) = []).
  { unfold guarded in Hsw'.
    destruct (lookup project ["Package.swift"]) as [f|]; [|by inversion Hsw'].
    destruct (read_text f) as [t|[]]; inversion Hsw'; done. }
  rewrite Hgo0, Hsw0. reflexivity.
Qed.

Lemma request_axios_example_run :
  exists ds r,
    main request_axios_loads (Args true false false) (Some request_axios_project)
    = Exit 0 ds (Some r)
    /\ warnings r = [REQUEST_WARNING].
Proof.
  apply (request_axios_example request_axios_loads (Args true false false)
           request_axios_project "{ }" (PStr "^1.0") (PStr "^1.0"));
    try reflexivity; discriminate.
Qed.

(** The failures the parsers do absorb: an operating-system error on any of
    the four manifests, and a JSON syntax error in package.json, give the
    empty dict and one warning. *)
Lemma absorbed_failures (json_loads : string -> option pyval) (text : string) :
  parse_package_json json_loads (Dir [("package.json", File Unreadable)])
  = Ok (None, [CouldNotParse "package.json" OSError])
  /\ (json_loads text = None ->
      parse_package_json json_loads (Dir [("package.json", File (Text text))])
      = Ok (None, [CouldNotParse "package.json" JSONDecodeError]))
  /\ parse_requirements_txt (Dir [("requirements.txt", File Unreadable)])
     = Ok (None, [CouldNotParse "requirements.txt" OSError])
  /\ parse_go_mod (Dir [("go.mod", File Unreadable)])
     = Ok (None, [CouldNotParse "go.mod" OSError])
  /\ parse_package_swift (Dir [("Package.swift", File Unreadable)])
     = Ok (None, [CouldNotParse "Package.swift" OSError]).
Proof.
  repeat split; try reflexivity.
  intros H. unfold parse_package_json, package_json_body, loads. simpl.
  by rewrite H.
Qed.

(** C5 (the code departs from the claim).  A manifest whose bytes do not
    decode as text makes its parser raise [UnicodeDecodeError], which no
    handler of the script catches: the run ends there, whichever of the four
    manifests it is; and a package.json holding a JSON value that is not an
    object makes [parse_package_json] raise [AttributeError]. *)
Theorem undecodable_manifest_aborts_run :
  forall (json_loads : string -> option pyval) (a : args),
    Forall (fun name =>
              main json_loads a (Some (Dir [(name, File Undecodable)]))
              = Uncaught UnicodeDecodeError)
           ["package.json"; "requirements.txt"; "go.mod"; "Package.swift"]
    /\ parse_package_json json_loads (Dir [("package.json", File Undecodable)])
       = Raise UnicodeDecodeError
    /\ parse_requirements_txt (Dir [("requirements.txt", File Undecodable)])
       = Raise UnicodeDecodeError
    /\ parse_go_mod (Dir [("go.mod", File Undecodable)]) = Raise UnicodeDecodeError
    /\ parse_package_swift (Dir [("Package.swift", File Undecodable)])
       = Raise UnicodeDecodeError
    /\ main (fun _ => Some (PList [])) a
            (Some (Dir [("package.json", File (Text "[]"))]))
       = Uncaught AttributeError.
Proof.
  intros json_loads a. split; [|repeat split; reflexivity].
  repeat constructor.
Qed.

End Analyzer.

(** ** The project architect *)

Section Architect.
Import Py Fs Exc ProjectArchitect.

(** C6.  On an empty project directory the architect counts no file,
    recommends (among others) a README.md, a .gitignore, a tests directory,
    a linter configuration and a CI/CD configuration, and exits with
    status 1. *)
Theorem empty_project_report :
  exists (recs : list recommendation) (m : metrics),
    main (Some (Dir [])) = Exit 1 recs (Some m)
    /\ total_files m = 0
    /\ Rec "structure" "Add a README.md with project overview and setup instructions" ∈ recs
    /\ Rec "structure" "Add a .gitignore to exclude build artifacts and secrets" ∈ recs
    /\ MISSING_TESTS ∈ recs
    /\ MISSING_LINTER ∈ recs
    /\ MISSING_CI ∈ recs.
Proof.
  eexists _, _. split; [reflexivity|]. split; [reflexivity|].
  repeat split; apply list_elem_of_In; simpl; tauto.
Qed.

End Architect.

(** ** Matching literal text and character runs *)

Section Matching.
Import Py Re.

Lemma string_app_nil_r (s : string) : s +:+ EmptyString = s.
Proof. induction s; simpl; congruence. Qed.

Lemma string_app_assoc (a b c : string) : (a +:+ b) +:+ c = a +:+ (b +:+ c).
Proof. induction a; simpl; congruence. Qed.

Lemma string_app_length (a b : string) :
  String.length (a +:+ b) = String.length a + String.length b.
Proof. induction a; simpl; congruence. Qed.

Lemma startswith_app (p rest : string) : startswith (p +:+ rest) p = true.
Proof. induction p as [|c p IH]; simpl; [done|]. by rewrite Ascii.eqb_refl. Qed.

Lemma startswith_split (s p : string) :
  startswith s p = true -> s = p +:+ drop (String.length p) s.
Proof.
  revert s. induction p as [|c p IH]; intros s; simpl; [done|].
  destruct s as [|d s]; [done|].
  destruct (Ascii.eqb c d) eqn:E; [|done].
  apply Ascii.eqb_eq in E as ->. intros H. f_equal. by apply IH.
Qed.

Lemma drop_app (p rest : string) : drop (String.length p) (p +:+ rest) = rest.
Proof. induction p; simpl; congruence. Qed.

Lemma pos_eat_all (p : string) (st : mstate) :
  pos (eat_all p st) = pos st + String.length p.
Proof.
  revert st. induction p as [|c p IH]; intros st; simpl; [lia|].
  rewrite IH. simpl. lia.
Qed.

(** A literal matches exactly when the text starts with it. *)
Lemma match_at_lit (p : string) (q : pattern) (s : string) (st : mstate) :
  match_at (lit p ++ q) s st
  = if startswith s p then match_at q (drop (String.length p) s) (eat_all p st)
    else None.
Proof.
  revert s st. induction p as [|c p IH]; intros s st; simpl; [done|].
  destruct s as [|d s]; [done|].
  destruct (Ascii.eqb c d) eqn:E; [|done].
  apply Ascii.eqb_eq in E as ->. apply IH.
Qed.

Lemma match_at_lit_only (p s : string) (st : mstate) :
  match_at (lit p) s st = if startswith s p then Some (eat_all p st) else None.
Proof. rewrite <- (app_nil_r (lit p)). apply match_at_lit. Qed.

Lemma matches_caret_lit (p s : string) :
  matches (Caret :: lit p) s = startswith s p.
Proof.
  unfold matches. simpl. rewrite <- (app_nil_r (lit p)), match_at_lit.
  by destruct (startswith s p).
Qed.

Lemma match_at_plus (cls : ascii -> bool) (q : pattern) (d : ascii) (s : string)
    (st : mstate) :
  match_at (Plus cls :: q) (String d s) st
  = if cls d
    then match match_at (Plus cls :: q) s (eat d st) with
         | Some r => Some r
         | None => match_at q s (eat d st)
         end
    else None.
Proof. reflexivity. Qed.

Lemma match_at_plus_lazy (cls : ascii -> bool) (q : pattern) (d : ascii) (s : string)
    (st : mstate) :
  match_at (PlusLazy cls :: q) (String d s) st
  = if cls d
    then match match_at q s (eat d st) with
         | Some r => Some r
         | None => match_at (PlusLazy cls :: q) s (eat d st)
         end
    else None.
Proof. reflexivity. Qed.

End Matching.

(** ** The path-hygiene check *)

Section Hygiene.
Import Py Re PathHygiene.

Lemma contains_cons_slash (d : ascii) (x : string) :
  contains (String d x) "/" = false
  <-> not_slash d = true /\ contains x "/" = false.
Proof.
  unfold not_slash. simpl. rewrite (Ascii.eqb_sym d).
  destruct (Ascii.eqb "/" d); simpl; intuition congruence.
Qed.

(** [[^/]+/] matches exactly a non-empty run without a slash, then a slash. *)
Lemma match_component (s : string) (st : mstate) :
  is_Some (match_at (Plus not_slash :: lit "/") s st)
  <-> exists x rest, s = x +:+ "/" +:+ rest /\ x <> EmptyString
                     /\ contains x "/" = false.
Proof.
  revert st. induction s as [|d s IH]; intros st.
  - split; [by intros [? ?]|]. intros (x & rest & H & Hx & _).
    destruct x; [done|discriminate].
  - rewrite match_at_plus. destruct (not_slash d) eqn:Hd.
    + split.
      * intros Hsome.
        destruct (match_at (Plus not_slash :: lit "/") s (eat d st)) as [r|] eqn:E.
        -- destruct (proj1 (IH (eat d st))) as (x & rest & -> & Hx & Hc).
           { rewrite E. eauto. }
           exists (String d x), rest. split; [done|]. split; [done|].
           by apply contains_cons_slash.
        -- change (lit "/") with (lit "/" ++ []) in Hsome.
           rewrite match_at_lit in Hsome.
           destruct (startswith s "/") eqn:Hs; [|by destruct Hsome].
           apply startswith_split in Hs. exists (chr d), (drop 1 s).
           split; [simpl in *; congruence|]. split; [done|].
           apply contains_cons_slash. done.
      * intros (x & rest & Hs & Hx & Hc).
        destruct x as [|d' x]; [done|]. simpl in Hs.
        injection Hs as <- Hs.
        apply contains_cons_slash in Hc as [_ Hc].
        destruct (match_at (Plus not_slash :: lit "/") s (eat d st)) as [r|] eqn:E;
          [eauto|].
        destruct x as [|d' x].
        -- simpl in Hs. subst s. simpl. rewrite ?Ascii.eqb_refl. eauto.
        -- destruct (proj2 (IH (eat d st))) as [r Hr].
           { exists (String d' x), rest. done. }
           congruence.
    + split; [by intros [? ?]|]. intros (x & rest & Hs & Hx & Hc).
      destruct x as [|d' x]; [done|]. simpl in Hs. injection Hs as <- Hs.
      apply contains_cons_slash in Hc as [Hc _]. congruence.
Qed.

Lemma allowed_re_spec (path : string) :
  existsb (fun r => matches r path) ALLOWED_RE = true <-> allow_listed path.
Proof.
  unfold ALLOWED_RE, allow_listed. cbn [existsb].
  rewrite orb_false_r, !matches_caret_lit, !orb_true_iff.
  assert (Hmcp : matches (Caret :: lit "Sources/MCP" ++ [Plus not_slash] ++ lit "/") path
                 = true
                 <-> exists x rest, path = "Sources/MCP" +:+ x +:+ "/" +:+ rest
                                    /\ x <> EmptyString /\ contains x "/" = false).
  { unfold matches. rewrite bool_decide_eq_true.
    cbn [match_at pos start Nat.eqb]. rewrite match_at_lit.
    destruct (startswith path "Sources/MCP") eqn:Hs.
    - apply startswith_split in Hs. cbn [app]. rewrite match_component. split.
      + intros (x & rest & Hd & Hx & Hc). exists x, rest.
        split; [|done]. rewrite Hs, Hd. reflexivity.
      + intros (x & rest & Hp & Hx & Hc). exists x, rest. split; [|done].
        rewrite Hp. reflexivity.
    - split; [by intros [? ?]|]. intros (x & rest & Hp & _).
      rewrite Hp in Hs. discriminate. }
  rewrite Hmcp. tauto.
Qed.

Lemma line_violation_spec (line path : string) :
  line_violation line = Some path
  <-> newly_added_swift line path
      /\ startswith path "backup/" = false
      /\ ~ allow_listed path.
Proof.
  unfold line_violation, newly_added_swift. rewrite <- allowed_re_spec.
  destruct (split line (chr TAB)) as [|p0 [|p1 rest]].
  - split; [done|]. by intros [(? & ? & ? & ? & _) _].
  - split.
    + by destruct (negb (String.eqb (strip p0) "A")).
    + by intros [(? & ? & ? & ? & _) _].
  - destruct (String.eqb (strip p0) "A") eqn:Hst; cbn [negb].
    2:{ split; [done|]. intros [(? & ? & ? & He & Hs & _) _].
        inversion He; subst. apply String.eqb_neq in Hst. done. }
    apply String.eqb_eq in Hst.
    destruct (endswith (strip p1) ".swift") eqn:Hsw; cbn [negb].
    2:{ split; [done|]. intros [(? & ? & ? & He & _ & -> & Hs) _].
        inversion He; subst. congruence. }
    destruct (startswith (strip p1) "backup/") eqn:Hb.
    { split; [done|]. intros [(? & ? & ? & He & _ & -> & _) [Hb' _]].
      inversion He; subst. congruence. }
    destruct (existsb _ ALLOWED_RE) eqn:Ha.
    { split; [done|]. intros [(? & ? & ? & He & _ & -> & _) [_ Hn]].
      inversion He; subst. congruence. }
    split.
    + intros H. inversion H. subst path.
      split; [by eexists _, _, _|]. split; [done|]. congruence.
    + intros [(? & ? & ? & He & _ & -> & _) _]. inversion He; by subst.
Qed.

Lemma violations_elem (out path : string) :
  path ∈ violations out
  <-> exists line, line ∈ splitlines out /\ line_violation line = Some path.
Proof. unfold violations. apply list_elem_of_omap. Qed.

End Hygiene.

Section HygieneExit.
Import Py Re PathHygiene.






(** C9.  A violation is only ever recorded for a diff line whose status is
    A and whose path ends in .swift and does not start with backup/; when
    every line is a modification, deletion or rename, or names a file that
    is not Swift or lies under backup/, nothing is recorded and the check
    exits with status 0. *)
Theorem violation_needs_added_swift_outside_backup :
  (forall out path : string,
      path ∈ violations out ->
      exists line, line ∈ splitlines out /\ newly_added_swift line path
                   /\ startswith path "backup/" = false)
  /\ (forall (base : option string) (git : string -> git_result) (out : string),
        git (ref_range base) = GitOutput out ->
        (forall line path, line ∈ splitlines out -> newly_added_swift line path ->
                           startswith path "backup/" = true) ->
        violations out = []
        /\ exit_status (check_path_hygiene base git) = 0%Z).
Proof.
  split.
  - intros out path H. apply violations_elem in H as (line & Hin & H).
    apply line_violation_spec in H as (Hn & Hb & _). eauto.
  - intros base git out Hgit Hex.
    assert (Hnil : violations out = []).
    { destruct (violations out) as [|v vs] eqn:E; [done|]. exfalso.
      assert (Hv : v ∈ violations out) by (rewrite E; left).
      apply violations_elem in Hv as (line & Hin & H).
      apply line_violation_spec in H as (Hn & Hb & _).
      rewrite (Hex line v Hin Hn) in Hb. done. }
    split; [done|]. unfold check_path_hygiene. by rewrite Hgit, Hnil.
Qed.

Lemma violation_needs_added_swift_outside_backup_witness :
  (exists line, line ∈ splitlines (diff_line "A" "Sources/App/Random/Foo.swift")
                /\ newly_added_swift line "Sources/App/Random/Foo.swift"
                /\ startswith "Sources/App/Random/Foo.swift" "backup/" = false)
  /\ (violations exempt_diff = []
      /\ exit_status (check_path_hygiene None (fun _ => GitOutput exempt_diff)) = 0%Z).
Proof.
  split.
  - apply (proj1 violation_needs_added_swift_outside_backup
             (diff_line "A" "Sources/App/Random/Foo.swift")).
    apply list_elem_of_In. vm_compute. tauto.
  - apply (proj2 violation_needs_added_swift_outside_backup None
             (fun _ => GitOutput exempt_diff) exempt_diff); [reflexivity|].
    intros line path Hin (status & field & rest & Hs & Hst & -> & Hsw).
    apply list_elem_of_In in Hin. vm_compute in Hin.
    destruct Hin as [<-|[<-|[<-|[<-|[]]]]];
      vm_compute in Hs; injection Hs as <- <- <-;
      solve [ reflexivity | vm_compute in Hst; discriminate
            | vm_compute in Hsw; discriminate ].
Defined.

End HygieneExit.

(** ** The diagram generator *)

Section Diagram.
Import Py Exc DiagramGenerator.

Lemma join_parts_snoc (l : list string) (n : string) :
  join_parts (l ++ [n])
  = match l with
    | [] => n
    | _ => join_parts l +:+ "/" +:+ n
    end.
Proof.
  induction l as [|x l IH]; [done|].
  destruct l as [|y l]; [done|].
  change (join_parts ((x :: y :: l) ++ [n]))
    with (x +:+ "/" +:+ join_parts ((y :: l) ++ [n])).
  rewrite IH. change (join_parts (x :: y :: l)) with (x +:+ "/" +:+ join_parts (y :: l)).
  by rewrite !string_app_assoc.
Qed.

(** Appending to the last component appends to the path as a text. *)
Lemma join_parts_extend_last (l : list string) (suffix : string) :
  l <> [] ->
  join_parts (removelast l ++ [List.last l EmptyString +:+ suffix])
  = join_parts l +:+ suffix.
Proof.
  intros Hl. destruct (exists_last Hl) as (l' & n & ->).
  rewrite removelast_last, last_last, !join_parts_snoc.
  destruct l'; [done|]. by rewrite !string_app_assoc.
Qed.

Lemma to_str_nonempty (r : string) (l : list string) :
  l <> [] -> to_str (PurePath r l) = r +:+ join_parts l.
Proof. intros Hl. unfold to_str. simpl. destruct r; destruct l; done. Qed.

(** An output name that already carries a suffix loses it: arch.v2 is
    written to arch.md, not to arch.v2.md. *)
Lemma output_suffix_is_replaced :
  main (fun _ => "graph TD") true "arch.v2" Mermaid = WriteText "arch.md" "graph TD"
  /\ ~ written_to_output_dot_ext (fun _ => "graph TD") "arch.v2" Mermaid.
Proof. split; [reflexivity|]. unfold written_to_output_dot_ext. by vm_compute. Qed.

(** C8 (amended).  For an existing project path and each of the three
    formats, when the output name is a path in normal form whose last
    component is not empty and has no suffix of its own (a name without
    extension, as the option's help asks), the diagram is written to the
    file named by the output name followed by .md, .puml or .json. *)
Theorem diagram_written_to_output_dot_ext :
  forall (content_of : format -> string) (output : string) (f : format),
    to_str (parse output) = output ->
    name (parse output) <> EmptyString ->
    ProjectArchitect.suffix (name (parse output)) = EmptyString ->
    written_to_output_dot_ext content_of output f
    /\ ext f ∈ ["md"; "puml"; "json"].
Proof.
  intros content_of output f Hnorm Hname Hsuf.
  split; [|destruct f; apply list_elem_of_In; simpl; tauto].
  unfold written_to_output_dot_ext, main, with_suffix. cbn [negb].
  destruct (String.eqb (name (parse output)) EmptyString) eqn:E.
  { apply String.eqb_eq in E. done. }
  rewrite Hsuf. cbn [String.eqb].
  assert (Hparts : parts (parse output) <> []).
  { intros Hnil. apply Hname. unfold name. by rewrite Hnil. }
  f_equal. rewrite to_str_nonempty.
  2:{ by destruct (removelast (parts (parse output))). }
  unfold name. rewrite join_parts_extend_last by done.
  rewrite <- string_app_assoc. f_equal.
  rewrite <- Hnorm at 3. destruct (parse output) as [r l]. simpl in *.
  by rewrite to_str_nonempty.
Qed.

Lemma diagram_written_to_output_dot_ext_witness :
  written_to_output_dot_ext (fun _ => "graph TD") "docs/architecture_diagram" Plantuml
  /\ ext Plantuml ∈ ["md"; "puml"; "json"].
Proof.
  apply (diagram_written_to_output_dot_ext (fun _ => "graph TD")
           "docs/architecture_diagram" Plantuml).
  - reflexivity.
  - discriminate.
  - reflexivity.
Defined.

End Diagram.

(** ** The manifest deduplicator: which identifiers are kept and removed *)

Section Classification.
Import Py Re FixDuplicates.

Lemma classify_loop (matches : list (string * string)) (k : gmap string string)
    (r : list string) :
  snd (fold_left classify_step matches (k, r)) = r ++ later_ids (dom k) matches
  /\ forall name,
       fst (fold_left classify_step matches (k, r)) !! name
       = match k !! name with
         | Some v => Some v
         | None => fst <$> List.find (fun m => String.eqb (snd m) name) matches
         end.
Proof.
  revert k r. induction matches as [|[file_id filename] rest IH]; intros k r.
  - simpl. split; [by rewrite app_nil_r|]. intros name. by destruct (k !! name).
  - cbn [fold_left classify_step later_ids].
    destruct (k !! filename) as [v|] eqn:Hk.
    + destruct (IH k (r ++ [file_id])) as [IHr IHk]. split.
      * rewrite IHr, <- app_assoc. simpl.
        destruct (decide (filename ∈ dom k)) as [|Hn]; [done|].
        exfalso. apply Hn, elem_of_dom. eauto.
      * intros name. rewrite IHk. destruct (k !! name) eqn:Hn; [done|].
        cbn [List.find snd]. destruct (String.eqb filename name) eqn:E; [|done].
        apply String.eqb_eq in E. congruence.
    + destruct (IH (<[filename := file_id]> k) r) as [IHr IHk]. split.
      * rewrite IHr, dom_insert_L.
        destruct (decide (filename ∈ dom k)) as [Hin|]; [|done].
        apply elem_of_dom in Hin as [? ?]. congruence.
      * intros name. rewrite IHk. cbn [List.find snd].
        destruct (String.eqb filename name) eqn:E.
        -- apply String.eqb_eq in E. subst name. by rewrite lookup_insert_eq, Hk.
        -- apply String.eqb_neq in E. by rewrite lookup_insert_ne.
Qed.

Lemma files_to_remove_later (matches : list (string * string)) :
  files_to_remove matches = later_ids ∅ matches.
Proof.
  unfold files_to_remove, classify.
  rewrite (proj1 (classify_loop matches ∅ [])), dom_empty_L. done.
Qed.

Lemma later_ids_elem (seen : gset string) (matches : list (string * string))
    (file_id : string) :
  file_id ∈ later_ids seen matches
  <-> exists pre filename post,
        matches = pre ++ (file_id, filename) :: post
        /\ (filename ∈ seen \/ filename ∈ pre.*2).
Proof.
  revert seen. induction matches as [|[i n] rest IH]; intros seen.
  - simpl. split; [by intros ?%elem_of_nil|].
    intros (pre & ? & ? & H & _). by destruct pre.
  - cbn [later_ids]. destruct (decide (n ∈ seen)) as [Hn|Hn].
    + rewrite elem_of_cons, IH. split.
      * intros [->|(pre & f & post & -> & Hf)].
        -- exists [], n, rest. split; [done|]. by left.
        -- exists ((i, n) :: pre), f, post. split; [done|].
           destruct Hf as [Hf|Hf]; [by left|]. right. simpl. by right.
      * intros (pre & f & post & Heq & Hf). destruct pre as [|[i' n'] pre].
        -- injection Heq as -> -> ->. by left.
        -- injection Heq as -> -> ->. right. exists pre, f, post.
           split; [done|]. destruct Hf as [Hf|Hf]; [by left|].
           simpl in Hf. apply elem_of_cons in Hf as [->|Hf]; [by left|by right].
    + rewrite IH. split.
      * intros (pre & f & post & -> & Hf). exists ((i, n) :: pre), f, post.
        split; [done|]. simpl. rewrite elem_of_cons.
        destruct Hf as [[->%elem_of_singleton|Hf]%elem_of_union|Hf]; auto.
      * intros (pre & f & post & Heq & Hf). destruct pre as [|[i' n'] pre].
        -- injection Heq as -> -> ->. destruct Hf as [Hf|Hf]; [done|].
           simpl in Hf. by apply elem_of_nil in Hf.
        -- injection Heq as -> -> ->. exists pre, f, post. split; [done|].
           simpl in Hf. rewrite elem_of_cons in Hf.
           destruct Hf as [Hf|[->|Hf]]; [left|left|by right]; apply elem_of_union;
             [by right|left; by apply elem_of_singleton].
Qed.

Lemma later_ids_nodup (seen : gset string) (matches : list (string * string)) :
  NoDup matches.*2 -> (forall n, n ∈ matches.*2 -> n ∉ seen) ->
  later_ids seen matches = [].
Proof.
  revert seen. induction matches as [|[i n] rest IH]; intros seen Hnd Hseen; [done|].
  cbn [later_ids]. simpl in Hnd. apply NoDup_cons in Hnd as [Hn Hnd].
  destruct (decide (n ∈ seen)) as [Hin|_].
  { exfalso. apply (Hseen n); [simpl; left|done]. }
  apply IH; [done|]. intros m Hm. apply not_elem_of_union. split.
  - intros ->%elem_of_singleton. done.
  - apply Hseen. simpl. by right.
Qed.

(** The first-seen identifier of a file name is the one kept. *)
Lemma files_to_keep_first (pre post : list (string * string)) (file_id filename : string) :
  filename ∉ pre.*2 ->
  files_to_keep (pre ++ (file_id, filename) :: post) !! filename = Some file_id.
Proof.
  intros Hpre. unfold files_to_keep, classify.
  rewrite (proj2 (classify_loop _ ∅ [])), lookup_empty.
  induction pre as [|[i n] pre IH]; cbn [app List.find snd].
  - by rewrite String.eqb_refl.
  - simpl in Hpre. apply not_elem_of_cons in Hpre as [Hne Hpre].
    destruct (String.eqb n filename) eqn:E.
    + apply String.eqb_eq in E. congruence.
    + by apply IH.
Qed.

End Classification.

(** ** The manifest deduplicator: what one substitution deletes *)

Section Removal.
Import Py Re FixDuplicates.

Lemma no_newline_app (a b : string) :
  no_newline (a +:+ b) = no_newline a && no_newline b.
Proof. induction a as [|c a IH]; simpl; [done|]. by rewrite IH, andb_assoc. Qed.

Lemma lf_index_app_lf (a b : string) :
  no_newline a = true -> lf_index (a +:+ chr LF +:+ b) = Some (String.length a).
Proof.
  change (chr LF +:+ b) with (String LF b).
  induction a as [|c a IH]; simpl.
  - done.
  - intros [Hc Ha]%andb_true_iff. rewrite Hc, IH by done. done.
Qed.

Lemma lf_index_app_l (a b : string) (m : nat) :
  lf_index a = Some m -> lf_index (a +:+ b) = Some m.
Proof.
  revert m. induction a as [|c a IH]; intros m; simpl; [done|].
  destruct (dot c); [|done].
  destruct (lf_index a) as [k|]; [|done]. intros H. by rewrite (IH k).
Qed.

Lemma lf_index_lt (a : string) (m : nat) :
  lf_index a = Some m -> m < String.length a.
Proof.
  revert m. induction a as [|c a IH]; intros m; simpl; [done|].
  destruct (dot c); [|intros [= <-]; lia].
  destruct (lf_index a) as [k|]; [|done]. intros [= <-].
  specialize (IH k eq_refl). lia.
Qed.

Lemma lit_app (a b : string) : lit (a +:+ b) = lit a ++ lit b.
Proof. induction a as [|c a IH]; simpl; [done|]. by rewrite IH. Qed.

Lemma string_app_prefix (a b c d : string) :
  a +:+ b = c +:+ d -> String.length c <= String.length a ->
  a = c +:+ drop (String.length c) a.
Proof.
  revert a. induction c as [|x c IH]; intros a; simpl; [done|].
  destruct a as [|y a]; simpl; [lia|].
  intros [= -> H] Hlen. f_equal. apply IH; [done|lia].
Qed.

(** [.+?] followed by a literal that ends a line: the match runs to the
    end of the first line, which must end with the literal. *)
Lemma match_lazy_line (x t rest : string) (st : mstate) :
  x <> EmptyString -> no_newline x = true -> no_newline t = true ->
  exists r,
    match_at (PlusLazy dot :: lit (t +:+ chr LF)) (x +:+ t +:+ chr LF +:+ rest) st
    = Some r
    /\ pos r = pos st + String.length x + String.length t + 1.
Proof.
  intros Hx Hnx Hnt. revert st Hx Hnx.
  induction x as [|d x IH]; intros st Hx Hnx; [done|].
  simpl in Hnx. apply andb_true_iff in Hnx as [Hd Hnx].
  cbn [String.append]. rewrite match_at_plus_lazy, Hd.
  rewrite match_at_lit_only.
  destruct (startswith (x +:+ t +:+ chr LF +:+ rest) (t +:+ chr LF)) eqn:Hs.
  - assert (x = EmptyString) as ->.
    { apply startswith_split in Hs.
      assert (H1 : lf_index (x +:+ t +:+ chr LF +:+ rest)
                   = Some (String.length (x +:+ t))).
      { rewrite <- string_app_assoc. apply lf_index_app_lf.
        by rewrite no_newline_app, Hnx, Hnt. }
      rewrite Hs, string_app_assoc in H1.
      rewrite (lf_index_app_lf t _ Hnt), string_app_length in H1.
      destruct x; [done|]. simpl in H1. injection H1. lia. }
    eexists. split; [reflexivity|].
    rewrite pos_eat_all, string_app_length. simpl. lia.
  - destruct x as [|d' x].
    { change (startswith (t +:+ chr LF +:+ rest) (t +:+ chr LF) = false) in Hs.
      by rewrite <- string_app_assoc, startswith_app in Hs. }
    destruct (IH (eat d st)) as (r & Hr & Hpos); [done|done|].
    rewrite Hr. exists r. split; [done|].
    rewrite Hpos. simpl. lia.
Qed.

Lemma match_lazy_line_inv (t s : string) (st r : mstate) :
  match_at (PlusLazy dot :: lit (t +:+ chr LF)) s st = Some r ->
  exists x rest,
    s = x +:+ t +:+ chr LF +:+ rest /\ x <> EmptyString /\ no_newline x = true
    /\ pos r = pos st + String.length x + String.length t + 1.
Proof.
  revert st. induction s as [|d s IH]; intros st; [done|].
  rewrite match_at_plus_lazy. destruct (dot d) eqn:Hd; [|done].
  rewrite match_at_lit_only.
  destruct (startswith s (t +:+ chr LF)) eqn:Hs.
  - intros [= <-]. apply startswith_split in Hs.
    exists (chr d), (drop (String.length (t +:+ chr LF)) s).
    split; [|split; [done|split]].
    + change (String d s
              = String d (t +:+ chr LF +:+ drop (String.length (t +:+ chr LF)) s)).
      f_equal. rewrite <- string_app_assoc. exact Hs.
    + simpl. by rewrite Hd.
    + rewrite pos_eat_all, string_app_length. simpl. lia.
  - intros H. apply IH in H as (x & rest & -> & Hx & Hnx & Hpos).
    exists (String d x), rest. split; [done|]. split; [done|]. split.
    + simpl. by rewrite Hd, Hnx.
    + rewrite Hpos. simpl. lia.
Qed.

Lemma removal_pattern_eq (file_id : string) :
  removal_pattern file_id
  = lit (entry_head file_id) ++ PlusLazy dot :: lit (ENTRY_TAIL +:+ chr LF).
Proof.
  unfold removal_pattern, entry_head. rewrite !lit_app, <- !app_assoc. done.
Qed.

Lemma entry_line_length (file_id name : string) :
  String.length (entry_line file_id name)
  = String.length (entry_head file_id) + String.length name
    + String.length ENTRY_TAIL + 1.
Proof. unfold entry_line. rewrite !string_app_length. simpl. lia. Qed.

Lemma entry_line_app (file_id name rest : string) :
  entry_line file_id name +:+ rest
  = entry_head file_id +:+ (name +:+ ENTRY_TAIL +:+ chr LF +:+ rest).
Proof. unfold entry_line. by rewrite !string_app_assoc. Qed.

(** The removal pattern matches at an entry line of its identifier, and
    consumes exactly that line. *)
Lemma match_removal (file_id x rest : string) (st : mstate) :
  x <> EmptyString -> no_newline x = true ->
  exists r,
    match_at (removal_pattern file_id) (entry_line file_id x +:+ rest) st = Some r
    /\ pos r = pos st + String.length (entry_line file_id x).
Proof.
  intros Hx Hnx. rewrite removal_pattern_eq, entry_line_app, match_at_lit.
  rewrite startswith_app, drop_app.
  destruct (match_lazy_line x ENTRY_TAIL rest (eat_all (entry_head file_id) st))
    as (r & Hr & Hpos); [done|done|done|].
  exists r. split; [done|].
  rewrite Hpos, pos_eat_all, entry_line_length. lia.
Qed.

(** It matches nowhere else. *)
Lemma match_removal_inv (file_id s : string) (st r : mstate) :
  match_at (removal_pattern file_id) s st = Some r ->
  exists x rest,
    s = entry_line file_id x +:+ rest /\ x <> EmptyString /\ no_newline x = true
    /\ pos r = pos st + String.length (entry_line file_id x).
Proof.
  rewrite removal_pattern_eq, match_at_lit.
  destruct (startswith s (entry_head file_id)) eqn:Hs; [|done].
  intros H. apply match_lazy_line_inv in H as (x & rest & Hd & Hx & Hnx & Hpos).
  apply startswith_split in Hs. exists x, rest.
  split; [|split; [done|split; [done|]]].
  - rewrite entry_line_app, <- Hd. exact Hs.
  - rewrite Hpos, pos_eat_all, entry_line_length. lia.
Qed.

Lemma sub_go_cons0 (p : pattern) (c : ascii) (s : string) (i : nat) :
  sub_go p (String c s) i 0
  = match match_at p (String c s) (start i) with
    | Some st => if pos st =? i then String c (sub_go p s (S i) 0)
                 else sub_go p s (S i) (pos st - S i)
    | None => String c (sub_go p s (S i) 0)
    end.
Proof. reflexivity. Qed.

Lemma entry_line_length_pos (file_id x : string) :
  0 < String.length (entry_line file_id x).
Proof. rewrite entry_line_length. lia. Qed.

(** The substitution does not depend on the index the scan starts from. *)
Lemma sub_go_shift (file_id s : string) (i j k : nat) :
  sub_go (removal_pattern file_id) s i k = sub_go (removal_pattern file_id) s j k.
Proof.
  revert i j k. induction s as [|c s IH]; intros i j k; [done|].
  destruct k as [|n]; [|apply IH].
  rewrite !sub_go_cons0.
  destruct (match_at _ (String c s) (start i)) as [r|] eqn:Ei.
  - destruct (match_removal_inv _ _ _ _ Ei) as (x & rest & Hs & Hx & Hnx & Hpos).
    destruct (match_removal file_id x rest (start j) Hx Hnx) as (r' & Hr' & Hpos').
    rewrite <- Hs in Hr'. rewrite Hr'.
    pose proof (entry_line_length_pos file_id x) as Hlen. simpl in Hpos, Hpos'.
    destruct (Nat.eqb_spec (pos r) i); [lia|].
    destruct (Nat.eqb_spec (pos r') j); [lia|].
    replace (pos r' - S j) with (pos r - S i) by lia. apply IH.
  - destruct (match_at _ (String c s) (start j)) as [r'|] eqn:Ej.
    + destruct (match_removal_inv _ _ _ _ Ej) as (x & rest & Hs & Hx & Hnx & _).
      destruct (match_removal file_id x rest (start i) Hx Hnx) as (r & Hr & _).
      rewrite <- Hs in Hr. congruence.
    + f_equal. apply IH.
Qed.

(** Passing over the rest of a match *)
Lemma sub_go_skip (p : pattern) (u v : string) (i : nat) :
  sub_go p (u +:+ v) i (String.length u) = sub_go p v (i + String.length u) 0.
Proof.
  revert i. induction u as [|c u IH]; intros i; simpl.
  - by rewrite Nat.add_0_r.
  - rewrite IH. f_equal. lia.
Qed.

(** At an entry line of its identifier, the substitution deletes the line. *)
Lemma sub_entry_line (file_id x rest : string) :
  x <> EmptyString -> no_newline x = true ->
  sub (removal_pattern file_id) (entry_line file_id x +:+ rest)
  = sub (removal_pattern file_id) rest.
Proof.
  intros Hx Hnx. unfold sub.
  destruct (match_removal file_id x rest (start 0) Hx Hnx) as (r & Hr & Hpos).
  pose proof (entry_line_length_pos file_id x) as Hlen.
  destruct (entry_line file_id x) as [|c u] eqn:E; [simpl in Hlen; lia|].
  change (String c u +:+ rest) with (String c (u +:+ rest)) in *.
  rewrite sub_go_cons0, Hr. simpl in Hpos.
  destruct (Nat.eqb_spec (pos r) 0); [lia|].
  replace (pos r - 1) with (String.length u) by lia.
  rewrite sub_go_skip. apply sub_go_shift.
Qed.

Lemma closed_tail (c : ascii) (s : string) : closed (String c s) = true -> closed s = true.
Proof. by destruct s. Qed.

Lemma closed_lf_index (s : string) :
  closed s = true -> s <> EmptyString -> is_Some (lf_index s).
Proof.
  induction s as [|c s IH]; [done|]. intros Hc _. simpl.
  destruct (dot c) eqn:Hd; [|eauto].
  destruct s as [|d s]; [simpl in Hc; by rewrite Hd in Hc|].
  destruct IH as [m Hm]; [done|done|]. rewrite Hm. eauto.
Qed.

Lemma no_newline_entry (file_id x : string) :
  no_newline file_id = true -> no_newline x = true ->
  no_newline (entry_head file_id +:+ x +:+ ENTRY_TAIL) = true.
Proof.
  intros Hi Hx. unfold entry_head. rewrite !no_newline_app, Hi, Hx. done.
Qed.

Lemma entry_line_split (file_id x rest : string) :
  entry_line file_id x +:+ rest
  = (entry_head file_id +:+ x +:+ ENTRY_TAIL) +:+ chr LF +:+ rest.
Proof. unfold entry_line. by rewrite !string_app_assoc. Qed.

(** A match that starts in text ending with a line feed ends inside it. *)
Lemma entry_line_within (file_id x rest pre s2 : string) :
  no_newline file_id = true -> no_newline x = true ->
  closed pre = true -> pre <> EmptyString ->
  pre +:+ s2 = entry_line file_id x +:+ rest ->
  pre = entry_line file_id x +:+ drop (String.length (entry_line file_id x)) pre.
Proof.
  intros Hi Hx Hc Hne Heq. apply (string_app_prefix _ s2 _ rest Heq).
  destruct (closed_lf_index pre Hc Hne) as [m Hm].
  pose proof (lf_index_lt _ _ Hm) as Hlt.
  apply (lf_index_app_l _ s2) in Hm. rewrite Heq, entry_line_split in Hm.
  rewrite lf_index_app_lf in Hm by (by apply no_newline_entry).
  assert (Hm' : m = String.length (entry_head file_id +:+ x +:+ ENTRY_TAIL))
    by congruence.
  rewrite !string_app_length in Hm'. rewrite entry_line_length. lia.
Qed.

(** The substitution works line by line: it distributes over a cut placed
    after a line feed. *)
Lemma sub_go_local (file_id pre s2 : string) (i k : nat) :
  no_newline file_id = true -> closed pre = true -> k <= String.length pre ->
  sub_go (removal_pattern file_id) (pre +:+ s2) i k
  = sub_go (removal_pattern file_id) pre i k +:+ sub_go (removal_pattern file_id) s2 0 0.
Proof.
  intros Hi. revert i k. induction pre as [|c pre IH]; intros i k Hc Hk.
  - simpl in Hk. assert (k = 0) as -> by lia. simpl. apply sub_go_shift.
  - pose proof (closed_tail _ _ Hc) as Hc'.
    change (String c pre +:+ s2) with (String c (pre +:+ s2)).
    destruct k as [|n]; [|simpl in Hk; apply IH; [done|lia]].
    rewrite !sub_go_cons0.
    destruct (match_at _ (String c (pre +:+ s2)) (start i)) as [r|] eqn:E.
    + destruct (match_removal_inv _ _ _ _ E) as (x & rest & Hs & Hx & Hnx & Hpos).
      assert (Hpre : String c pre
                     = entry_line file_id x
                       +:+ drop (String.length (entry_line file_id x)) (String c pre)).
      { apply (entry_line_within file_id x rest _ s2); done. }
      destruct (match_removal file_id x
                  (drop (String.length (entry_line file_id x)) (String c pre))
                  (start i) Hx Hnx) as (r' & Hr' & Hpos').
      rewrite <- Hpre in Hr'. rewrite Hr'.
      pose proof (entry_line_length_pos file_id x) as Hlen. simpl in Hpos, Hpos'.
      destruct (Nat.eqb_spec (pos r) i); [lia|].
      destruct (Nat.eqb_spec (pos r') i); [lia|].
      replace (pos r' - S i) with (pos r - S i) by lia.
      apply IH; [done|].
      apply (f_equal String.length) in Hpre. rewrite string_app_length in Hpre.
      simpl in Hpre. lia.
    + destruct (match_at _ (String c pre) (start i)) as [r'|] eqn:E'.
      * destruct (match_removal_inv _ _ _ _ E') as (x & rest & Hs & Hx & Hnx & _).
        destruct (match_removal file_id x (rest +:+ s2) (start i) Hx Hnx)
          as (r & Hr & _).
        rewrite <- string_app_assoc, <- Hs in Hr.
        change (String c pre +:+ s2) with (String c (pre +:+ s2)) in Hr. congruence.
      * change (String c ?a +:+ ?b) with (String c (a +:+ b)). f_equal.
        apply IH; [done|lia].
Qed.

Lemma sub_distributes (file_id pre s2 : string) :
  no_newline file_id = true -> closed pre = true ->
  sub (removal_pattern file_id) (pre +:+ s2)
  = sub (removal_pattern file_id) pre +:+ sub (removal_pattern file_id) s2.
Proof. intros Hi Hc. unfold sub. apply sub_go_local; [done|done|lia]. Qed.

(** Wherever an entry line of the identifier stands in the document, the
    substitution deletes it. *)
Lemma sub_deletes_entry_line (file_id x pre post : string) :
  no_newline file_id = true -> x <> EmptyString -> no_newline x = true ->
  closed pre = true ->
  sub (removal_pattern file_id) (pre +:+ entry_line file_id x +:+ post)
  = sub (removal_pattern file_id) pre +:+ sub (removal_pattern file_id) post.
Proof.
  intros Hi Hx Hnx Hc. rewrite sub_distributes by done.
  by rewrite sub_entry_line.
Qed.

End Removal.

(** ** The manifest deduplicator: the identifiers it finds *)

Section Identifiers.
Import Py Re FixDuplicates.

Lemma match_at_gopen (q : pattern) (s : string) (st : mstate) :
  match_at (GOpen :: q) s st = match_at q s (gopen st).
Proof. reflexivity. Qed.

Lemma match_at_gclose (q : pattern) (s : string) (st : mstate) :
  match_at (GClose :: q) s st = match_at q s (gclose st).
Proof. reflexivity. Qed.

Lemma groups_eat_all (x : string) (st : mstate) : groups (eat_all x st) = groups st.
Proof. revert st. induction x as [|c x IH]; intros st; simpl; [done|]. by rewrite IH. Qed.

Lemma cur_eat_all (x : string) (st : mstate) :
  cur (eat_all x st) = (fun g => g +:+ x) <$> cur st.
Proof.
  revert st. induction x as [|c x IH]; intros st; simpl.
  - destruct (cur st); simpl; [by rewrite string_app_nil_r|done].
  - rewrite IH. simpl. destruct (cur st); simpl; [|done].
    by rewrite string_app_assoc.
Qed.

(** What a run [C+] or [C+?] has consumed when the match succeeds *)
Lemma match_at_plus_inv (cls : ascii -> bool) (q : pattern) (s : string)
    (st r : mstate) :
  match_at (Plus cls :: q) s st = Some r ->
  exists x s', s = x +:+ s' /\ x <> EmptyString /\ all_chars cls x = true
               /\ match_at q s' (eat_all x st) = Some r.
Proof.
  revert st. induction s as [|d s IH]; intros st; [done|].
  rewrite match_at_plus. destruct (cls d) eqn:Hd; [|done].
  destruct (match_at (Plus cls :: q) s (eat d st)) as [r'|] eqn:E.
  - intros [= ->]. apply IH in E as (x & s' & -> & Hx & Hall & Hq).
    exists (String d x), s'. split; [done|]. split; [done|].
    split; [simpl; by rewrite Hd, Hall|done].
  - intros Hq. exists (chr d), s. split; [done|]. split; [done|].
    split; [simpl; by rewrite Hd|done].
Qed.

Lemma match_at_plus_lazy_inv (cls : ascii -> bool) (q : pattern) (s : string)
    (st r : mstate) :
  match_at (PlusLazy cls :: q) s st = Some r ->
  exists x s', s = x +:+ s' /\ x <> EmptyString /\ all_chars cls x = true
               /\ match_at q s' (eat_all x st) = Some r.
Proof.
  revert st. induction s as [|d s IH]; intros st; [done|].
  rewrite match_at_plus_lazy. destruct (cls d) eqn:Hd; [|done].
  destruct (match_at q s (eat d st)) as [r'|] eqn:E.
  - intros [= ->]. exists (chr d), s. split; [done|]. split; [done|].
    split; [simpl; by rewrite Hd|done].
  - intros H. apply IH in H as (x & s' & -> & Hx & Hall & Hq).
    exists (String d x), s'. split; [done|]. split; [done|].
    split; [simpl; by rewrite Hd, Hall|done].
Qed.

(** A match of the entry pattern captures an identifier made of the
    characters 0-9 and A-F, and a file name ending in .swift. *)
Lemma file_pattern_groups (s : string) (i : nat) (r : mstate) :
  match_at file_pattern s (start i) = Some r ->
  exists file_id stem,
    groups r = [file_id; stem +:+ ".swift"]
    /\ file_id <> EmptyString /\ all_chars hex_upper file_id = true
    /\ stem <> EmptyString /\ no_newline stem = true.
Proof.
  unfold file_pattern. rewrite match_at_lit.
  destruct (startswith s TABS); [|done].
  cbn [app]. rewrite match_at_gopen.
  intros H. apply match_at_plus_inv in H as (x & s1 & _ & Hx & Hhex & H).
  rewrite match_at_gclose, match_at_lit in H.
  destruct (startswith s1 " /* "); [|done].
  cbn [app] in H. rewrite match_at_gopen in H.
  apply match_at_plus_lazy_inv in H as (y & s2 & _ & Hy & Hdot & H).
  rewrite match_at_lit in H. destruct (startswith s2 ".swift"); [|done].
  cbn [app] in H. rewrite match_at_gclose, match_at_lit_only in H.
  destruct (startswith _ " in Sources */,"); [|done].
  injection H as <-. exists x, y.
  split; [|split; [done|split; [done|split; [done|]]]].
  - repeat (cbn [groups cur eat gclose gopen start fmap option_fmap option_map];
            rewrite ?groups_eat_all, ?cur_eat_all).
    rewrite !string_app_assoc. reflexivity.
  - clear -Hdot. induction y as [|c y IH]; [done|]. simpl in *.
    apply andb_true_iff in Hdot as [-> Hy]. by rewrite IH.
Qed.

Lemma findall_go_elem (p : pattern) (s : string) (i k : nat) (g : list string) :
  g ∈ findall_go p s i k ->
  exists s' j r, match_at p s' (start j) = Some r /\ groups r = g.
Proof.
  revert i k. induction s as [|c s IH]; intros i k; simpl.
  - by intros ?%elem_of_nil.
  - destruct k as [|n]; [|apply IH].
    destruct (match_at p (String c s) (start i)) as [r|] eqn:E; [|apply IH].
    intros [->|H]%elem_of_cons; [eauto|]. by apply IH in H.
Qed.

Lemma hex_upper_dot (c : ascii) : hex_upper c = true -> dot c = true.
Proof.
  intros H. unfold dot. destruct (Ascii.eqb_spec c LF) as [->|]; [|done].
  by vm_compute in H.
Qed.

Lemma all_hex_no_newline (x : string) :
  all_chars hex_upper x = true -> no_newline x = true.
Proof.
  induction x as [|c x IH]; [done|]. simpl.
  intros [Hc Hx]%andb_true_iff. by rewrite (hex_upper_dot c Hc), IH.
Qed.

(** Every entry the script finds has an identifier of characters 0-9 and
    A-F and a file name ending in .swift. *)
Lemma entries_shape (section file_id filename : string) :
  (file_id, filename) ∈ entries section ->
  file_id <> EmptyString /\ all_chars hex_upper file_id = true
  /\ exists stem, filename = stem +:+ ".swift" /\ stem <> EmptyString.
Proof.
  unfold entries, findall. intros (g & Hg & Hsome)%list_elem_of_omap.
  apply findall_go_elem in Hg as (s' & j & r & Hm & <-).
  apply file_pattern_groups in Hm as (x & y & Hgr & Hx & Hhex & Hy & _).
  rewrite Hgr in Hsome. injection Hsome as <- <-. eauto.
Qed.

Lemma removed_id_shape (matches : list (string * string)) (file_id : string) :
  file_id ∈ files_to_remove matches ->
  exists filename, (file_id, filename) ∈ matches.
Proof.
  rewrite files_to_remove_later, later_ids_elem.
  intros (pre & f & post & -> & _). exists f.
  apply elem_of_app. right. left.
Qed.

End Identifiers.

(** ** The manifest deduplicator: what one substitution leaves in place *)

Section Kept.
Import Py Re FixDuplicates.

Lemma sub_go_unmatched (p : pattern) (s : string) (i : nat) :
  unmatched p s -> sub_go p s i 0 = s.
Proof.
  revert i. induction s as [|c s IH]; intros i; [done|].
  intros [Hnone Hrest]. rewrite sub_go_cons0, Hnone. f_equal. by apply IH.
Qed.

Lemma hex_upper_not_tab (c : ascii) : hex_upper c = true -> not_tab c = true.
Proof.
  intros H. unfold not_tab. destruct (Ascii.eqb_spec c TAB) as [->|]; [|done].
  by vm_compute in H.
Qed.

Lemma all_hex_not_tab (x : string) :
  all_chars hex_upper x = true -> all_chars not_tab x = true.
Proof.
  induction x as [|c x IH]; [done|]. simpl.
  intros [Hc Hx]%andb_true_iff. by rewrite (hex_upper_not_tab c Hc), IH.
Qed.

Lemma all_chars_app (cls : ascii -> bool) (a b : string) :
  all_chars cls (a +:+ b) = all_chars cls a && all_chars cls b.
Proof. induction a as [|c a IH]; simpl; [done|]. by rewrite IH, andb_assoc. Qed.

(** The removal pattern starts with a tab: it matches at no position of a
    text without tabs. *)
Lemma unmatched_without_tab (file_id s : string) :
  all_chars not_tab s = true -> unmatched (removal_pattern file_id) s.
Proof.
  induction s as [|c s IH]; [done|]. cbn [all_chars unmatched].
  intros [Hc Hs]%andb_true_iff. split; [|by apply IH].
  intros j. rewrite removal_pattern_eq, match_at_lit.
  unfold entry_head, TABS. cbn [chr String.append startswith].
  unfold not_tab in Hc. rewrite Ascii.eqb_sym in Hc.
  by destruct (Ascii.eqb TAB c).
Qed.

(** Two identifiers followed by the same opening are equal. *)
Lemma hex_prefix_eq (a b rest : string) :
  all_chars hex_upper a = true -> all_chars hex_upper b = true ->
  startswith (a +:+ " /* " +:+ rest) (b +:+ " /* ") = true -> a = b.
Proof.
  revert a. induction b as [|d b IH]; intros a Ha Hb.
  - destruct a as [|c a]; [done|]. simpl in Ha.
    apply andb_true_iff in Ha as [Hc _]. cbn [String.append startswith].
    destruct (Ascii.eqb_spec " " c) as [<-|]; [by vm_compute in Hc|done].
  - simpl in Hb. apply andb_true_iff in Hb as [Hd Hb].
    destruct a as [|c a]; cbn [String.append startswith].
    + destruct (Ascii.eqb_spec d " ") as [->|]; [by vm_compute in Hd|done].
    + simpl in Ha. apply andb_true_iff in Ha as [Hc Ha].
      destruct (Ascii.eqb_spec d c) as [->|]; [|done].
      intros H. f_equal. by apply IH.
Qed.

(** The removal pattern of one identifier matches nowhere in an entry line
    of another identifier. *)
Lemma unmatched_other_entry (removed kept x : string) :
  all_chars hex_upper removed = true ->
  kept <> EmptyString -> all_chars hex_upper kept = true -> kept <> removed ->
  all_chars not_tab x = true ->
  unmatched (removal_pattern removed) (entry_line kept x).
Proof.
  intros Hr Hne Hk Hdiff Hx.
  assert (Hbody : all_chars not_tab (kept +:+ " /* " +:+ x +:+ ENTRY_TAIL +:+ chr LF)
                  = true).
  { rewrite !all_chars_app, (all_hex_not_tab kept Hk), Hx. done. }
  assert (Hlate : unmatched (removal_pattern removed)
                    (kept +:+ " /* " +:+ x +:+ ENTRY_TAIL +:+ chr LF))
    by (by apply unmatched_without_tab).
  destruct kept as [|k kept]; [done|]. simpl in Hk.
  apply andb_true_iff in Hk as [Hk0 Hk].
  pose proof (hex_upper_not_tab k Hk0) as Hk0'. unfold not_tab in Hk0'.
  rewrite Ascii.eqb_sym in Hk0'. apply negb_true_iff in Hk0'.
  unfold entry_line, entry_head, TABS.
  rewrite !string_app_assoc. cbn [chr String.append unmatched].
  cbn [String.append] in Hlate.
  repeat split; try exact (proj1 Hlate); try exact (proj2 Hlate); intros j;
    rewrite removal_pattern_eq, match_at_lit; unfold entry_head, TABS;
    cbn [chr String.append startswith]; rewrite ?Ascii.eqb_refl, ?Hk0'; try done.
  destruct (startswith _ (removed +:+ " /* ")) eqn:Hs; [|done].
  exfalso. apply Hdiff.
  apply (hex_prefix_eq (String k kept) removed (x +:+ ENTRY_TAIL +:+ chr LF));
    [simpl; by rewrite Hk0, Hk|done|].
  exact Hs.
Qed.

Lemma closed_app_lf (s : string) : closed (s +:+ chr LF) = true.
Proof.
  induction s as [|c s IH]; [done|].
  cbn [String.append closed]. by destruct (s +:+ chr LF) eqn:E; [destruct s|].
Qed.

(** The substitution for one identifier leaves the entry lines of the
    other identifiers in place. *)
Lemma sub_keeps_other_entry (removed kept x pre post : string) :
  all_chars hex_upper removed = true ->
  kept <> EmptyString -> all_chars hex_upper kept = true -> kept <> removed ->
  all_chars not_tab x = true -> closed pre = true ->
  sub (removal_pattern removed) (pre +:+ entry_line kept x +:+ post)
  = sub (removal_pattern removed) pre +:+ entry_line kept x
    +:+ sub (removal_pattern removed) post.
Proof.
  intros Hr Hne Hk Hdiff Hx Hc.
  pose proof (all_hex_no_newline removed Hr) as Hnl.
  rewrite sub_distributes by done. f_equal.
  rewrite sub_distributes.
  - f_equal. apply sub_go_unmatched. by apply unmatched_other_entry.
  - done.
  - unfold entry_line. rewrite <- !string_app_assoc. apply closed_app_lf.
Qed.

End Kept.

(** ** The manifest deduplicator: the run *)

Section Deduplicator.
Import Py Re FixDuplicates.

Lemma run_writes (content : string) :
  find content MAIN_SOURCES 0 <> (-1)%Z ->
  run content
  = Outcome (Some (remove_lines (files_to_remove (located_entries content)) content)) 0.
Proof.
  intros H. unfold run. by destruct (Z.eqb_spec (find content MAIN_SOURCES 0) (-1)).
Qed.

Lemma converged_unchanged (content : string) :
  NoDup (located_entries content).*2 ->
  files_to_remove (located_entries content) = [] /\ file_after content = content.
Proof.
  intros Hnd.
  assert (Hnil : files_to_remove (located_entries content) = []).
  { rewrite files_to_remove_later. apply later_ids_nodup; [done|].
    intros n _. apply not_elem_of_empty. }
  split; [done|]. unfold file_after, run. fold (located_entries content).
  destruct (Z.eqb_spec (find content MAIN_SOURCES 0) (-1)); [done|].
  by rewrite Hnil.
Qed.

Lemma files_to_remove_elem (matches : list (string * string)) (file_id : string) :
  file_id ∈ files_to_remove matches
  <-> exists pre filename post,
        matches = pre ++ (file_id, filename) :: post /\ filename ∈ pre.*2.
Proof.
  rewrite files_to_remove_later, later_ids_elem.
  split; intros (pre & f & post & H & Hf); exists pre, f, post; (split; [done|]).
  - destruct Hf as [Hf|Hf]; [by apply elem_of_empty in Hf|done].
  - by right.
Qed.

(** For an identifier the script removes, the substitution deletes every
    entry line of that identifier, wherever the line stands. *)
Lemma removed_id_lines_deleted (content file_id x pre post : string) :
  file_id ∈ files_to_remove (located_entries content) ->
  x <> EmptyString -> no_newline x = true -> closed pre = true ->
  sub (removal_pattern file_id) (pre +:+ entry_line file_id x +:+ post)
  = sub (removal_pattern file_id) pre +:+ sub (removal_pattern file_id) post.
Proof.
  intros Hid. apply removed_id_shape in Hid as [filename Hin].
  apply entries_shape in Hin as (_ & Hhex & _).
  apply sub_deletes_entry_line. by apply all_hex_no_newline.
Qed.

Lemma removed_id_keeps_other_lines (content removed kept x pre post : string) :
  removed ∈ files_to_remove (located_entries content) ->
  kept <> EmptyString -> all_chars hex_upper kept = true -> kept <> removed ->
  all_chars not_tab x = true -> closed pre = true ->
  sub (removal_pattern removed) (pre +:+ entry_line kept x +:+ post)
  = sub (removal_pattern removed) pre +:+ entry_line kept x
    +:+ sub (removal_pattern removed) post.
Proof.
  intros Hid. apply removed_id_shape in Hid as [filename Hin].
  apply entries_shape in Hin as (_ & Hhex & _).
  by apply sub_keeps_other_entry.
Qed.

(** C7 (the code departs from the claim).  An identifier that is listed
    again for the file name it was first seen with is both the one kept for
    that name and one of those removed; the substitutions then delete every
    entry line of it, the first-seen one included.  On a main Sources phase
    that lists the entry line of A.swift twice under AA01, the script keeps
    AA01 for A.swift, removes AA01, and writes a file in which A.swift has
    no entry left. *)
Theorem repeated_identifier_loses_kept_entry :
  (forall (pre post : list (string * string)) (file_id filename : string),
      filename ∉ pre.*2 ->
      (file_id, filename) ∈ post ->
      files_to_keep (pre ++ (file_id, filename) :: post) !! filename = Some file_id
      /\ file_id ∈ files_to_remove (pre ++ (file_id, filename) :: post))
  /\ located_entries repeated_identifier_manifest
     = [("AA01", "A.swift"); ("BB02", "B.swift"); ("AA01", "A.swift")]
  /\ files_to_keep (located_entries repeated_identifier_manifest) !! "A.swift"
     = Some "AA01"
  /\ files_to_remove (located_entries repeated_identifier_manifest) = ["AA01"]
  /\ run repeated_identifier_manifest
     = Outcome (Some repeated_identifier_remainder) 0
  /\ located_entries (file_after repeated_identifier_manifest)
     = [("BB02", "B.swift")].
Proof.
  split.
  - intros pre post file_id filename Hpre Hpost. split.
    + by apply files_to_keep_first.
    + apply files_to_remove_elem.
      apply list_elem_of_split in Hpost as (p1 & p2 & ->).
      exists (pre ++ (file_id, filename) :: p1), filename, p2. split.
      * by rewrite <- app_assoc.
      * rewrite fmap_app, fmap_cons. apply elem_of_app. right. left.
  - repeat split; by vm_compute.
Qed.

Lemma repeated_identifier_loses_kept_entry_witness :
  files_to_keep ([] ++ ("AA01", "A.swift") :: [("BB02", "B.swift"); ("AA01", "A.swift")])
    !! "A.swift" = Some "AA01"
  /\ "AA01" ∈ files_to_remove
               ([] ++ ("AA01", "A.swift") :: [("BB02", "B.swift"); ("AA01", "A.swift")]).
Proof.
  apply (proj1 repeated_identifier_loses_kept_entry
           [] [("BB02", "B.swift"); ("AA01", "A.swift")] "AA01" "A.swift").
  - apply not_elem_of_nil.
  - apply list_elem_of_In. simpl. tauto.
Defined.

Lemma endswith_app (a b : string) : endswith (a +:+ b) b = true.
Proof.
  unfold endswith. rewrite string_app_length.
  replace (String.length a + String.length b - String.length b)
    with (String.length a) by lia.
  rewrite drop_app, String.eqb_refl.
  destruct (Nat.leb_spec (String.length b) (String.length a + String.length b));
    [done|lia].
Qed.

(** C10.  The identifiers to remove are taken from the located main Sources
    section only, but the substitutions run over the whole content: an
    entry line of a removed identifier is deleted wherever it stands, and
    the text outside the located section can change, as it does for a
    second Sources phase that refers to a removed identifier. *)
Theorem removal_reaches_outside_sources_section :
  (forall content : string,
      find content MAIN_SOURCES 0 <> (-1)%Z ->
      written (run content)
      = Some (remove_lines (files_to_remove (located_entries content)) content))
  /\ (forall content file_id x pre post : string,
        file_id ∈ files_to_remove (located_entries content) ->
        x <> EmptyString -> no_newline x = true -> closed pre = true ->
        sub (removal_pattern file_id) (pre +:+ entry_line file_id x +:+ post)
        = sub (removal_pattern file_id) pre +:+ sub (removal_pattern file_id) post)
  /\ contains (after_section two_target_manifest) (entry_line "CC03" "A.swift") = true
  /\ contains (file_after two_target_manifest) (entry_line "CC03" "A.swift") = false
  /\ ~ outside_unchanged two_target_manifest.
Proof.
  split; [|split; [apply removed_id_lines_deleted|]].
  - intros content H. by rewrite run_writes.
  - split; [by vm_compute|]. split; [by vm_compute|].
    intros [section H].
    assert (Hends : endswith (file_after two_target_manifest)
                      (after_section two_target_manifest) = true).
    { rewrite H, <- string_app_assoc. apply endswith_app. }
    by vm_compute in Hends.
Qed.

Lemma removal_reaches_outside_sources_section_witness :
  written (run two_target_manifest)
  = Some (remove_lines (files_to_remove (located_entries two_target_manifest))
            two_target_manifest)
  /\ sub (removal_pattern "CC03")
         (("};" +:+ chr LF) +:+ entry_line "CC03" "A.swift" +:+ "/* End */")
     = sub (removal_pattern "CC03") ("};" +:+ chr LF)
       +:+ sub (removal_pattern "CC03") "/* End */".
Proof.
  split.
  - apply (proj1 removal_reaches_outside_sources_section two_target_manifest).
    by vm_compute.
  - apply (proj1 (proj2 removal_reaches_outside_sources_section)
             two_target_manifest "CC03" "A.swift" ("};" +:+ chr LF) "/* End */");
      [|discriminate|reflexivity|reflexivity].
    apply list_elem_of_In. vm_compute. tauto.
Defined.

End Deduplicator.


(** * Further properties of the scripts *)

(** ** Text *)

Section Text.
Import Py.

(** [p in s] holds exactly when [s] can be cut around an occurrence of [p]. *)
Lemma contains_spec (s p : string) :
  contains s p = true <-> exists pre post, s = pre +:+ p +:+ post.
Proof.
  induction s as [|c s IH].
  - cbn [contains]. rewrite orb_false_r. split.
    + intros H. apply startswith_split in H. by exists EmptyString, (drop (String.length p) "").
    + intros (pre & post & H). destruct pre; [|discriminate]. cbn [String.append] in H.
      rewrite H. apply startswith_app.
  - cbn [contains]. rewrite orb_true_iff, IH. split.
    + intros [H|(pre & post & ->)].
      * apply startswith_split in H. by exists EmptyString, (drop (String.length p) (String c s)).
      * by exists (String c pre), post.
    + intros (pre & post & H). destruct pre as [|d pre].
      * left. cbn [String.append] in H. rewrite H. apply startswith_app.
      * right. cbn [String.append] in H. injection H as -> ->. by exists pre, post.
Qed.

Lemma contains_trans (s p q : string) :
  contains s p = true -> contains p q = true -> contains s q = true.
Proof.
  rewrite !contains_spec. intros (a & b & ->) (c & d & ->).
  exists (a +:+ c), (d +:+ b). by rewrite !string_app_assoc.
Qed.

End Text.

(** ** The project architect, further *)

Section ArchitectMore.
Import Py Fs Exc ProjectArchitect.

Lemma walk_dir (keep : string -> bool) (top : string) (es : list (string * node)) :
  walk keep top (Dir es)
  = (top, filter (fun d => keep d) (dirnames es), filenames es)
    :: flat_map (fun e => if is_dir (snd e) && keep (fst e)
                          then walk keep (join top (fst e)) (snd e) else []) es.
Proof.
  cbn [walk]. f_equal. induction es as [|[n c] es IH]; [done|].
  cbn [flat_map fst snd]. by rewrite IH.
Qed.

Lemma fold_left_ext {A B : Type} (f g : A -> B -> A) (l : list B) (a : A) :
  (forall x y, f x y = g x y) -> fold_left f l a = fold_left g l a.
Proof.
  intros H. revert a. induction l as [|b l IH]; intros a; [done|].
  simpl. by rewrite H, IH.
Qed.

Lemma compute_metrics_fold (project_path : node) :
  compute_metrics project_path
  = fold_left count_dir (walk keep_dir "" project_path) (Metrics 0 0 0 0).
Proof.
  unfold compute_metrics. apply fold_left_ext. by intros m [[? ?] ?].
Qed.

Lemma source_not_doc (ext : string) :
  mem ext source_extensions = true -> mem ext [".md"; ".rst"; ".txt"] = false.
Proof.
  unfold mem at 1. intros (x & Hin & Heq)%existsb_exists.
  apply String.eqb_eq in Heq as ->. simpl in Hin.
  repeat (destruct Hin as [<-|Hin]; [reflexivity|]). done.
Qed.

Lemma count_file_consistent (m : metrics) (fname : string) :
  consistent m -> consistent (count_file m fname).
Proof.
  unfold consistent, count_file. cbn [total_files source_files test_files doc_files].
  intros [H1 H2].
  destruct (mem (lower (suffix fname)) source_extensions) eqn:Hs.
  - rewrite (source_not_doc _ Hs). cbn [andb].
    destruct (existsb _ test_keywords); lia.
  - cbn [andb]. destruct (mem _ [".md"; ".rst"; ".txt"]); lia.
Qed.

Lemma count_dir_consistent (m : metrics) (t : string * list string * list string) :
  consistent m -> consistent (count_dir m t).
Proof.
  unfold count_dir. generalize (snd t). intros files. revert m.
  induction files as [|f files IH]; intros m Hm; [done|].
  simpl. apply IH. by apply count_file_consistent.
Qed.

(** X1.  Whatever the tree, the counters of [compute_metrics] are
    consistent: no more test files than source files, and source files and
    documentation files together no more than all files. *)
Theorem metrics_consistent (project_path : node) :
  consistent (compute_metrics project_path).
Proof.
  rewrite compute_metrics_fold.
  assert (H0 : consistent (Metrics 0 0 0 0)) by (unfold consistent; simpl; lia).
  revert H0. generalize (Metrics 0 0 0 0).
  induction (walk keep_dir "" project_path) as [|t l IH]; intros m Hm; [done|].
  simpl. apply IH. by apply count_dir_consistent.
Qed.

Lemma filenames_skip_dir (es1 es2 : list (string * node)) (d : string)
    (sub : list (string * node)) :
  filenames (es1 ++ (d, Dir sub) :: es2) = filenames (es1 ++ es2).
Proof.
  unfold filenames. rewrite !filter_app, !map_app, filter_cons.
  by case_decide.
Qed.

(** X2.  A directory whose name starts with a dot, or is node_modules,
    build or dist, is not descended into: adding it to a project, with
    whatever it holds, changes none of the counters. *)
Theorem metrics_ignore_pruned_directory :
  forall (es1 es2 sub : list (string * node)) (d : string),
    keep_dir d = false ->
    compute_metrics (Dir (es1 ++ (d, Dir sub) :: es2))
    = compute_metrics (Dir (es1 ++ es2)).
Proof.
  intros es1 es2 sub d Hd. rewrite !compute_metrics_fold, !walk_dir.
  cbn [fold_left]. unfold count_dir at 2 4. cbn [snd].
  rewrite filenames_skip_dir. f_equal.
  rewrite !flat_map_app. cbn [flat_map fst snd is_dir andb].
  by rewrite Hd.
Qed.

Lemma metrics_ignore_pruned_directory_witness :
  compute_metrics
    (Dir ([("main.py", File (Text "x"))]
          ++ (".git", Dir [("config", File (Text "y"))]) :: [("docs", Dir [])]))
  = compute_metrics (Dir ([("main.py", File (Text "x"))] ++ [("docs", Dir [])])).
Proof.
  apply (metrics_ignore_pruned_directory
           [("main.py", File (Text "x"))] [("docs", Dir [])]
           [("config", File (Text "y"))] ".git").
  reflexivity.
Defined.

(** The loop over the environment files reads .gitignore only when one of
    them exists; it then stops at a read failure, or recommends each existing
    one that the text does not cover. *)
Lemma check_env_files_cases (project_path : node) (l : list string) :
  check_env_files project_path l
  = if existsb (exists_ project_path) l
    then match lookup project_path [".gitignore"] with
         | None => Ok []
         | Some gitignore_path =>
             match read_text gitignore_path with
             | Raise e => Raise e
             | Ok text =>
                 Ok (flat_map
                       (fun env_file =>
                          if exists_ project_path env_file
                             && negb (contains text env_file)
                             && negb (contains text ".env")
                          then [env_recommendation env_file] else [])
                       l)
             end
         end
    else Ok [].
Proof.
  induction l as [|env_file l IH]; [done|].
  cbn [check_env_files existsb flat_map]. rewrite IH. clear IH.
  destruct (exists_ project_path env_file) eqn:He; cbn [orb andb].
  - destruct (lookup project_path [".gitignore"]) as [g|].
    + destruct (read_text g) as [text|e]; [|done]. cbn [mbind result_bind].
      destruct (existsb (exists_ project_path) l) eqn:Hl.
      * by destruct (negb (contains text env_file) && negb (contains text ".env")).
      * assert (Hnil : flat_map
                         (fun env_file0 =>
                            if exists_ project_path env_file0
                               && negb (contains text env_file0)
                               && negb (contains text ".env")
                            then [env_recommendation env_file0] else []) l = []).
        { clear -Hl. induction l as [|x l IH]; [done|]. cbn [existsb] in Hl.
          apply orb_false_iff in Hl as [Hx Hl]. cbn [flat_map].
          by rewrite Hx, IH. }
        rewrite Hnil. cbn [mbind result_bind].
        destruct (negb (contains text env_file) && negb (contains text ".env"));
          cbn [mbind result_bind]; by rewrite ?app_nil_r.
    + cbn [mbind result_bind]. by destruct (existsb (exists_ project_path) l).
  - cbn [mbind result_bind]. destruct (existsb (exists_ project_path) l); [|done].
    destruct (lookup project_path [".gitignore"]) as [g|]; [|done].
    by destruct (read_text g).
Qed.

Lemma env_file_mentions_env (env_file : string) :
  env_file ∈ env_files -> contains env_file ".env" = true.
Proof.
  intros H. apply list_elem_of_In in H. simpl in H.
  repeat (destruct H as [<-|H]; [reflexivity|]). done.
Qed.

(** X3.  The architect ends with an uncaught exception exactly when an
    environment file (.env, .env.local or .env.development) exists and
    .gitignore exists but cannot be read as text. *)
Theorem architect_crashes_on_unreadable_gitignore :
  forall (project_path : node) (e : exn),
    main (Some project_path) = Uncaught e
    <-> existsb (exists_ project_path) env_files = true
        /\ exists gitignore_path,
             lookup project_path [".gitignore"] = Some gitignore_path
             /\ read_text gitignore_path = Raise e.
Proof.
  intros p e. unfold main, check_security. rewrite check_env_files_cases.
  destruct (existsb (exists_ p) env_files).
  - destruct (lookup p [".gitignore"]) as [g|].
    + destruct (read_text g) as [text|e'] eqn:Hr; cbn.
      * split; [done|]. intros [_ (g' & [= <-] & H)]. congruence.
      * split.
        -- intros [= <-]. eauto.
        -- intros [_ (g' & [= <-] & H)]. congruence.
    + cbn. split; [done|]. by intros [_ (g' & H & _)].
  - cbn. split; [done|]. by intros [H _].
Qed.

Lemma structure_ok (p : node) :
  check_project_structure p = []
  <-> forall f, f ∈ map fst structure_checks -> exists_ p f = true.
Proof.
  unfold check_project_structure, structure_checks. cbn [flat_map map fst app].
  split.
  - intros H f Hf. apply list_elem_of_In in Hf. simpl in Hf.
    repeat (destruct Hf as [<-|Hf];
            [repeat match type of H with
                    | context [exists_ p ?x] =>
                        destruct (exists_ p x) eqn:?; try discriminate H
                    end; done|]).
    done.
  - intros H.
    rewrite (H "README.md"), (H ".gitignore"), (H ".env.example"),
      (H "CONTRIBUTING.md"), (H "CHANGELOG.md");
      [done|apply list_elem_of_In; simpl; tauto..].
Qed.

Lemma quality_ok (p : node) :
  check_code_quality p = []
  <-> existsb (exists_ p) test_dirs = true /\ existsb (exists_ p) lint_configs = true.
Proof.
  unfold check_code_quality.
  destruct (existsb (exists_ p) test_dirs); destruct (existsb (exists_ p) lint_configs);
    cbn [app]; split; try done; intros [? ?]; done.
Qed.

Lemma ci_ok (p : node) :
  check_ci_cd p = [] <-> existsb (exists_ p) ci_paths = true.
Proof. unfold check_ci_cd. by destruct (existsb (exists_ p) ci_paths). Qed.

Lemma security_ok (p : node) :
  check_security p = Ok []
  <-> existsb (exists_ p) security_files = true
      /\ check_env_files p env_files = Ok [].
Proof.
  unfold check_security.
  destruct (check_env_files p env_files) as [envs|e]; cbn [mbind result_bind].
  - destruct (existsb (exists_ p) security_files); cbn [app].
    + split; [intros [= ->]; done|intros [_ [= ->]]; done].
    + split; [done|]. by intros [? _].
  - split; [done|]. by intros [_ ?].
Qed.

(** With a .gitignore in place, the loop over the environment files
    recommends nothing exactly when no environment file exists or the
    text of .gitignore mentions .env. *)
Lemma env_ok (p g : node) :
  lookup p [".gitignore"] = Some g ->
  check_env_files p env_files = Ok []
  <-> (existsb (exists_ p) env_files = true ->
       exists text, g = File (Text text) /\ contains text ".env" = true).
Proof.
  intros Hg. rewrite check_env_files_cases, Hg.
  destruct (existsb (exists_ p) env_files) eqn:Henv; [|by split].
  destruct g as [[text| |]|es]; cbn [read_text].
  2-4: split; [done|]; intros H; by destruct (H eq_refl) as (text & [=] & _).
  destruct (contains text ".env") eqn:Hc.
  - cbn [env_files flat_map]. rewrite !andb_false_r. cbn [app].
    split; [|done]. intros _ _. eauto.
  - split.
    + intros [= Hnil]. exfalso.
      apply existsb_exists in Henv as (env & Hin & Hex).
      assert (Hne : contains text env = false).
      { destruct (contains text env) eqn:E; [|done].
        rewrite (contains_trans text env ".env") in Hc; [done|done|].
        apply env_file_mentions_env. by apply list_elem_of_In. }
      assert (Hrec : In (env_recommendation env)
                       (flat_map
                          (fun env_file =>
                             if exists_ p env_file && negb (contains text env_file)
                                && negb false
                             then [env_recommendation env_file] else []) env_files)).
      { apply in_flat_map. exists env. split; [done|].
        rewrite Hex, Hne. cbn. by left. }
      assert (Hnil' : flat_map
                        (fun env_file =>
                           if exists_ p env_file && negb (contains text env_file)
                              && negb false
                           then [env_recommendation env_file] else []) env_files = [])
        by exact Hnil.
      by rewrite Hnil' in Hrec.
    + intros H. destruct (H eq_refl) as (text' & [= <-] & Hc'). congruence.
Qed.

(** X4.  The architect exits with status 0 exactly on a well-kept project:
    the five documents, a test directory, a linter configuration, a security
    policy and a CI configuration exist, and when an environment file
    exists, .gitignore is readable text that mentions .env. *)
Theorem architect_passes_iff_well_kept :
  forall project_path : node,
    (exists recs m, main (Some project_path) = Exit 0 recs m)
    <-> well_kept project_path.
Proof.
  intros p. unfold well_kept.
  rewrite <- structure_ok. split.
  - intros (recs & m & H). unfold main in H.
    destruct (check_security p) as [sec|e] eqn:Hsec; [|done].
    destruct (check_project_structure p ++ check_code_quality p ++ sec
              ++ check_ci_cd p) as [|r rs] eqn:Hall; [|discriminate H].
    apply app_nil in Hall as [H1 Hall]. apply app_nil in Hall as [H2 Hall].
    apply app_nil in Hall as [-> H4].
    apply quality_ok in H2 as [Ht Hl]. apply ci_ok in H4.
    apply security_ok in Hsec as [Hsf Henv].
    repeat split; try done.
    assert (Hgit : exists_ p ".gitignore" = true).
    { apply (proj1 (structure_ok p) H1). apply list_elem_of_In. simpl. tauto. }
    unfold exists_ in Hgit. apply bool_decide_eq_true in Hgit as [g Hg].
    change (split ".gitignore" "/") with [".gitignore"] in Hg.
    intros Hex. destruct (proj1 (env_ok p g Hg) Henv Hex) as (text & -> & Hc).
    eauto.
  - intros (H1 & Ht & Hl & Hsf & Hci & Henv).
    assert (Hgit : exists_ p ".gitignore" = true).
    { apply (proj1 (structure_ok p) H1). apply list_elem_of_In. simpl. tauto. }
    unfold exists_ in Hgit. apply bool_decide_eq_true in Hgit as [g Hg].
    change (split ".gitignore" "/") with [".gitignore"] in Hg.
    assert (Hsec : check_security p = Ok []).
    { apply security_ok. split; [done|]. apply (env_ok p g Hg).
      intros Hex. destruct (Henv Hex) as (text & Hg' & Hc).
      exists text. split; [congruence|done]. }
    unfold main. rewrite Hsec, H1, (proj2 (quality_ok p) (conj Ht Hl)),
      (proj2 (ci_ok p) Hci).
    eauto.
Qed.

Lemma architect_passes_iff_well_kept_witness :
  exists recs m,
    main (Some (Dir [("README.md", File (Text "# demo"));
                     (".gitignore", File (Text ".env")); (".env", File (Text "KEY=1"));
                     (".env.example", File (Text "KEY=")); ("CONTRIBUTING.md", File (Text ""));
                     ("CHANGELOG.md", File (Text "")); ("tests", Dir []);
                     ("pyproject.toml", File (Text "")); ("SECURITY.md", File (Text ""));
                     ("Jenkinsfile", File (Text ""))]))
    = Exit 0 recs m.
Proof.
  apply (proj2 (architect_passes_iff_well_kept _)).
  repeat split; try reflexivity.
  - intros f Hf. apply list_elem_of_In in Hf. simpl in Hf.
    repeat (destruct Hf as [<-|Hf]; [reflexivity|]). done.
  - intros _. exists ".env". split; reflexivity.
Defined.

Lemma architect_crashes_on_unreadable_gitignore_witness :
  main (Some (Dir [(".env", File (Text "KEY=1")); (".gitignore", Dir [])]))
  = Uncaught OSError.
Proof.
  apply (proj2 (architect_crashes_on_unreadable_gitignore _ OSError)).
  split; [reflexivity|]. exists (Dir []). split; reflexivity.
Defined.

End ArchitectMore.

(** ** File name suffixes *)

Section Suffix.
Import Py ProjectArchitect.

Lemma take_drop (i : nat) (s : string) : take i s +:+ drop i s = s.
Proof.
  revert s. induction i as [|i IH]; intros s; [done|].
  destruct s as [|c s]; [done|]. simpl. by rewrite IH.
Qed.

Lemma drop_length (i : nat) (s : string) :
  String.length (drop i s) = String.length s - i.
Proof.
  revert s. induction i as [|i IH]; intros s; simpl; [lia|].
  destruct s as [|c s]; [done|]. simpl. apply IH.
Qed.

Lemma rfind_dot_none (e : string) :
  all_chars not_dot e = true -> rfind_dot e = None.
Proof.
  induction e as [|c e IH]; [done|]. simpl.
  intros [Hc He]%andb_true_iff. rewrite (IH He).
  unfold not_dot in Hc. by destruct (Ascii.eqb c ".").
Qed.

Lemma rfind_dot_last (stem e : string) :
  all_chars not_dot e = true ->
  rfind_dot (stem +:+ "." +:+ e) = Some (String.length stem).
Proof.
  intros He. change ("." +:+ e) with (String "."%char e).
  induction stem as [|c stem IH].
  - cbn [String.append rfind_dot String.length]. by rewrite (rfind_dot_none e He).
  - cbn [String.append rfind_dot String.length]. by rewrite IH.
Qed.

Lemma rfind_dot_inv (name : string) (i : nat) :
  rfind_dot name = Some i ->
  exists e, name = take i name +:+ "." +:+ e /\ all_chars not_dot e = true
            /\ String.length name = i + 1 + String.length e.
Proof.
  revert i. induction name as [|c name IH]; intros i; [done|].
  cbn [rfind_dot]. destruct (rfind_dot name) as [j|] eqn:Hj.
  - intros [= <-]. destruct (IH j eq_refl) as (e & Hn & He & Hlen).
    exists e. split; [|split; [done|simpl; lia]].
    change (String c name = String c (take j name +:+ "." +:+ e)). by f_equal.
  - destruct (Ascii.eqb_spec c ".") as [->|]; [|done]. intros [= <-].
    exists name. split; [done|]. split; [|simpl; lia].
    clear IH. induction name as [|d name IH]; [done|].
    cbn [rfind_dot] in Hj. destruct (rfind_dot name); [done|].
    simpl. unfold not_dot at 1. destruct (Ascii.eqb d "."); [done|].
    by rewrite IH.
Qed.

(** X5.  The suffix of a file name is empty, or it is the last dot and
    what follows it, and then the dot is neither the first nor the last
    character; conversely a name made of a non-empty stem, a dot and a
    non-empty extension without dots has that dot and extension as suffix.
    In both cases the name is its stem followed by its suffix. *)
Theorem suffix_is_last_extension :
  (forall name : string,
      name = take (String.length name - String.length (suffix name)) name
             +:+ suffix name
      /\ (suffix name = EmptyString
          \/ exists stem e, name = stem +:+ "." +:+ e /\ stem <> EmptyString
                            /\ e <> EmptyString /\ all_chars not_dot e = true
                            /\ suffix name = "." +:+ e))
  /\ (forall stem e : string,
        stem <> EmptyString -> e <> EmptyString -> all_chars not_dot e = true ->
        suffix (stem +:+ "." +:+ e) = "." +:+ e).
Proof.
  split.
  - intros name. unfold suffix.
    destruct (rfind_dot name) as [i|] eqn:Hi.
    2:{ split; [|by left]. cbn [String.length]. rewrite Nat.sub_0_r.
        rewrite <- (take_drop (String.length name) name) at 1.
        f_equal. clear. induction name; simpl; congruence. }
    destruct (rfind_dot_inv name i Hi) as (e & Hn & He & Hlen).
    destruct ((0 <? i) && (i <? String.length name - 1)) eqn:Hc.
    + apply andb_true_iff in Hc as [H0 H1].
      apply Nat.ltb_lt in H0, H1.
      assert (Hd : drop i name = "." +:+ e).
      { rewrite Hn at 1.
        assert (Hl : String.length (take i name) = i).
        { apply (f_equal String.length) in Hn.
          rewrite string_app_length in Hn. simpl in Hn. lia. }
        rewrite <- Hl at 1. apply drop_app. }
      rewrite drop_length.
      replace (String.length name - (String.length name - i)) with i by lia.
      split; [by rewrite take_drop|]. right.
      exists (take i name), e. split; [done|].
      split; [destruct name; [simpl in *; lia|]; destruct i; [lia|done]|].
      split; [destruct e; [simpl in *; lia|done]|]. done.
    + split; [|by left]. cbn [String.length]. rewrite Nat.sub_0_r.
      rewrite <- (take_drop (String.length name) name) at 1.
      f_equal. clear. induction name; simpl; congruence.
  - intros stem e Hs He Hnd. unfold suffix. rewrite (rfind_dot_last stem e Hnd).
    assert (Hc : (0 <? String.length stem)
                 && (String.length stem <? String.length (stem +:+ "." +:+ e) - 1)
                 = true).
    { apply andb_true_iff; split; apply Nat.ltb_lt.
      - destruct stem; [done|simpl; lia].
      - rewrite !string_app_length. destruct e; [done|]. simpl. lia. }
    rewrite Hc. apply drop_app.
Qed.

Lemma suffix_is_last_extension_witness :
  suffix ("archive.tar" +:+ "." +:+ "gz") = "." +:+ "gz".
Proof.
  apply (proj2 suffix_is_last_extension "archive.tar" "gz").
  - discriminate.
  - discriminate.
  - reflexivity.
Defined.

End Suffix.

(** ** The diagram generator, further *)

Section DiagramMore.
Import Py Fs Exc DiagramGenerator DiagramContent.

Lemma mem_elem (x : string) (l : list string) :
  ProjectArchitect.mem x l = true <-> x ∈ l.
Proof.
  unfold ProjectArchitect.mem. rewrite existsb_exists. split.
  - intros (y & Hin & ->%String.eqb_eq). by apply list_elem_of_In.
  - intros H. exists x. split; [by apply list_elem_of_In|apply String.eqb_refl].
Qed.

Lemma get_append (c c' : category) (tech : string) (s : stack) :
  get c (append c' tech s)
  = if bool_decide (c = c') then get c s ++ [tech] else get c s.
Proof.
  destruct c, c'; cbn [get append languages frontend backend database devops];
    first [rewrite bool_decide_eq_true_2 by done; done
          |rewrite bool_decide_eq_false_2 by done; done].
Qed.

(** The loop over any list of indicators, from any stack *)
Lemma detect_loop (p : node) (l : list (string * (category * string))) (s : stack)
    (c : category) :
  (forall tech,
      tech ∈ get c (fold_left (detect_step p) l s)
      <-> tech ∈ get c s
          \/ exists indicator, (indicator, (c, tech)) ∈ l /\ exists_ p indicator = true)
  /\ (NoDup (get c s) -> NoDup (get c (fold_left (detect_step p) l s))).
Proof.
  revert s. induction l as [|[ind [c' tech']] l IH]; intros s.
  - cbn [fold_left]. split; [|done]. intros tech. split; [by left|].
    intros [H|(i & H & _)]; [done|]. by apply elem_of_nil in H.
  - cbn [fold_left]. destruct (IH (detect_step p s (ind, (c', tech')))) as [IHe IHn].
    assert (Hstep : forall tech,
               tech ∈ get c (detect_step p s (ind, (c', tech')))
               <-> tech ∈ get c s
                   \/ (c = c' /\ tech = tech' /\ exists_ p ind = true)).
    { intros tech. cbn [detect_step]. destruct (exists_ p ind) eqn:He.
      - destruct (ProjectArchitect.mem tech' (get c' s)) eqn:Hm.
        + apply mem_elem in Hm. split; [by left|].
          intros [H|(-> & -> & _)]; done.
        + rewrite get_append. case_bool_decide as Hc.
          * subst c'. rewrite elem_of_app, list_elem_of_singleton. intuition.
          * intuition.
      - intuition discriminate. }
    split.
    + intros tech. rewrite IHe, Hstep. split.
      * intros [[H|(-> & -> & He)]|(i & Hi & He)].
        -- by left.
        -- right. exists ind. split; [left|done].
        -- right. exists i. split; [by right|done].
      * intros [H|(i & Hi & He)]; [by left; left|].
        apply elem_of_cons in Hi as [[= -> -> ->]|Hi].
        -- left. right. done.
        -- right. eauto.
    + intros Hnd. apply IHn. cbn [detect_step].
      destruct (exists_ p ind); [|done].
      destruct (ProjectArchitect.mem tech' (get c' s)) eqn:Hm; [done|].
      rewrite get_append. case_bool_decide as Hc; [|done]. subst c'.
      apply NoDup_app. split; [done|]. split; [|apply NoDup_singleton].
      intros x Hx ->%list_elem_of_singleton.
      apply mem_elem in Hx. congruence.
Qed.

Lemma detected_elem (p : node) (c : category) (tech : string) :
  tech ∈ get c (detect_tech_stack p)
  <-> exists indicator,
        (indicator, (c, tech)) ∈ indicators /\ exists_ p indicator = true.
Proof.
  unfold detect_tech_stack.
  rewrite (proj1 (detect_loop p indicators (Stack [] [] [] [] []) c) tech).
  split; [|by right]. intros [H|H]; [|done]. destruct c; by apply elem_of_nil in H.
Qed.

Lemma detected_backend_database (p : node) :
  backend (detect_tech_stack p) = [] /\ database (detect_tech_stack p) = [].
Proof.
  split.
  - destruct (backend (detect_tech_stack p)) as [|x l] eqn:E; [done|]. exfalso.
    assert (Hx : x ∈ get Backend (detect_tech_stack p)) by (cbn [get]; rewrite E; left).
    apply detected_elem in Hx as (i & Hi & _). apply list_elem_of_In in Hi.
    simpl in Hi. intuition discriminate.
  - destruct (database (detect_tech_stack p)) as [|x l] eqn:E; [done|]. exfalso.
    assert (Hx : x ∈ get Database (detect_tech_stack p)) by (cbn [get]; rewrite E; left).
    apply detected_elem in Hx as (i & Hi & _). apply list_elem_of_In in Hi.
    simpl in Hi. intuition discriminate.
Qed.

(** X6.  The detected stack lists a technology under a category exactly
    when one of the indicator files of that technology exists in the
    project; no list holds a technology twice; and, no indicator being
    filed under them, the backend and database lists are always empty. *)
Theorem detect_tech_stack_by_indicators :
  forall (project_path : node),
    (forall (c : category) (tech : string),
        tech ∈ get c (detect_tech_stack project_path)
        <-> exists indicator,
              (indicator, (c, tech)) ∈ indicators
              /\ exists_ project_path indicator = true)
    /\ (forall c : category, NoDup (get c (detect_tech_stack project_path)))
    /\ backend (detect_tech_stack project_path) = []
    /\ database (detect_tech_stack project_path) = [].
Proof.
  intros p. split; [apply detected_elem|]. split; [|apply detected_backend_database].
  intros c. apply (proj2 (detect_loop p indicators (Stack [] [] [] [] []) c)).
  destruct c; apply NoDup_nil_2.
Qed.

Lemma replace_char_length (old new : ascii) (s : string) :
  String.length (replace_char old new s) = String.length s.
Proof. induction s as [|c s IH]; simpl; congruence. Qed.

(** X7.  The node identifier that the Mermaid diagram derives from a
    technology name has the length of the name, holds no slash, dot or
    space, and is the name itself when the name holds none. *)
Theorem mermaid_identifier_is_plain :
  forall tech : string,
    String.length (safe tech) = String.length tech
    /\ all_chars plain (safe tech) = true
    /\ (all_chars plain tech = true -> safe tech = tech).
Proof.
  intros tech. unfold safe. split; [by rewrite !replace_char_length|].
  split.
  - induction tech as [|c tech IH]; [done|].
    cbn [replace_char all_chars]. rewrite IH, andb_true_r. unfold plain.
    destruct (Ascii.eqb_spec c "/") as [->|H1]; [reflexivity|].
    destruct (Ascii.eqb_spec c ".") as [->|H2]; [reflexivity|].
    destruct (Ascii.eqb_spec c " ") as [->|H3]; [reflexivity|].
    destruct (Ascii.eqb_spec c "/"); [done|].
    destruct (Ascii.eqb_spec c "."); [done|].
    by destruct (Ascii.eqb_spec c " ").
  - induction tech as [|c tech IH]; [done|].
    cbn [replace_char all_chars]. intros [Hc Ht]%andb_true_iff.
    rewrite (IH Ht). unfold plain in Hc.
    destruct (Ascii.eqb c "/"); [done|]. destruct (Ascii.eqb c "."); [done|].
    by destruct (Ascii.eqb c " ").
Qed.

Lemma mermaid_identifier_is_plain_witness : safe "Flutter" = "Flutter".
Proof. apply (mermaid_identifier_is_plain "Flutter"). reflexivity. Defined.







End DiagramMore.


Section AnalyzerMore.
Import Py Fs Exc DependencyAnalyzer.

Lemma split_go_head (sep s cur : string) :
  hd EmptyString (split_go sep s 0 cur)
  = cur +:+ hd EmptyString (split_go sep s 0 EmptyString).
Proof.
  revert cur. induction s as [|c s IH]; intros cur.
  - simpl. by rewrite string_app_nil_r.
  - cbn [split_go]. destruct (startswith (String c s) sep).
    + simpl. by rewrite string_app_nil_r.
    + rewrite IH, (IH (EmptyString +:+ chr c)). by rewrite string_app_assoc.
Qed.

Lemma split0_hd (s sep : string) : split0 s sep = hd EmptyString (split s sep).
Proof. unfold split0. by destruct (split s sep). Qed.

(** No separator starts inside a text that lacks its first character. *)
Lemma split0_skip (c : ascii) (sep' x y : string) :
  all_chars (fun a => negb (Ascii.eqb a c)) x = true ->
  split0 (x +:+ y) (String c sep') = x +:+ split0 y (String c sep').
Proof.
  rewrite !split0_hd. unfold split.
  induction x as [|a x IH]; [done|].
  cbn [all_chars]. intros [Ha Hx]%andb_true_iff.
  change (String a x +:+ y) with (String a (x +:+ y)).
  cbn [split_go startswith].
  rewrite Ascii.eqb_sym in Ha. apply negb_true_iff in Ha. rewrite Ha.
  rewrite split_go_head, (IH Hx). done.
Qed.

Lemma split0_at_separator (c : ascii) (sep' y : string) :
  split0 (String c sep' +:+ y) (String c sep') = EmptyString.
Proof.
  rewrite split0_hd. unfold split.
  change (String c sep' +:+ y) with (String c (sep' +:+ y)).
  cbn [split_go].
  change (String c (sep' +:+ y)) with (String c sep' +:+ y).
  by rewrite startswith_app.
Qed.

Lemma all_chars_weaken (f g : ascii -> bool) (s : string) :
  (forall c, f c = true -> g c = true) ->
  all_chars f s = true -> all_chars g s = true.
Proof.
  intros Hfg. induction s as [|c s IH]; [done|]. cbn [all_chars].
  intros [Hc Hs]%andb_true_iff. by rewrite (Hfg c Hc), (IH Hs).
Qed.

Lemma split0_none (c : ascii) (sep' x : string) :
  all_chars (fun a => negb (Ascii.eqb a c)) x = true ->
  split0 x (String c sep') = x.
Proof.
  intros Hx. rewrite <- (string_app_nil_r x) at 1.
  rewrite (split0_skip _ _ _ _ Hx). apply string_app_nil_r.
Qed.

(** X10.  A dependency written as a name followed by one of the separators
    at, greater-or-equal and double equals and by anything is looked up
    under the name alone, stripped of surrounding blanks, when the name
    holds none of the characters that start a separator. *)
Theorem dep_name_drops_version :
  forall name sep rest : string,
    all_chars not_separator name = true ->
    sep ∈ separators ->
    dep_name (name +:+ sep +:+ rest) = strip name.
Proof.
  intros name sep rest Hname Hsep. unfold dep_name. f_equal.
  assert (Hat : all_chars (fun a => negb (Ascii.eqb a "@")) name = true).
  { revert Hname. apply all_chars_weaken. unfold not_separator. intros c.
    by intros [[? _]%andb_true_iff _]%andb_true_iff. }
  assert (Hgt : all_chars (fun a => negb (Ascii.eqb a ">")) name = true).
  { revert Hname. apply all_chars_weaken. unfold not_separator. intros c.
    by intros [[_ ?]%andb_true_iff _]%andb_true_iff. }
  assert (Heq : all_chars (fun a => negb (Ascii.eqb a "=")) name = true).
  { revert Hname. apply all_chars_weaken. unfold not_separator. intros c.
    by intros [_ ?]%andb_true_iff. }
  unfold separators in Hsep.
  apply elem_of_cons in Hsep as [->|Hsep];
    [|apply elem_of_cons in Hsep as [->|Hsep];
      [|apply elem_of_cons in Hsep as [->|Hsep]; [|by apply elem_of_nil in Hsep]]].
  - rewrite (split0_skip _ _ _ _ Hat), split0_at_separator, string_app_nil_r.
    by rewrite (split0_none _ _ _ Hgt), (split0_none _ _ _ Heq).
  - rewrite <- string_app_assoc.
    rewrite (split0_skip "@" EmptyString (name +:+ ">=") rest)
      by (by rewrite all_chars_app, Hat).
    rewrite string_app_assoc.
    rewrite (split0_skip _ _ _ _ Hgt), split0_at_separator, string_app_nil_r.
    by rewrite (split0_none _ _ _ Heq).
  - rewrite <- string_app_assoc.
    rewrite (split0_skip "@" EmptyString (name +:+ "==") rest)
      by (by rewrite all_chars_app, Hat).
    rewrite (split0_skip ">" "=" (name +:+ "==") _)
      by (by rewrite all_chars_app, Hgt).
    rewrite string_app_assoc.
    by rewrite (split0_skip _ _ _ _ Heq), split0_at_separator, string_app_nil_r.
Qed.

Lemma dep_name_drops_version_witness : dep_name "lodash>=4.17, <5" = strip "lodash".
Proof.
  apply (dep_name_drops_version "lodash" ">=" "4.17, <5"); [reflexivity|].
  unfold separators. apply elem_of_cons. right. apply elem_of_cons. by left.
Defined.

Lemma dep_name_scoped (dep : string) :
  startswith dep "@" = true -> dep_name dep = EmptyString.
Proof.
  intros H. apply startswith_split in H. rewrite H. unfold dep_name.
  by rewrite split0_at_separator.
Qed.

(** X11.  A dependency whose text starts with an at sign, as every scoped
    npm package does, is looked up under the empty name: a list of such
    dependencies gives no warning, whatever follows the at sign. *)
Theorem scoped_packages_never_flagged :
  forall deps : list string,
    Forall (fun dep => startswith dep "@" = true) deps ->
    detect_outdated_patterns deps = [].
Proof.
  intros deps H. unfold detect_outdated_patterns.
  induction H as [|dep deps Hdep _ IH]; [done|].
  cbn [omap list_omap]. by rewrite (dep_name_scoped dep Hdep), IH.
Qed.

Lemma scoped_packages_never_flagged_witness :
  detect_outdated_patterns ["@request/request"; "@types/lodash@4.14"] = [].
Proof.
  apply scoped_packages_never_flagged.
  repeat (apply Forall_cons; split; [reflexivity|]). apply Forall_nil_2.
Defined.

Lemma guarded_outcome (name : string) (project_path : node) (body : string -> manifest) :
  (exists m ds, guarded name project_path body = Ok (m, ds) /\ length ds <= 1)
  \/ guarded name project_path body = Raise UnicodeDecodeError.
Proof.
  unfold guarded.
  destruct (lookup project_path [name]) as [[[t| |]|es]|]; simpl;
    try (left; eexists _, _; split; [reflexivity|simpl; lia]).
  by right.
Qed.

Lemma parse_package_json_outcome (json_loads : string -> option pyval)
    (project_path : node) :
  (exists m ds, parse_package_json json_loads project_path = Ok (m, ds)
                /\ length ds <= 1)
  \/ (exists e, parse_package_json json_loads project_path = Raise e
                /\ e <> OSError /\ e <> JSONDecodeError).
Proof.
  unfold parse_package_json.
  destruct (lookup project_path ["package.json"]) as [pkg_file|];
    [|left; eexists _, _; split; [reflexivity|simpl; lia]].
  destruct (package_json_body json_loads pkg_file) as [m|e];
    [left; eexists _, _; split; [reflexivity|simpl; lia]|].
  destruct e;
    first [ left; eexists _, _; split; [reflexivity|simpl; lia]
          | right; eexists; split; [reflexivity|done] ].
Qed.

(** X12.  A missing project path ends the analyzer with status 1.  On an
    existing one the run ends either with an uncaught exception, which is
    never one of the two kinds the parsers catch, or with status 0: the
    status does not depend on the warnings, at most four diagnostics are
    printed, and without the analyze flag the report carries no warning. *)
Theorem analyzer_exit_status :
  forall (json_loads : string -> option pyval) (a : args),
    main json_loads a None = Exit 1 [] None
    /\ forall project_path : node,
         (exists e, main json_loads a (Some project_path) = Uncaught e
                    /\ e <> OSError /\ e <> JSONDecodeError)
         \/ (exists ds r, main json_loads a (Some project_path) = Exit 0 ds r
                          /\ length ds <= 4
                          /\ (analyze a = false ->
                              forall r', r = Some r' -> warnings r' = [])).
Proof.
  intros json_loads a. split; [done|]. intros p. unfold main.
  destruct (parse_package_json_outcome json_loads p)
    as [(m1 & d1 & -> & H1)|(e & -> & ? & ?)];
    [|left; exists e; by cbn].
  unfold parse_requirements_txt, parse_go_mod, parse_package_swift.
  destruct (guarded_outcome "requirements.txt" p
              (fun text => Pip (requirements_packages text)))
    as [(m2 & d2 & -> & H2)| ->];
    [|left; exists UnicodeDecodeError; by cbn].
  destruct (guarded_outcome "go.mod" p
              (fun text => Go (go_modules (splitlines text) false)))
    as [(m3 & d3 & -> & H3)| ->];
    [|left; exists UnicodeDecodeError; by cbn].
  destruct (guarded_outcome "Package.swift" p
              (fun text => SwiftPM (swift_packages text)))
    as [(m4 & d4 & -> & H4)| ->];
    [|left; exists UnicodeDecodeError; by cbn].
  right. cbn [mbind result_bind all_deps]. eexists _, _.
  split; [reflexivity|]. split; [rewrite !length_app; lia|].
  intros Ha r' Hr'. rewrite Ha in Hr'.
  destruct (entry "npm" m1 ++ entry "pip" m2 ++ entry "go" m3 ++ entry "swift" m4);
    [done|]. by injection Hr' as <-.
Qed.

Lemma split_ws_go_words (s cur : string) :
  all_chars not_space cur = true ->
  forall w, w ∈ split_ws_go s cur -> word w.
Proof.
  revert cur. induction s as [|c s IH]; intros cur Hcur w; cbn [split_ws_go].
  - destruct (String.eqb_spec cur EmptyString) as [->|Hne].
    + by intros ?%elem_of_nil.
    + by intros ->%list_elem_of_singleton.
  - destruct (is_space c) eqn:Hc.
    + destruct (String.eqb_spec cur EmptyString) as [->|Hne].
      * by apply IH.
      * intros [->|Hw]%elem_of_cons; [done|]. by apply (IH EmptyString).
    + apply IH. rewrite all_chars_app, Hcur. simpl. unfold not_space.
      by rewrite Hc.
Qed.

Lemma module_of_words (fields : list string) (m v : string) :
  (forall w, w ∈ fields -> word w) ->
  (m, v) ∈ module_of fields -> word m /\ word v.
Proof.
  intros Hw. destruct fields as [|m0 [|v0 rest]]; cbn [module_of].
  - by intros ?%elem_of_nil.
  - by intros ?%elem_of_nil.
  - intros [= -> ->]%list_elem_of_singleton. split; apply Hw.
    + left.
    + right. left.
Qed.

Lemma startswith_prefix (s p q : string) :
  startswith s (p +:+ q) = true -> startswith s p = true.
Proof.
  revert s. induction p as [|c p IH]; intros s; [done|].
  simpl. destruct s as [|d s]; [done|].
  destruct (Ascii.eqb c d); [apply IH|done].
Qed.

(** X13.  Every requirement the go.mod parser records has a module path
    and a version that are words: non-empty and free of white space.  A
    go.mod none of whose lines starts, blanks aside, with the word require
    gives no requirement at all. *)
Theorem go_modules_are_pairs_of_words :
  forall lines : list string,
    (forall (in_require : bool) (m v : string),
        (m, v) ∈ go_modules lines in_require -> word m /\ word v)
    /\ (Forall (fun raw => startswith (strip raw) "require" = false) lines ->
        go_modules lines false = []).
Proof.
  intros lines. split.
  - induction lines as [|raw rest IH]; intros in_require m v; cbn [go_modules].
    + by intros ?%elem_of_nil.
    + cbv zeta.
      destruct (startswith (strip raw) "require ("); [apply IH|].
      destruct in_require.
      * destruct (String.eqb (strip raw) ")"); [apply IH|].
        destruct (negb (String.eqb (strip raw) EmptyString)); [|apply IH].
        intros [Hm|Hm]%elem_of_app; [|by apply IH in Hm].
        revert Hm. apply module_of_words. by apply split_ws_go_words.
      * destruct (startswith (strip raw) "require " && negb (endswith (strip raw) "("));
          [|apply IH].
        intros [Hm|Hm]%elem_of_app; [|by apply IH in Hm].
        revert Hm. apply module_of_words. by apply split_ws_go_words.
  - induction 1 as [|raw rest Hraw _ IH]; [done|]. cbn [go_modules]. cbv zeta.
    assert (H1 : startswith (strip raw) "require (" = false).
    { destruct (startswith (strip raw) "require (") eqn:E; [|done].
      by rewrite (startswith_prefix _ "require" " (" E) in Hraw. }
    assert (H2 : startswith (strip raw) "require " = false).
    { destruct (startswith (strip raw) "require ") eqn:E; [|done].
      by rewrite (startswith_prefix _ "require" " " E) in Hraw. }
    by rewrite H1, H2.
Qed.

Lemma go_modules_are_pairs_of_words_witness :
  go_modules ["module example.com/app"; ""; "go 1.21"] false = [].
Proof.
  apply (go_modules_are_pairs_of_words ["module example.com/app"; ""; "go 1.21"]).
  repeat (apply Forall_cons; split; [reflexivity|]). apply Forall_nil_2.
Defined.

Lemma rstrip_idem (s : string) : rstrip (rstrip s) = rstrip s.
Proof.
  induction s as [|c s IH]; [done|]. cbn [rstrip].
  destruct (rstrip s) as [|d r] eqn:E.
  - destruct (is_space c) eqn:Hc; [done|]. unfold chr. cbn [rstrip]. by rewrite Hc.
  - change (rstrip (String c (String d r)))
      with (match rstrip (String d r) with
            | EmptyString => if is_space c then EmptyString else chr c
            | r' => String c r'
            end).
    by rewrite IH.
Qed.

Lemma lstrip_rstrip_lstrip (s : string) :
  lstrip (rstrip (lstrip s)) = rstrip (lstrip s).
Proof.
  induction s as [|c s IH]; [done|]. cbn [lstrip].
  destruct (is_space c) eqn:Hc; [done|]. cbn [rstrip].
  destruct (rstrip s) as [|d r].
  - rewrite Hc. unfold chr. cbn [lstrip]. by rewrite Hc.
  - cbn [lstrip]. by rewrite Hc.
Qed.

Lemma strip_idem (s : string) : strip (strip s) = strip s.
Proof. unfold strip. by rewrite lstrip_rstrip_lstrip, rstrip_idem. Qed.

(** X14.  What the requirements.txt and Package.swift parsers record is
    stripped text: stripping a recorded line again changes nothing (the
    second strip of the Package.swift loop has no effect).  A recorded
    requirement is not empty and does not start with the comment sign, also
    when the comment was indented; a recorded Swift package line holds both
    markers the loop looks for. *)
Theorem recorded_lines_are_stripped :
  forall text : string,
    (forall p, p ∈ requirements_packages text ->
               strip p = p /\ p <> EmptyString /\ startswith p "#" = false)
    /\ (forall p, p ∈ swift_packages text ->
                  strip p = p /\ contains p ".package(" = true
                  /\ contains p "url:" = true)
    /\ swift_packages text
       = filter (fun line => contains line ".package(" && contains line "url:")
                (map strip (splitlines text)).
Proof.
  intros text.
  assert (Hsw : swift_packages text
                = filter (fun line => contains line ".package(" && contains line "url:")
                    (map strip (splitlines text))).
  { unfold swift_packages.
    induction (splitlines text) as [|l ls IH]; [done|]. cbn [map].
    rewrite filter_cons. case_decide; [|done].
    cbn [map]. by rewrite strip_idem, IH. }
  split; [|split; [|done]].
  - intros p. unfold requirements_packages.
    intros [Hp Hin]%list_elem_of_filter.
    apply list_elem_of_In, in_map_iff in Hin as (l & <- & _).
    apply Is_true_eq_true, andb_true_iff in Hp as [Hne Hc].
    split; [apply strip_idem|]. split.
    + intros E. by rewrite E in Hne.
    + by apply negb_true_iff in Hc.
  - intros p. rewrite Hsw. intros [Hp Hin]%list_elem_of_filter.
    apply list_elem_of_In, in_map_iff in Hin as (l & <- & _).
    apply Is_true_eq_true, andb_true_iff in Hp as [H1 H2].
    split; [apply strip_idem|done].
Qed.

Lemma recorded_lines_are_stripped_witness :
  strip "flask==2.0" = "flask==2.0" /\ "flask==2.0" <> EmptyString
  /\ startswith "flask==2.0" "#" = false.
Proof.
  apply (proj1 (recorded_lines_are_stripped
                  ("  # pinned" +:+ chr LF +:+ "  flask==2.0  " +:+ chr LF))
           "flask==2.0").
  vm_compute. left.
Defined.

Lemma assoc_app {A : Type} (k : string) (a b : list (string * A)) :
  assoc k (a ++ b) = match assoc k a with Some v => Some v | None => assoc k b end.
Proof.
  unfold assoc. induction a as [|[k' v'] a IH]; [done|]. cbn [app List.find fst].
  destruct (String.eqb k' k); [done|]. apply IH.
Qed.

Lemma assoc_is_Some {A : Type} (k : string) (l : list (string * A)) :
  is_Some (assoc k l) <-> k ∈ l.*1.
Proof.
  unfold assoc. induction l as [|[k' v'] l IH].
  - split; [by intros [? ?]|by intros ?%elem_of_nil].
  - cbn [List.find fst]. rewrite fmap_cons, elem_of_cons. cbn [fst].
    destruct (String.eqb_spec k' k) as [->|Hne].
    + split; [by left|]. intros _. by eexists.
    + rewrite IH. split; [by right|]. by intros [->|?].
Qed.

Lemma assoc_cons {A : Type} (k k' : string) (v : A) (l : list (string * A)) :
  assoc k ((k', v) :: l) = if String.eqb k' k then Some v else assoc k l.
Proof. unfold assoc. cbn [List.find fst]. by destruct (String.eqb k' k). Qed.

Lemma assoc_filter_absent (ia ib : list (string * pyval)) (k : string) :
  assoc k ia = None ->
  assoc k (filter (fun kv => bool_decide (assoc (fst kv) ia = None)) ib) = assoc k ib.
Proof.
  intros Ha. induction ib as [|[k' v'] ib IH]; [done|].
  rewrite filter_cons, (assoc_cons k k' v' ib). cbn [fst].
  destruct (decide _) as [Hd|Hd].
  - rewrite assoc_cons. by rewrite IH.
  - destruct (String.eqb_spec k' k) as [->|_]; [|done].
    exfalso. by apply Hd, bool_decide_pack.
Qed.

Lemma assoc_map_default (ia ib : list (string * pyval)) (k : string) :
  assoc k (map (fun kv => (fst kv, default (snd kv) (assoc (fst kv) ib))) ia)
  = match assoc k ia with
    | Some v => Some (default v (assoc k ib))
    | None => None
    end.
Proof.
  induction ia as [|[k' v'] ia IH]; [done|].
  cbn [map fst snd]. rewrite !assoc_cons.
  destruct (String.eqb_spec k' k) as [->|Hne]; [done|]. apply IH.
Qed.

(** What [{**a, **b}] holds under a key: the value of [b] when [b] has the
    key, otherwise that of [a]. *)
Lemma merge_lookup (ia ib vs : list (string * pyval)) (k : string) :
  merge (PDict ia) (PDict ib) = Ok vs ->
  assoc k vs = match assoc k ib with Some v => Some v | None => assoc k ia end.
Proof.
  intros [= <-]. rewrite assoc_app, assoc_map_default.
  destruct (assoc k ia) as [v|] eqn:Ha.
  - by destruct (assoc k ib).
  - rewrite (assoc_filter_absent _ _ _ Ha). by destruct (assoc k ib).
Qed.

(** X15.  In what the package.json parser returns, the versions table has
    an entry exactly for the runtime and the development dependencies (a
    dependency that is only a peer dependency has none), and a name listed
    under both is given its development version. *)
Theorem npm_versions_cover_runtime_and_dev :
  forall (json_loads : string -> option pyval) (text : string) (data : pyval)
         (d : npm_dependencies),
    json_loads text = Some data ->
    package_json_body json_loads (File (Text text)) = Ok (Npm d) ->
    (forall k, is_Some (assoc k (versions d)) <-> k ∈ runtime d \/ k ∈ dev d)
    /\ (forall devdeps k v,
          get_or_empty data "devDependencies" = Ok (PDict devdeps) ->
          assoc k devdeps = Some v -> assoc k (versions d) = Some v).
Proof.
  intros json_loads text data d Hjson. unfold package_json_body, loads.
  cbn [read_text mbind result_bind]. rewrite Hjson. cbn [mbind result_bind].
  destruct data as [| | | | | |items]; try done. cbn [get_or_empty mbind result_bind].
  destruct (default (PDict []) (assoc "dependencies" items))
    as [| | | | | |ia]; try done.
  cbn [keys mbind result_bind].
  destruct (default (PDict []) (assoc "devDependencies" items))
    as [| | | | | |ib]; try done.
  cbn [keys mbind result_bind].
  destruct (default (PDict []) (assoc "peerDependencies" items))
    as [| | | | | |ic]; try done.
  cbn [keys mbind result_bind].
  destruct (merge (PDict ia) (PDict ib)) as [vs|e] eqn:Hm; [|done].
  cbn [mbind result_bind]. intros [= <-]. cbn [versions runtime dev]. split.
  - intros k. rewrite (merge_lookup _ _ _ k Hm).
    change (map fst ia) with (ia.*1). change (map fst ib) with (ib.*1).
    rewrite <- !assoc_is_Some. destruct (assoc k ib) as [v|].
    + split; [intros _; right|intros _]; by eexists.
    + split; [by left|]. by intros [?|[? ?]].
  - intros devdeps k v [= <-] Hk. by rewrite (merge_lookup _ _ _ k Hm), Hk.
Qed.

Lemma npm_versions_cover_runtime_and_dev_witness :
  (forall k,
      is_Some (assoc k [("a", PStr "2"); ("b", PStr "3")])
      <-> k ∈ ["a"] \/ k ∈ ["a"; "b"])
  /\ (forall devdeps k v,
        get_or_empty
          (PDict [("dependencies", PDict [("a", PStr "1")]);
                  ("devDependencies", PDict [("a", PStr "2"); ("b", PStr "3")])])
          "devDependencies" = Ok (PDict devdeps) ->
        assoc k devdeps = Some v ->
        assoc k [("a", PStr "2"); ("b", PStr "3")] = Some v).
Proof.
  apply (npm_versions_cover_runtime_and_dev
           (fun _ => Some (PDict [("dependencies", PDict [("a", PStr "1")]);
                                  ("devDependencies",
                                   PDict [("a", PStr "2"); ("b", PStr "3")])]))
           "{}" _ (NpmDeps ["a"] ["a"; "b"] [] [("a", PStr "2"); ("b", PStr "3")]));
    reflexivity.
Defined.

End AnalyzerMore.


Section DeduplicatorMore.
Import Py Re FixDuplicates DuplicateReport.

Lemma classify_accounts (matches : list (string * string)) (k : gmap string string)
    (r : list string) :
  length (snd (fold_left classify_step matches (k, r)))
  + size (fst (fold_left classify_step matches (k, r)))
  = length r + size k + length matches
  /\ dom (fst (fold_left classify_step matches (k, r)))
     = dom k ∪ list_to_set matches.*2.
Proof.
  revert k r. induction matches as [|[file_id filename] rest IH]; intros k r.
  - simpl. split; [lia|]. by rewrite union_empty_r_L.
  - cbn [fold_left classify_step].
    destruct (k !! filename) as [v|] eqn:Hk.
    + destruct (IH k (r ++ [file_id])) as [-> ->]. split.
      * rewrite length_app. simpl. lia.
      * simpl. assert (filename ∈ dom k) by (apply elem_of_dom; eauto).
        apply set_eq. intros x. rewrite !elem_of_union, elem_of_singleton.
        intuition (subst; auto).
    + destruct (IH (<[filename := file_id]> k) r) as [-> ->]. split.
      * rewrite map_size_insert_None by done. simpl. lia.
      * rewrite dom_insert_L. simpl. by rewrite (assoc_L (∪)), (comm_L (∪) (dom k)).
Qed.

Lemma later_ids_nil_inv (seen : gset string) (matches : list (string * string)) :
  later_ids seen matches = [] ->
  NoDup matches.*2 /\ forall n, n ∈ matches.*2 -> n ∉ seen.
Proof.
  revert seen. induction matches as [|[i n] rest IH]; intros seen.
  - intros _. split; [apply NoDup_nil_2|]. by intros n ?%elem_of_nil.
  - cbn [later_ids]. destruct (decide (n ∈ seen)) as [Hin|Hn]; [done|].
    intros [Hnd Hseen]%IH. split.
    + simpl. apply NoDup_cons. split; [|done]. intros Hin.
      apply (Hseen n Hin). apply elem_of_union. left. by apply elem_of_singleton.
    + intros m. simpl. intros [->|Hm]%elem_of_cons; [done|].
      intros Hs. apply (Hseen m Hm). apply elem_of_union. by right.
Qed.

(** X16.  The classification loop accounts for every located entry: each
    entry is either the one kept for its file name or is listed for
    removal, the kept map has exactly the file names of the entries as
    keys, and nothing is listed for removal exactly when no file name
    occurs twice. *)
Theorem classification_accounts_for_every_entry :
  forall matches : list (string * string),
    length (files_to_remove matches) + size (files_to_keep matches)
    = length matches
    /\ dom (files_to_keep matches) = list_to_set matches.*2
    /\ (files_to_remove matches = [] <-> NoDup matches.*2).
Proof.
  intros matches. unfold files_to_remove, files_to_keep, classify.
  destruct (classify_accounts matches ∅ []) as [Hlen Hdom].
  split; [rewrite Hlen, map_size_empty; simpl; lia|].
  split; [by rewrite Hdom, dom_empty_L, union_empty_l_L|].
  change (snd (fold_left classify_step matches (∅, [])))
    with (files_to_remove matches).
  rewrite files_to_remove_later. split.
  - by intros [? _]%later_ids_nil_inv.
  - intros Hnd. apply later_ids_nodup; [done|]. intros n _. apply not_elem_of_empty.
Qed.

Lemma incr_keys (x : string) (c : list (string * nat)) :
  (incr x c).*1 = if decide (x ∈ c.*1) then c.*1 else c.*1 ++ [x].
Proof.
  induction c as [|[k n] c IH]; [done|]. cbn [incr].
  destruct (String.eqb_spec k x) as [->|Hkx].
  - rewrite !fmap_cons. cbn [fst]. rewrite decide_True; [done|left].
  - rewrite !fmap_cons. cbn [fst]. rewrite IH.
    destruct (decide (x ∈ c.*1)) as [Hin|Hn].
    + rewrite decide_True; [done|by right].
    + rewrite decide_False; [done|]. by intros [?|?]%elem_of_cons.
Qed.

Lemma incr_elem (x : string) (c : list (string * nat)) (k : string) (n : nat) :
  NoDup c.*1 ->
  (k, n) ∈ incr x c ->
  (k <> x /\ (k, n) ∈ c)
  \/ (k = x /\ ((exists n', n = S n' /\ (x, n') ∈ c) \/ (n = 1 /\ x ∉ c.*1))).
Proof.
  induction c as [|[k' n'] c IH]; cbn [incr].
  - intros _ [= -> ->]%list_elem_of_singleton. right. split; [done|]. right.
    split; [done|]. apply not_elem_of_nil.
  - simpl. intros [Hk' Hnd]%NoDup_cons.
    destruct (String.eqb_spec k' x) as [->|Hkx].
    + intros [[= -> ->]|Hin]%elem_of_cons.
      * right. split; [done|]. left. exists n'. split; [done|left].
      * left. split; [|by right]. intros ->. apply Hk'.
        apply list_elem_of_fmap. by exists (x, n).
    + intros [[= -> ->]|Hin]%elem_of_cons.
      * left. split; [done|left].
      * destruct (IH Hnd Hin) as [[Hne Hc]|[-> [(m & -> & Hc)|[-> Hc]]]].
        -- left. split; [done|by right].
        -- right. split; [done|]. left. exists m. split; [done|by right].
        -- right. split; [done|]. right. split; [done|].
           by intros [?|?]%elem_of_cons.
Qed.

Lemma Counter_snoc (l : list string) (x : string) :
  Counter (l ++ [x]) = incr x (Counter l).
Proof. unfold Counter. by rewrite fold_left_app. Qed.

(** What the counter holds after counting the names of a list *)
Lemma Counter_spec (l : list string) :
  NoDup (Counter l).*1
  /\ (forall k n, (k, n) ∈ Counter l -> n = count_occ string_dec l k)
  /\ (forall k, k ∈ l -> k ∈ (Counter l).*1).
Proof.
  induction l as [|x l (Hnd & Hcount & Hkeys)] using rev_ind.
  - split; [apply NoDup_nil_2|]. split.
    + by intros k n ?%elem_of_nil.
    + by intros k ?%elem_of_nil.
  - rewrite Counter_snoc. split; [|split].
    + rewrite incr_keys. destruct (decide (x ∈ (Counter l).*1)); [done|].
      apply NoDup_app. split; [done|]. split; [|apply NoDup_singleton].
      by intros y Hy ->%list_elem_of_singleton.
    + intros k n Hin. rewrite count_occ_app. cbn [count_occ].
      destruct (incr_elem x (Counter l) k n Hnd Hin)
        as [[Hne Hc]|[-> [(m & -> & Hc)|[-> Hc]]]].
      * destruct (string_dec x k) as [->|_]; [done|].
        rewrite (Hcount k n Hc). lia.
      * destruct (string_dec x x) as [_|?]; [|done].
        rewrite (Hcount x m Hc). lia.
      * destruct (string_dec x x) as [_|?]; [|done].
        assert (Hx : count_occ string_dec l x = 0).
        { apply count_occ_not_In. intros Hl. apply Hc, Hkeys.
          by apply list_elem_of_In. }
        rewrite Hx. done.
    + intros k. rewrite incr_keys, elem_of_app, list_elem_of_singleton.
      intros [Hk| ->].
      * destruct (decide (x ∈ (Counter l).*1)); [by apply Hkeys|].
        apply elem_of_app. left. by apply Hkeys.
      * destruct (decide (x ∈ (Counter l).*1)); [done|].
        apply elem_of_app. right. by apply list_elem_of_singleton.
Qed.

Lemma duplicates_elem (matches : list (string * string)) (name : string) :
  name ∈ duplicates matches <-> 1 < count_occ string_dec matches.*2 name.
Proof.
  unfold duplicates, file_counts.
  destruct (Counter_spec (map snd matches)) as (Hnd & Hcount & Hkeys).
  rewrite list_elem_of_fmap. split.
  - intros ([k n] & -> & Hin). apply list_elem_of_In, filter_In in Hin as [Hin Hn].
    apply list_elem_of_In, Hcount in Hin. cbn [fst snd] in *.
    apply Nat.ltb_lt in Hn. change (map snd matches) with (matches.*2) in Hin. lia.
  - intros Hc.
    assert (Hin : name ∈ (Counter (map snd matches)).*1).
    { apply Hkeys, list_elem_of_In, (count_occ_In string_dec).
      change (map snd matches) with (matches.*2). lia. }
    apply list_elem_of_fmap in Hin as ([k n] & -> & Hin). exists (k, n).
    split; [done|]. apply list_elem_of_In, filter_In. split.
    + by apply list_elem_of_In.
    + apply Nat.ltb_lt. cbn [fst snd] in *. rewrite (Hcount k n Hin).
      change (map snd matches) with (matches.*2). lia.
Qed.

Lemma NoDup_keys_filter {A B : Type} (f : A * B -> bool) (c : list (A * B)) :
  NoDup c.*1 -> NoDup (List.filter f c).*1.
Proof.
  induction c as [|kv c IH]; [done|]. simpl. intros [Hk Hnd]%NoDup_cons.
  destruct (f kv); [|by apply IH]. simpl. apply NoDup_cons. split; [|by apply IH].
  intros Hin. apply Hk. apply list_elem_of_fmap in Hin as (y & -> & Hy).
  apply list_elem_of_fmap. exists y. split; [done|].
  apply list_elem_of_In, filter_In in Hy as [Hy _]. by apply list_elem_of_In.
Qed.

(** X17.  The list of duplicate files the script prints holds exactly the
    file names that occur more than once among the located entries, each
    once; it is empty exactly when no entry is listed for removal. *)
Theorem printed_duplicates_are_repeated_names :
  forall matches : list (string * string),
    (forall name, name ∈ duplicates matches
                  <-> 1 < count_occ string_dec matches.*2 name)
    /\ NoDup (duplicates matches)
    /\ (duplicates matches = [] <-> files_to_remove matches = []).
Proof.
  intros matches. split; [apply duplicates_elem|]. split.
  - unfold duplicates, file_counts. apply NoDup_keys_filter.
    apply (Counter_spec (map snd matches)).
  - rewrite files_to_remove_later. split.
    + intros Hd. apply later_ids_nodup; [|intros n _; apply not_elem_of_empty].
      apply NoDup_ListNoDup, (NoDup_count_occ string_dec). intros name.
      destruct (Nat.le_gt_cases (count_occ string_dec matches.*2 name) 1) as [|Hgt];
        [done|].
      apply duplicates_elem in Hgt. rewrite Hd in Hgt. by apply elem_of_nil in Hgt.
    + intros [Hnd _]%later_ids_nil_inv.
      destruct (duplicates matches) as [|name l] eqn:E; [done|]. exfalso.
      assert (Hin : name ∈ duplicates matches) by (rewrite E; left).
      apply duplicates_elem in Hin.
      apply NoDup_ListNoDup in Hnd.
      pose proof (proj1 (NoDup_count_occ string_dec matches.*2) Hnd name). lia.
Qed.

Lemma find_nat_none (s sub : string) :
  find_nat s sub = None <-> contains s sub = false.
Proof.
  induction s as [|c s IH]; cbn [find_nat contains].
  - destruct (startswith EmptyString sub); simpl; by split.
  - destruct (startswith (String c s) sub); simpl; [by split|].
    rewrite <- IH. destruct (find_nat s sub); simpl; by split.
Qed.

Lemma find_from_start (s sub : string) :
  find s sub 0 = (-1)%Z <-> contains s sub = false.
Proof.
  unfold find, clamp.
  destruct (Z.ltb_spec (Z.of_nat (String.length s)) 0) as [?|_]; [lia|].
  cbn [Z.ltb Z.compare Z.to_nat]. rewrite Nat.min_0_r. cbn [drop].
  rewrite <- find_nat_none. destruct (find_nat s sub) as [i|]; [|by split].
  split; [lia|done].
Qed.

Lemma sub_go_length (p : pattern) (s : string) (i skip : nat) :
  String.length (sub_go p s i skip) <= String.length s.
Proof.
  revert i skip. induction s as [|c s IH]; intros i skip; [done|].
  cbn [sub_go]. destruct skip as [|n].
  - destruct (match_at p (String c s) (start i)) as [st|].
    + destruct (pos st =? i); simpl.
      * specialize (IH (S i) 0). lia.
      * specialize (IH (S i) (pos st - S i)). lia.
    + simpl. specialize (IH (S i) 0). lia.
  - simpl. specialize (IH (S i) n). lia.
Qed.

Lemma remove_lines_length (ids : list string) (content : string) :
  String.length (remove_lines ids content) <= String.length content.
Proof.
  unfold remove_lines. revert content.
  induction ids as [|file_id ids IH]; intros content; [done|].
  cbn [fold_left]. etransitivity; [apply IH|]. apply sub_go_length.
Qed.

(** X18.  The de-duplicator exits with status 1 and writes nothing exactly
    when the marker of the main Sources build phase does not occur in the
    project file; otherwise it exits with status 0 and writes the file
    back.  Either way the file is never longer afterwards than before. *)
Theorem deduplicator_needs_marker_and_never_grows :
  forall content : string,
    (contains content MAIN_SOURCES = false <-> run content = Outcome None 1)
    /\ (contains content MAIN_SOURCES = true
        <-> exists new_content, run content = Outcome (Some new_content) 0)
    /\ String.length (file_after content) <= String.length content.
Proof.
  intros content. unfold file_after, run.
  pose proof (find_from_start content MAIN_SOURCES) as Hfind.
  destruct (Z.eqb_spec (find content MAIN_SOURCES 0) (-1)) as [Heq|Hne].
  - apply Hfind in Heq. rewrite Heq. split; [done|]. split; [|done].
    split; [done|]. by intros [? ?].
  - assert (Hc : contains content MAIN_SOURCES = true).
    { destruct (contains content MAIN_SOURCES); [done|]. exfalso.
      by apply Hne, Hfind. }
    rewrite Hc. split; [by split|]. split; [split; eauto|].
    cbn [written default]. apply remove_lines_length.
Qed.

End DeduplicatorMore.


Section CollectorMore.
Import Py Fs ScanRedundancy.

Lemma endswith_split (s p : string) :
  endswith s p = true -> exists stem, s = stem +:+ p.
Proof.
  unfold endswith. intros [_ Hd%String.eqb_eq]%andb_true_iff.
  exists (take (String.length s - String.length p) s).
  pose proof (take_drop (String.length s - String.length p) s) as Ht.
  by rewrite Hd in Ht.
Qed.

Lemma join_ends (a b : string) : exists x, join a b = x +:+ b.
Proof.
  unfold join. destruct (startswith b "/"); [by exists EmptyString|].
  destruct (String.eqb a EmptyString || endswith a "/"); [by exists a|].
  exists (a +:+ "/"). by rewrite string_app_assoc.
Qed.

Lemma collect_elem (skip : list string) (ROOT : string) (tree : node) (p : string) :
  p ∈ collect skip ROOT tree ->
  exists base dirs files f,
    (base, dirs, files) ∈ walk (fun _ => true) ROOT tree
    /\ existsb (fun s => contains base s) skip = false
    /\ f ∈ files /\ endswith f ".swift" = true /\ p = join base f.
Proof.
  unfold collect. intros Hp. apply list_elem_of_In, in_flat_map in Hp
    as ([[base dirs] files] & Hw & Hp).
  exists base, dirs, files.
  destruct (existsb (fun s => contains base s) skip); [done|].
  apply in_map_iff in Hp as (f & <- & Hf).
  apply list_elem_of_In, list_elem_of_filter in Hf as [He Hf].
  exists f. split; [by apply list_elem_of_In|]. split; [done|].
  split; [done|]. split; [by apply Is_true_eq_true|done].
Qed.

Lemma collect_mono (skip1 skip2 : list string) (ROOT : string) (tree : node) :
  (forall s, s ∈ skip2 -> s ∈ skip1) ->
  collect skip1 ROOT tree `sublist_of` collect skip2 ROOT tree.
Proof.
  intros Hsub. unfold collect.
  induction (walk (fun _ => true) ROOT tree) as [|[[base dirs] files] l IH]; [done|].
  cbn [flat_map]. apply sublist_app; [|done].
  destruct (existsb (fun s => contains base s) skip1) eqn:E1;
    [apply sublist_nil_l|].
  destruct (existsb (fun s => contains base s) skip2) eqn:E2; [|done].
  apply existsb_exists in E2 as (s & Hs & Hc).
  assert (E : existsb (fun s => contains base s) skip1 = true).
  { apply existsb_exists. exists s. split; [|done].
    by apply list_elem_of_In, Hsub, list_elem_of_In. }
  congruence.
Qed.

(** X19.  Every path either collector gathers ends with .swift, and the
    redundancy scan, whose skip list extends that of the project scan by
    fastlane and backup, gathers a sub-list of what the project scan
    gathers from the same tree, in the same order. *)
Theorem collectors_gather_swift_paths :
  forall (ROOT : string) (tree : node),
    (forall p, p ∈ ScanProject.swift_files ROOT tree -> endswith p ".swift" = true)
    /\ swift_files ROOT tree `sublist_of` ScanProject.swift_files ROOT tree.
Proof.
  intros ROOT tree. split.
  - intros p (base & dirs & files & f & _ & _ & _ & Hf & ->)%collect_elem.
    destruct (join_ends base f) as [x ->].
    apply endswith_split in Hf as [stem ->].
    rewrite <- string_app_assoc. apply endswith_app.
  - apply collect_mono. unfold ScanProject.SKIP, SKIP. intros s Hs.
    apply list_elem_of_In in Hs. apply list_elem_of_In. simpl in *. intuition.
Qed.

Lemma collectors_gather_swift_paths_witness :
  endswith "/proj/Sources/App.swift" ".swift" = true.
Proof.
  apply (proj1 (collectors_gather_swift_paths "/proj"
                  (Dir [("Sources", Dir [("App.swift", File (Text "x"));
                                         ("README.md", File (Text "y"))])]))).
  vm_compute. left.
Defined.

End CollectorMore.


(** * Version constraints the analyzer does not strip *)

Section AnalyzerConstraints.
Import Py Fs Exc DependencyAnalyzer.

Lemma not_separator_chars (s : string) :
  all_chars not_separator s = true ->
  all_chars (fun a => negb (Ascii.eqb a "@")) s = true
  /\ all_chars (fun a => negb (Ascii.eqb a ">")) s = true
  /\ all_chars (fun a => negb (Ascii.eqb a "=")) s = true.
Proof.
  intros H. repeat split; revert H; apply all_chars_weaken; unfold not_separator;
    intros c [[? ?]%andb_true_iff ?]%andb_true_iff; done.
Qed.

Lemma split0_cons_nomatch (c : ascii) (s sep : string) :
  startswith (String c s) sep = false ->
  split0 (String c s) sep = String c (split0 s sep).
Proof.
  intros H. rewrite !split0_hd. unfold split. cbn [split_go]. rewrite H.
  by rewrite split_go_head.
Qed.

(** A two-character separator does not start at a character that is
    followed by a text without the separator's second character. *)
Lemma startswith_second (a b c : ascii) (v : string) :
  all_chars (fun x => negb (Ascii.eqb x b)) v = true ->
  startswith (String c v) (String a (String b EmptyString)) = false.
Proof.
  intros Hv. cbn [startswith]. destruct (Ascii.eqb a c); [|done].
  destruct v as [|d v]; [done|]. cbn [all_chars] in Hv.
  apply andb_true_iff in Hv as [Hd _]. apply negb_true_iff in Hd.
  by rewrite Ascii.eqb_sym, Hd.
Qed.

Lemma dep_name_keeps_unlisted (name op version : string) :
  all_chars not_separator name = true ->
  op ∈ unlisted_operators ->
  all_chars not_separator version = true ->
  dep_name (name +:+ op +:+ version) = strip (name +:+ op +:+ version).
Proof.
  intros Hname Hop Hversion.
  destruct (not_separator_chars name Hname) as (Hat & Hgt & Heq).
  destruct (not_separator_chars version Hversion) as (Hat' & Hgt' & Heq').
  unfold dep_name. f_equal. unfold unlisted_operators in Hop.
  repeat (apply elem_of_cons in Hop as [->|Hop]); [| | | | |by apply elem_of_nil in Hop].
  - (* < *)
    rewrite (split0_none "@" EmptyString)
      by (rewrite !all_chars_app; cbn [all_chars]; by rewrite Hat, Hat').
    rewrite (split0_none ">" "=")
      by (rewrite !all_chars_app; cbn [all_chars]; by rewrite Hgt, Hgt').
    by rewrite (split0_none "=" "=")
      by (rewrite !all_chars_app; cbn [all_chars]; by rewrite Heq, Heq').
  - (* > *)
    rewrite (split0_none "@" EmptyString)
      by (rewrite !all_chars_app; cbn [all_chars]; by rewrite Hat, Hat').
    rewrite (split0_skip ">" "=" name _ Hgt).
    change (">" +:+ version) with (String ">" version).
    rewrite (split0_cons_nomatch ">" version ">=") by (by apply startswith_second).
    rewrite (split0_none ">" "=" version Hgt').
    rewrite (split0_none "=" "=")
      by (rewrite !all_chars_app; cbn [all_chars]; by rewrite Heq, Heq').
    done.
  - (* <= *)
    rewrite (split0_none "@" EmptyString)
      by (rewrite !all_chars_app; cbn [all_chars]; by rewrite Hat, Hat').
    rewrite (split0_none ">" "=")
      by (rewrite !all_chars_app; cbn [all_chars]; by rewrite Hgt, Hgt').
    change (name +:+ "<=" +:+ version) with (name +:+ "<" +:+ String "=" version).
    rewrite <- (string_app_assoc name "<" (String "=" version)).
    rewrite (split0_skip "=" "=" (name +:+ "<") _)
      by (rewrite !all_chars_app; cbn [all_chars]; by rewrite Heq).
    rewrite (split0_cons_nomatch "=" version "==") by (by apply startswith_second).
    by rewrite (split0_none "=" "=" version Heq').
  - (* ~= *)
    rewrite (split0_none "@" EmptyString)
      by (rewrite !all_chars_app; cbn [all_chars]; by rewrite Hat, Hat').
    rewrite (split0_none ">" "=")
      by (rewrite !all_chars_app; cbn [all_chars]; by rewrite Hgt, Hgt').
    change (name +:+ "~=" +:+ version) with (name +:+ "~" +:+ String "=" version).
    rewrite <- (string_app_assoc name "~" (String "=" version)).
    rewrite (split0_skip "=" "=" (name +:+ "~") _)
      by (rewrite !all_chars_app; cbn [all_chars]; by rewrite Heq).
    rewrite (split0_cons_nomatch "=" version "==") by (by apply startswith_second).
    by rewrite (split0_none "=" "=" version Heq').
  - (* != *)
    rewrite (split0_none "@" EmptyString)
      by (rewrite !all_chars_app; cbn [all_chars]; by rewrite Hat, Hat').
    rewrite (split0_none ">" "=")
      by (rewrite !all_chars_app; cbn [all_chars]; by rewrite Hgt, Hgt').
    change (name +:+ "!=" +:+ version) with (name +:+ "!" +:+ String "=" version).
    rewrite <- (string_app_assoc name "!" (String "=" version)).
    rewrite (split0_skip "=" "=" (name +:+ "!") _)
      by (rewrite !all_chars_app; cbn [all_chars]; by rewrite Heq).
    rewrite (split0_cons_nomatch "=" version "==") by (by apply startswith_second).
    by rewrite (split0_none "=" "=" version Heq').
Qed.

Lemma ends_nonspace_app (a p : string) :
  ends_nonspace p = true -> ends_nonspace (a +:+ p) = true.
Proof.
  intros Hp. induction a as [|c a IH]; [done|].
  change (String c a +:+ p) with (String c (a +:+ p)). cbn [ends_nonspace].
  destruct (a +:+ p) eqn:E; [|done]. by destruct a, p.
Qed.

Lemma rstrip_prefix (p v : string) :
  ends_nonspace p = true -> exists r, rstrip (p +:+ v) = p +:+ r.
Proof.
  induction p as [|c p IH]; [done|]. cbn [ends_nonspace].
  change (String c p +:+ v) with (String c (p +:+ v)).
  destruct p as [|c' p].
  - intros Hc%negb_true_iff. cbn [rstrip]. change (EmptyString +:+ v) with v.
    destruct (rstrip v) as [|d r].
    + rewrite Hc. by exists EmptyString.
    + by exists (String d r).
  - intros Hp. destruct (IH Hp) as [r Hr]. exists r. cbn [rstrip].
    by rewrite Hr.
Qed.

(** Stripping leaves a name and an operator in place when the name starts,
    and the operator ends, with a character that is not white space. *)
Lemma strip_keeps_name_op (name op version : string) :
  starts_nonspace name = true -> ends_nonspace op = true ->
  exists r, strip (name +:+ op +:+ version) = name +:+ op +:+ r.
Proof.
  intros Hname Hop. unfold strip.
  destruct name as [|c name]; [done|]. cbn [starts_nonspace] in Hname.
  apply negb_true_iff in Hname.
  change (String c name +:+ op +:+ version)
    with (String c (name +:+ op +:+ version)).
  cbn [lstrip]. rewrite Hname.
  change (String c (name +:+ op +:+ version))
    with (String c name +:+ op +:+ version).
  rewrite <- string_app_assoc.
  destruct (rstrip_prefix (String c name +:+ op) version) as [r Hr].
  { by apply ends_nonspace_app. }
  exists r. by rewrite Hr, string_app_assoc.
Qed.

Lemma unlisted_not_flagged (name op version : string) :
  name ∈ dom deprecated -> op ∈ unlisted_operators ->
  all_chars not_separator version = true ->
  detect_outdated_patterns [name +:+ op +:+ version] = [].
Proof.
  intros Hname Hop Hversion.
  assert (Hkeys : name = "request" \/ name = "moment" \/ name = "lodash"
                  \/ name = "node-uuid").
  { rewrite deprecated_dom in Hname.
    rewrite !elem_of_union, !elem_of_singleton in Hname. tauto. }
  assert (Hn : all_chars not_separator name = true
               /\ starts_nonspace name = true).
  { destruct Hkeys as [->|[->|[->| ->]]]; by split. }
  destruct Hn as [Hsep Hstart].
  assert (Hend : ends_nonspace op = true).
  { pose proof Hop as Hop'. unfold unlisted_operators in Hop'.
    repeat (apply elem_of_cons in Hop' as [->|Hop']); try reflexivity.
    by apply elem_of_nil in Hop'. }
  unfold detect_outdated_patterns. cbn [omap list_omap].
  rewrite (dep_name_keeps_unlisted name op version Hsep Hop Hversion).
  destruct (strip_keeps_name_op name op version Hstart Hend) as [r ->].
  destruct (deprecated !! (name +:+ op +:+ r)) as [msg|] eqn:E; [|done].
  exfalso.
  assert (K : name +:+ op +:+ r ∈ dom deprecated) by (apply elem_of_dom; eauto).
  rewrite deprecated_dom in K.
  rewrite !elem_of_union, !elem_of_singleton in K.
  unfold unlisted_operators in Hop.
  repeat (apply elem_of_cons in Hop as [->|Hop]); [| | | | |by apply elem_of_nil in Hop];
    destruct Hkeys as [->|[->|[->| ->]]]; simpl in K;
    destruct K as [[[K|K]|K]|K]; discriminate K.
Qed.

(** C3 (the code departs from the claim).  Only the separators at,
    greater-or-equal and double equals are stripped from a collected
    identifier.  A deny-listed package written with one of the operators
    less-than, greater-than, less-or-equal, compatible-release or not-equal
    and a version is looked up with operator and version still attached,
    and no warning is emitted for it: a requirements.txt constraining
    lodash, moment, request and node-uuid that way ends with an empty
    warning list, whereas the same packages written with greater-or-equal
    or double equals are warned about. *)
Theorem unlisted_constraints_hide_denylisted_packages :
  (forall name op version : string,
      all_chars not_separator name = true ->
      op ∈ unlisted_operators ->
      all_chars not_separator version = true ->
      dep_name (name +:+ op +:+ version) = strip (name +:+ op +:+ version))
  /\ (forall name op version : string,
        name ∈ dom deprecated ->
        op ∈ unlisted_operators ->
        all_chars not_separator version = true ->
        detect_outdated_patterns [name +:+ op +:+ version] = [])
  /\ (forall (json_loads : string -> option pyval) (json_format verbose : bool),
        exists r,
          main json_loads (Args true json_format verbose)
               (Some (requirements_project unlisted_constraint_lines))
          = Exit 0 [] (Some r)
          /\ all_deps r = [("pip", Pip unlisted_constraint_lines)]
          /\ warnings r = [])
  /\ (forall (json_loads : string -> option pyval) (json_format verbose : bool),
        exists r,
          main json_loads (Args true json_format verbose)
               (Some (requirements_project listed_constraint_lines))
          = Exit 0 [] (Some r)
          /\ all_deps r = [("pip", Pip listed_constraint_lines)]
          /\ map dependency (warnings r) = ["lodash"; "moment"]).
Proof.
  split; [apply dep_name_keeps_unlisted|].
  split; [apply unlisted_not_flagged|].
  split; intros json_loads json_format verbose; eexists;
    (split; [by vm_compute|]); split; reflexivity.
Qed.

Lemma unlisted_constraints_hide_denylisted_packages_witness :
  dep_name ("lodash" +:+ "~=" +:+ "4.17") = strip ("lodash" +:+ "~=" +:+ "4.17")
  /\ detect_outdated_patterns ["lodash" +:+ "~=" +:+ "4.17"] = [].
Proof.
  split.
  - apply (proj1 unlisted_constraints_hide_denylisted_packages "lodash" "~=" "4.17");
      [reflexivity| |reflexivity].
    unfold unlisted_operators. apply list_elem_of_In. simpl. tauto.
  - apply (proj1 (proj2 unlisted_constraints_hide_denylisted_packages)
             "lodash" "~=" "4.17"); [| |reflexivity].
    + apply elem_of_dom. by eexists.
    + unfold unlisted_operators. apply list_elem_of_In. simpl. tauto.
Defined.

End AnalyzerConstraints.
